(** * Azure dynamic inventory with Defender onboarding: a verified model

    Shallow embedding of [Ansible-Azure/azure_inventory_mde.py].

    Conventions of the embedding.
    - A value decoded by [json.loads] is a [pyval].  JSON numbers are kept as
      integers; the program never computes with them, it only tests their
      truthiness and copies them.
    - A Python [str] is a [string] whose characters are read as the code
      points U+0000..U+00FF; [str.lower], [str.strip], [in] and [str.split]
      are the Python operations on that range.
    - An exception is an explicit [Raise e] in the [result] type; a
      [try/except] is a [match] on it.
    - The Azure CLI is a script: the finite list of answers the next calls
      will get.  A loop that asks for more answers than the script holds has
      no outcome ([None]).  A process that cannot be started and output
      that cannot be read as text are among the answers.
    - The cache file, the clock and standard output are fields of a [world];
      the I/O errors a cache operation meets are part of it.  Standard
      output is taken to accept what [print] writes.  Serialised documents
      are kept symbolic. *)

From Stdlib Require Import ZArith QArith Ascii String List Bool Lia DecimalString.
From stdpp Require Import gmap strings list fin_maps.

Local Open Scope string_scope.
Local Open Scope list_scope.
Local Open Scope Z_scope.

Set Warnings "-register-all,-clear-no-such-hyp".

(** ** Python values and exceptions *)

Module Py.

Inductive pyval : Type :=
| PNone
| PBool (b : bool)
| PInt (n : Z)
| PStr (s : string)
| PList (l : list pyval)
| PDict (d : list (string * pyval)).

Inductive exn : Type :=
| KeyError
| AttributeError
| TypeError
| TimeoutExpired
| JSONDecodeError
| ValueError
| OSError
| UnicodeDecodeError
| RecursionError.

Inductive result (A : Type) : Type :=
| Ok (a : A)
| Raise (e : exn).
Arguments Ok {A} a.
Arguments Raise {A} e.

Definition bind {A B : Type} (r : result A) (k : A → result B) : result B :=
  match r with
  | Ok a => k a
  | Raise e => Raise e
  end.

Notation "'let!' x ':=' r 'in' k" := (bind r (fun x => k))
  (at level 10, x name, r at level 100, k at level 200).

Definition is_ok {A : Type} (r : result A) : bool :=
  match r with Ok _ => true | Raise _ => false end.

(** [bool(v)]: what [if v], [not v], [v or w] look at. *)
Definition truthy (v : pyval) : bool :=
  match v with
  | PNone => false
  | PBool b => b
  | PInt n => negb (n =? 0)
  | PStr s => negb (String.eqb s "")
  | PList l => match l with [] => false | _ => true end
  | PDict d => match d with [] => false | _ => true end
  end.

(** [a or b] *)
Definition py_or (a b : pyval) : pyval := if truthy a then a else b.

(** Lookup of a key among the items of a dict. *)
Fixpoint assoc (k : string) (d : list (string * pyval)) : option pyval :=
  match d with
  | [] => None
  | (k', v) :: d' => if String.eqb k k' then Some v else assoc k d'
  end.

(** [d.get(k, default)]; only a dict has the method. *)
Definition get_default (d : pyval) (k : string) (default : pyval) : result pyval :=
  match d with
  | PDict items => Ok (match assoc k items with Some v => v | None => default end)
  | _ => Raise AttributeError
  end.

(** [d.get(k)] *)
Definition get (d : pyval) (k : string) : result pyval := get_default d k PNone.

(** [d[k]] with a string key. *)
Definition getitem (d : pyval) (k : string) : result pyval :=
  match d with
  | PDict items =>
      match assoc k items with
      | Some v => Ok v
      | None => Raise KeyError
      end
  | _ => Raise TypeError
  end.

(** [for x in v] / [list.extend(v)]: the elements a value iterates over. *)
Fixpoint chars (s : string) : list pyval :=
  match s with
  | EmptyString => []
  | String c s' => PStr (String c EmptyString) :: chars s'
  end.

Definition iter (v : pyval) : result (list pyval) :=
  match v with
  | PList l => Ok l
  | PStr s => Ok (chars s)
  | PDict d => Ok (map (fun kv => PStr (fst kv)) d)
  | _ => Raise TypeError
  end.

(** [v == "literal"] *)
Definition eq_str (v : pyval) (s : string) : bool :=
  match v with
  | PStr s' => String.eqb s' s
  | _ => false
  end.

(** Keys of a dict must be hashable: lists and dicts are not. *)
Definition hashable (v : pyval) : bool :=
  match v with
  | PList _ | PDict _ => false
  | _ => true
  end.

(** [a == b] on hashable values ([True == 1], [False == 0]). *)
Definition key_eqb (a b : pyval) : bool :=
  match a, b with
  | PNone, PNone => true
  | PBool x, PBool y => Bool.eqb x y
  | PBool x, PInt n | PInt n, PBool x => (if x then 1 else 0) =? n
  | PInt n, PInt m => n =? m
  | PStr s, PStr t => String.eqb s t
  | _, _ => false
  end.

(** *** String methods *)

Definition code (c : ascii) : N := N_of_ascii c.

(** [c.isspace()] for a code point below U+0100. *)
Definition isspace (c : ascii) : bool :=
  let n := code c in
  ((9 <=? n) && (n <=? 13) || (28 <=? n) && (n <=? 32)
   || (n =? 133) || (n =? 160))%N.

(** [c.lower()] for a code point below U+0100. *)
Definition lower_char (c : ascii) : ascii :=
  let n := code c in
  (if (65 <=? n) && (n <=? 90)
      || (192 <=? n) && (n <=? 222) && negb (n =? 215)
   then ascii_of_N (n + 32) else c)%N.

Fixpoint lower (s : string) : string :=
  match s with
  | EmptyString => EmptyString
  | String c s' => String (lower_char c) (lower s')
  end.

Fixpoint lstrip (s : string) : string :=
  match s with
  | EmptyString => EmptyString
  | String c s' => if isspace c then lstrip s' else s
  end.

Fixpoint rstrip (s : string) : string :=
  match s with
  | EmptyString => EmptyString
  | String c s' =>
      match rstrip s' with
      | EmptyString => if isspace c then EmptyString else String c EmptyString
      | r => String c r
      end
  end.

(** [s.strip()] *)
Definition strip (s : string) : string := rstrip (lstrip s).

(** [p in s] for strings: [p] occurs in [s] as a contiguous run. *)
Fixpoint contains (p s : string) : bool :=
  String.prefix p s ||
  match s with
  | EmptyString => false
  | String _ s' => contains p s'
  end.

(** [s.split(".")[0]]: the characters before the first dot. *)
Fixpoint first_label (s : string) : string :=
  match s with
  | EmptyString => EmptyString
  | String c s' => if Ascii.eqb c "."%char then EmptyString else String c (first_label s')
  end.

(** The string holds the character U+0000. *)
Fixpoint has_nul (s : string) : bool :=
  match s with
  | EmptyString => false
  | String c s' => Ascii.eqb c "000"%char || has_nul s'
  end.

(** A string method called on a value that may not be a string. *)
Definition str_method (f : string → string) (v : pyval) : result string :=
  match v with
  | PStr s => Ok (f s)
  | _ => Raise AttributeError
  end.

(** [str(n)] for an integer. *)
Definition str_of_int (n : Z) : string := NilZero.string_of_int (Z.to_int n).

End Py.
Export Py.

(** ** The Azure CLI as a scripted collaborator *)

Module Cli.

(** What [r.stdout.strip()] and [json.loads(r.stdout)] make of the captured
    output: nothing but white space; text the decoder rejects with a
    [JSONDecodeError]; text nested deeper than the interpreter's recursion
    limit, on which the decoder raises a [RecursionError]; text with an
    integer literal longer than the digit limit of [int], on which it raises
    a plain [ValueError]; or text it decodes to a value. *)
Inductive stdout_text : Type :=
| Blank
| NotJson
| TooDeep
| HugeInt
| Json (v : pyval).

(** One answer of [subprocess.run(..., text=True, timeout=...)]: the
    process cannot be started (no executable of that name, no permission:
    an [OSError]); the time limit passes; the process ends but its output
    is not text in the locale's encoding; or the process ends with a
    status and its output. *)
Inductive az_outcome : Type :=
| NotStarted
| TimedOut
| Undecodable
| Exited (returncode : Z) (stdout : stdout_text).

(** The answers still to come and the command lines run so far. *)
Record backend : Type := Backend {
  pending : list az_outcome;
  issued : list (list string)
}.

(** The argument vector.  Before it starts the process, [subprocess.run]
    rejects an argument that is not a [str] with a [TypeError] and a string
    that holds a NUL character with a [ValueError]. *)
Fixpoint argv (cmd : list pyval) : result (list string) :=
  match cmd with
  | [] => Ok []
  | PStr s :: cmd' =>
      if has_nul s then Raise ValueError
      else let! args := argv cmd' in Ok (s :: args)
  | _ :: _ => Raise TypeError
  end.

(** [not r.stdout.strip()] *)
Definition is_blank (stdout : stdout_text) : bool :=
  match stdout with
  | Blank => true
  | _ => false
  end.

(** [json.loads(r.stdout)] *)
Definition json_loads (stdout : stdout_text) : result pyval :=
  match stdout with
  | Json v => Ok v
  | Blank | NotJson => Raise JSONDecodeError
  | TooDeep => Raise RecursionError
  | HugeInt => Raise ValueError
  end.

Definition subprocess_run (o : az_outcome) : result (Z * stdout_text) :=
  match o with
  | NotStarted => Raise OSError
  | TimedOut => Raise TimeoutExpired
  | Undecodable => Raise UnicodeDecodeError
  | Exited rc out => Ok (rc, out)
  end.

(** [az(cmd)]: run [["az"] + cmd] against the next scripted answer. *)
Definition az (cmd : list pyval) (b : backend)
  : option (result (Z * stdout_text) * backend) :=
  match argv cmd with
  | Raise e => Some (Raise e, b)
  | Ok args =>
      match pending b with
      | [] => None
      | o :: rest =>
          Some (subprocess_run o, Backend rest (issued b ++ ["az" :: args]))
      end
  end.

End Cli.
Export Cli.

(** ** Tuning knobs *)

Definition CACHE_TTL_SECONDS : Z := 300.
Definition GRAPH_PAGE_SIZE : Z := 1000.

(** ** Paginated query client *)

(** The command line of one page request. *)
Definition graph_cmd (query : string) (page_size : Z) (skip_token : pyval) : list pyval :=
  [PStr "graph"; PStr "query"; PStr "-q"; PStr query;
   PStr "--first"; PStr (str_of_int page_size); PStr "-o"; PStr "json"]
  ++ (if truthy skip_token then [PStr "--skip-token"; skip_token] else []).

(** [data = payload.get("data") or []] as the records [results.extend(data)]
    appends. *)
Definition page_records (payload : pyval) : result (list pyval) :=
  let! data := get payload "data" in
  iter (py_or data (PList [])).

(** [payload.get("skipToken") or payload.get("skip_token") or None] *)
Definition page_token (payload : pyval) : result pyval :=
  let! t1 := get payload "skipToken" in
  let! t2 := get payload "skip_token" in
  Ok (py_or (py_or t1 t2) PNone).

(** How one iteration of the [while True] loop ends. *)
Inductive iteration : Type :=
| Return (results : list pyval)
| Continue (results : list pyval) (skip_token : pyval).

(** The body of the loop after the call [az(cmd, ...)] has answered [r]. *)
Definition graph_query_iteration (results : list pyval)
    (r : result (Z * stdout_text)) : result iteration :=
  match r with
  | Raise TimeoutExpired => Ok (Return [])
  | Raise e => Raise e
  | Ok (returncode, stdout) =>
      if negb (returncode =? 0) || is_blank stdout then Ok (Return [])
      else
        match json_loads stdout with
        | Raise JSONDecodeError => Ok (Return [])
        | Raise e => Raise e
        | Ok payload =>
            let! data := page_records payload in
            let results := results ++ data in
            let! skip_token := page_token payload in
            if negb (truthy skip_token) then Ok (Return results)
            else Ok (Continue results skip_token)
        end
  end.

(** The [while True] loop of [graph_query_all], one scripted answer per
    iteration; the call of [az] is written out so that the recursion is on
    the script (see [graph_query_loop_az]). *)
Fixpoint graph_query_loop (query : string) (page_size : Z)
    (results : list pyval) (skip_token : pyval)
    (script : list az_outcome) (log : list (list string))
  : option (result (list pyval) * backend) :=
  match argv (graph_cmd query page_size skip_token) with
  | Raise e => Some (Raise e, Backend script log)
  | Ok args =>
      match script with
      | [] => None
      | o :: rest =>
          let b := Backend rest (log ++ ["az" :: args]) in
          match graph_query_iteration results (subprocess_run o) with
          | Raise e => Some (Raise e, b)
          | Ok (Return results') => Some (Ok results', b)
          | Ok (Continue results' skip_token') =>
              graph_query_loop query page_size results' skip_token' rest (issued b)
          end
      end
  end.

Definition graph_query_all (query : string) (page_size : Z) (b : backend)
  : option (result (list pyval) * backend) :=
  graph_query_loop query page_size [] PNone (pending b) (issued b).

(** ** Onboarding-key resolver *)

Definition mde_url : string :=
  "https://graph.microsoft.com/v1.0/security/machines?$top=1000".

Definition rest_cmd (url : pyval) : list pyval :=
  [PStr "rest"; PStr "--method"; PStr "GET"; PStr "--url"; url;
   PStr "--headers"; PStr "ConsistencyLevel=eventual"].

(** [graph_api_get] after the call [az([...])] has answered [r]: the
    decoded payload, or [None] after a timeout, a non-zero exit status,
    blank output or a [JSONDecodeError]; any other exception of the call
    or of the decoder goes on to the caller. *)
Definition graph_api_payload (r : result (Z * stdout_text)) : result pyval :=
  match r with
  | Raise TimeoutExpired => Ok PNone
  | Raise e => Raise e
  | Ok (returncode, stdout) =>
      if negb (returncode =? 0) || is_blank stdout then Ok PNone
      else
        match json_loads stdout with
        | Raise JSONDecodeError => Ok PNone
        | Raise e => Raise e
        | Ok payload => Ok payload
        end
  end.

Definition graph_api_get (url : pyval) (b : backend)
  : option (result pyval * backend) :=
  match az (rest_cmd url) b with
  | None => None
  | Some (r, b') => Some (graph_api_payload r, b')
  end.

(** The body of [for m in payload.get("value", [])]. *)
Definition scan_machine (keys : gset string) (m : pyval) : result (gset string) :=
  let! platform := get m "osPlatform" in
  if negb (eq_str platform "Windows") then Ok keys
  else
    let! vm_id := get m "azureVmId" in
    let! keys1 := (if truthy vm_id
                   then let! v := getitem m "azureVmId" in
                        let! k := str_method lower v in
                        Ok ({[ k ]} ∪ keys)
                   else Ok keys) in
    let! dns := get m "computerDnsName" in
    if truthy dns
    then let! v := getitem m "computerDnsName" in
         let! k := str_method (fun s => lower (first_label s)) v in
         Ok ({[ k ]} ∪ keys1)
    else Ok keys1.

Fixpoint scan_machines (keys : gset string) (ms : list pyval) : result (gset string) :=
  match ms with
  | [] => Ok keys
  | m :: ms' => let! keys' := scan_machine keys m in scan_machines keys' ms'
  end.

Definition scan_page (keys : gset string) (payload : pyval) : result (gset string) :=
  let! value := get_default payload "value" (PList []) in
  let! ms := iter value in
  scan_machines keys ms.

(** The [while url] loop of [get_mde_windows_machine_keys]; the call of
    [graph_api_get] is written out so that the recursion is on the script
    (see [mde_loop_graph_api_get]). *)
Fixpoint mde_loop (url : pyval) (keys : gset string)
    (script : list az_outcome) (log : list (list string))
  : option (result (gset string) * backend) :=
  if negb (truthy url) then Some (Ok keys, Backend script log)
  else
    match argv (rest_cmd url) with
    | Raise e => Some (Raise e, Backend script log)
    | Ok args =>
        match script with
        | [] => None
        | o :: rest =>
            let b := Backend rest (log ++ ["az" :: args]) in
            match graph_api_payload (subprocess_run o) with
            | Raise e => Some (Raise e, b)
            | Ok payload =>
                if negb (truthy payload) then Some (Ok keys, b)
                else
                  match scan_page keys payload with
                  | Raise e => Some (Raise e, b)
                  | Ok keys' =>
                      match get payload "@odata.nextLink" with
                      | Raise e => Some (Raise e, b)
                      | Ok url' => mde_loop url' keys' rest (issued b)
                      end
                  end
            end
        end
    end.

Definition get_mde_windows_machine_keys (b : backend)
  : option (result (gset string) * backend) :=
  mde_loop (PStr mde_url) ∅ (pending b) (issued b).

(** ** Inventory document *)

(** The entry of one host in [_meta.hostvars].  [mde_onboarded] is [None]
    while the dict has no such key. *)
Record hostvar : Type := Hostvar {
  ansible_host : option string;
  private_ip : option string;
  resource_group : pyval;
  location : pyval;
  os_type : pyval;
  nic_id : pyval;
  mde_onboarded : option bool
}.

Inductive group : Type :=
| g_all
| g_linux
| g_windows
| g_network_appliances
| g_windows_mde_onboarded
| g_windows_mde_not_onboarded.

#[global] Instance group_eq_dec : EqDecision group.
Proof. solve_decision. Defined.

Record inventory : Type := Inventory {
  hostvars : gmap string hostvar;
  all_hosts : list string;
  linux_hosts : list string;
  windows_hosts : list string;
  network_appliances_hosts : list string;
  windows_mde_onboarded_hosts : list string;
  windows_mde_not_onboarded_hosts : list string
}.

Definition empty_inventory : inventory :=
  {| hostvars := ∅;
     all_hosts := [];
     linux_hosts := [];
     windows_hosts := [];
     network_appliances_hosts := [];
     windows_mde_onboarded_hosts := [];
     windows_mde_not_onboarded_hosts := [] |}.

(** [inventory[g]["hosts"]] *)
Definition hosts (g : group) (inv : inventory) : list string :=
  match g with
  | g_all => all_hosts inv
  | g_linux => linux_hosts inv
  | g_windows => windows_hosts inv
  | g_network_appliances => network_appliances_hosts inv
  | g_windows_mde_onboarded => windows_mde_onboarded_hosts inv
  | g_windows_mde_not_onboarded => windows_mde_not_onboarded_hosts inv
  end.

(** [inventory[g]["hosts"].append(name)] *)
Definition append_host (g : group) (name : string) (inv : inventory) : inventory :=
  let add (g' : group) (l : list string) : list string :=
    match g, g' with
    | g_all, g_all
    | g_linux, g_linux
    | g_windows, g_windows
    | g_network_appliances, g_network_appliances
    | g_windows_mde_onboarded, g_windows_mde_onboarded
    | g_windows_mde_not_onboarded, g_windows_mde_not_onboarded => l ++ [name]
    | _, _ => l
    end in
  {| hostvars := hostvars inv;
     all_hosts := add g_all (all_hosts inv);
     linux_hosts := add g_linux (linux_hosts inv);
     windows_hosts := add g_windows (windows_hosts inv);
     network_appliances_hosts := add g_network_appliances (network_appliances_hosts inv);
     windows_mde_onboarded_hosts :=
       add g_windows_mde_onboarded (windows_mde_onboarded_hosts inv);
     windows_mde_not_onboarded_hosts :=
       add g_windows_mde_not_onboarded (windows_mde_not_onboarded_hosts inv) |}.

Definition set_hostvars (hv : gmap string hostvar) (inv : inventory) : inventory :=
  {| hostvars := hv;
     all_hosts := all_hosts inv;
     linux_hosts := linux_hosts inv;
     windows_hosts := windows_hosts inv;
     network_appliances_hosts := network_appliances_hosts inv;
     windows_mde_onboarded_hosts := windows_mde_onboarded_hosts inv;
     windows_mde_not_onboarded_hosts := windows_mde_not_onboarded_hosts inv |}.

Definition set_mde_onboarded (b : bool) (h : hostvar) : hostvar :=
  {| ansible_host := ansible_host h;
     private_ip := private_ip h;
     resource_group := resource_group h;
     location := location h;
     os_type := os_type h;
     nic_id := nic_id h;
     mde_onboarded := Some b |}.

(** [inventory["_meta"]["hostvars"][name]["mde_onboarded"] = b] *)
Definition attach_onboarding (name : string) (b : bool) (inv : inventory) : result inventory :=
  match hostvars inv !! name with
  | Some h => Ok (set_hostvars (<[name := set_mde_onboarded b h]> (hostvars inv)) inv)
  | None => Raise KeyError
  end.

(** ** Join and classification engine *)

Definition APPLIANCE_PUBLISHERS : list string :=
  ["citrix"; "barracudanetworks"; "f5-networks"; "paloaltonetworks";
   "fortinet"; "sophos"; "checkpoint"; "cisco"].

(** [any(p in publisher for p in APPLIANCE_PUBLISHERS)] *)
Definition is_appliance (publisher : string) : bool :=
  existsb (fun p => contains p publisher) APPLIANCE_PUBLISHERS.

(** [nic_ip_map]: the entries written so far, newest first; a later write
    for an equal key hides the earlier one. *)
Fixpoint nic_lookup (nic_ip_map : list (pyval * option string)) (k : pyval)
  : option string :=
  match nic_ip_map with
  | [] => None
  | (k', ip) :: m' => if key_eqb k k' then ip else nic_lookup m' k
  end.

(** [nic_ip_map.get(nic_id)] *)
Definition nic_get (nic_ip_map : list (pyval * option string)) (k : pyval)
  : result (option string) :=
  if hashable k then Ok (nic_lookup nic_ip_map k) else Raise TypeError.

(** The body of [for nic in nics]. *)
Definition record_nic (nic_ip_map : list (pyval * option string)) (nic : pyval)
  : result (list (pyval * option string)) :=
  let! nic_id := get nic "id" in
  if truthy nic_id
  then
    let! raw := get nic "privateIp" in
    let! ip := str_method strip (py_or raw (PStr "")) in
    let value := if String.eqb ip "" then None else Some ip in
    if hashable nic_id then Ok ((nic_id, value) :: nic_ip_map) else Raise TypeError
  else Ok nic_ip_map.

Fixpoint build_nic_ip_map (nic_ip_map : list (pyval * option string))
    (nics : list pyval) : result (list (pyval * option string)) :=
  match nics with
  | [] => Ok nic_ip_map
  | nic :: nics' =>
      let! m := record_nic nic_ip_map nic in
      build_nic_ip_map m nics'
  end.

(** [name = (vm.get("name") or "").strip()] *)
Definition vm_name (vm : pyval) : result string :=
  let! raw := get vm "name" in
  str_method strip (py_or raw (PStr "")).

(** [publisher = (vm["publisher"] or "").lower()] *)
Definition vm_publisher (vm : pyval) : result string :=
  let! raw := getitem vm "publisher" in
  str_method lower (py_or raw (PStr "")).

(** [vm_id_key = (vm.get("id") or "").lower()] *)
Definition vm_id_key (vm : pyval) : result string :=
  let! raw := get vm "id" in
  str_method lower (py_or raw (PStr "")).

(** The onboarding test of the Windows branch. *)
Definition is_onboarded (mde_windows_keys : gset string) (id_key name_key : string) : bool :=
  bool_decide (id_key ∈ mde_windows_keys) || bool_decide (name_key ∈ mde_windows_keys).

(** The body of [for vm in vms]. *)
Definition process_vm (mde_windows_keys : gset string)
    (nic_ip_map : list (pyval * option string))
    (inventory0 : inventory) (vm : pyval) : result inventory :=
  let! name := vm_name vm in
  if String.eqb name "" then Ok inventory0
  else
    let! nic := get vm "nicId" in
    let! ip := nic_get nic_ip_map nic in
    let inv1 := append_host g_all name inventory0 in
    let! rg := get vm "resourceGroup" in
    let! loc := get vm "location" in
    let! os := get vm "osType" in
    let entry := {| ansible_host := ip; private_ip := ip; resource_group := rg;
                    location := loc; os_type := os; nic_id := nic;
                    mde_onboarded := None |} in
    let inv2 := set_hostvars (<[name := entry]> (hostvars inv1)) inv1 in
    let! publisher := vm_publisher vm in
    let appliance := is_appliance publisher in
    let! os_type := get vm "osType" in
    if eq_str os_type "Linux" && negb appliance
    then Ok (append_host g_linux name inv2)
    else if eq_str os_type "Linux" && appliance
    then Ok (append_host g_network_appliances name inv2)
    else if eq_str os_type "Windows"
    then
      let inv3 := append_host g_windows name inv2 in
      let! id_key := vm_id_key vm in
      let name_key := lower name in
      let onboarded := is_onboarded mde_windows_keys id_key name_key in
      let! inv4 := attach_onboarding name onboarded inv3 in
      if onboarded
      then Ok (append_host g_windows_mde_onboarded name inv4)
      else Ok (append_host g_windows_mde_not_onboarded name inv4)
    else Ok (append_host g_windows name inv2).

Fixpoint process_vms (mde_windows_keys : gset string)
    (nic_ip_map : list (pyval * option string))
    (inventory0 : inventory) (vms : list pyval) : result inventory :=
  match vms with
  | [] => Ok inventory0
  | vm :: vms' =>
      let! inv := process_vm mde_windows_keys nic_ip_map inventory0 vm in
      process_vms mde_windows_keys nic_ip_map inv vms'
  end.

(** Steps 3 and 4 of [main]: the NIC map, then the inventory. *)
Definition build_inventory (vms nics : list pyval) (mde_windows_keys : gset string)
  : result inventory :=
  let! nic_ip_map := build_nic_ip_map [] nics in
  process_vms mde_windows_keys nic_ip_map empty_inventory vms.

(** ** Freshness cache *)

(** Serialised documents are kept symbolic: the program writes, reads and
    prints them but never looks inside. *)
Inductive text : Type :=
| json_dump (payload : inventory)        (* what [json.dump(payload, f)] writes *)
| json_dumps_indent2 (inv : inventory)   (* [json.dumps(inv, indent=2)] *)
| truncated (payload : inventory)        (* what an interrupted [json.dump] left *)
| other_text (s : string).

(** The document a text decodes to, where it is JSON. *)
Definition decoded (t : text) : option inventory :=
  match t with
  | json_dump d => Some d
  | json_dumps_indent2 d => Some d
  | truncated _ => None
  | other_text _ => None
  end.

Inductive cache_file : Type :=
| Missing
| File (content : text) (mtime : Q).

Inductive write_failure : Type :=
| OpenFails        (* [open(CACHE_FILE, "w")] raises *)
| DumpFails.       (* the file is opened, then writing raises *)

(** Everything outside the program: the clock, the cache file, the I/O
    errors the next cache operation will meet, the CLI and standard output. *)
Record world : Type := World {
  now : Q;
  cache : cache_file;
  stat_fault : bool;                   (* [os.path.getmtime] raises *)
  read_fault : bool;                   (* opening or reading the cache raises *)
  write_fault : option write_failure;
  cli : backend;
  printed : list text
}.

Definition set_cache (c : cache_file) (w : world) : world :=
  {| now := now w; cache := c; stat_fault := stat_fault w;
     read_fault := read_fault w; write_fault := write_fault w;
     cli := cli w; printed := printed w |}.

Definition set_cli (b : backend) (w : world) : world :=
  {| now := now w; cache := cache w; stat_fault := stat_fault w;
     read_fault := read_fault w; write_fault := write_fault w;
     cli := b; printed := printed w |}.

(** [print(t)] *)
Definition print (t : text) (w : world) : world :=
  {| now := now w; cache := cache w; stat_fault := stat_fault w;
     read_fault := read_fault w; write_fault := write_fault w;
     cli := cli w; printed := printed w ++ [t] |}.

(** [a < b] on clock readings. *)
Definition Qltb (a b : Q) : bool := negb (Qle_bool b a).

(** The [try] block of [load_cache_if_fresh]; [Ok None] when control leaves
    it without returning. *)
Definition load_cache_try (w : world) : result (option text) :=
  match cache w with
  | Missing => Ok None
  | File content mtime =>
      if stat_fault w then Raise OSError
      else if Qltb (now w - mtime) (inject_Z CACHE_TTL_SECONDS)
      then if read_fault w then Raise OSError else Ok (Some content)
      else Ok None
  end.

Definition load_cache_if_fresh (w : world) : result (option text) :=
  match load_cache_try w with
  | Ok (Some content) => Ok (Some content)
  | Ok None => Ok None
  | Raise _ => Ok None          (* except Exception: pass *)
  end.

(** The [try] block of [save_cache]: opening for writing empties the file,
    then the document is written. *)
Definition save_cache_try (payload : inventory) (w : world) : result unit * world :=
  match write_fault w with
  | Some OpenFails => (Raise OSError, w)
  | Some DumpFails => (Raise OSError, set_cache (File (truncated payload) (now w)) w)
  | None => (Ok tt, set_cache (File (json_dump payload) (now w)) w)
  end.

Definition save_cache (payload : inventory) (w : world) : result unit * world :=
  match save_cache_try payload w with
  | (Ok tt, w') => (Ok tt, w')
  | (Raise _, w') => (Ok tt, w')     (* except Exception: pass *)
  end.

(** ** Main *)

Definition vm_query : string := "
Resources
| where type == 'microsoft.compute/virtualmachines'
| project
    name,
    resourceGroup,
    location,
    osType = tostring(properties.storageProfile.osDisk.osType),
    publisher = tostring(properties.storageProfile.imageReference.publisher),
    offer     = tostring(properties.storageProfile.imageReference.offer),
    sku       = tostring(properties.storageProfile.imageReference.sku),
    nicId  = tostring(properties.networkProfile.networkInterfaces[0].id)
".

Definition nic_query : string := "
Resources
| where type == 'microsoft.network/networkinterfaces'
| project
    id,
    privateIp = tostring(properties.ipConfigurations[0].properties.privateIPAddress)
".

(** A step of [main]: it may have no outcome (the script ran dry), raise,
    or return. *)
Definition step (A : Type) : Type := world → option (result A * world).

Definition step_bind {A B : Type} (m : step A) (k : A → step B) : step B :=
  fun w =>
    match m w with
    | None => None
    | Some (Raise e, w') => Some (Raise e, w')
    | Some (Ok a, w') => k a w'
    end.

Notation "'do!' x ':=' m 'in' k" := (step_bind m (fun x => k))
  (at level 10, x name, m at level 100, k at level 200).

Definition on_cli {A : Type} (f : backend → option (result A * backend)) : step A :=
  fun w =>
    match f (cli w) with
    | None => None
    | Some (r, b) => Some (r, set_cli b w)
    end.

(** [print(t)], on a standard output that accepts the text. *)
Definition emit (t : text) : step unit := fun w => Some (Ok tt, print t w).

Definition do_save_cache (payload : inventory) : step unit :=
  fun w => Some (save_cache payload w).

Definition lift {A : Type} (r : result A) : step A := fun w => Some (r, w).

Definition main : step unit :=
  do! cached := (fun w => Some (load_cache_if_fresh w, w)) in
  match cached with
  | Some content => emit content
  | None =>
      do! vms := on_cli (graph_query_all vm_query GRAPH_PAGE_SIZE) in
      do! nics := on_cli (graph_query_all nic_query GRAPH_PAGE_SIZE) in
      do! mde_windows_keys := on_cli get_mde_windows_machine_keys in
      match vms with
      | [] =>
          let inv := empty_inventory in
          do! _ := do_save_cache inv in
          emit (json_dumps_indent2 inv)
      | _ :: _ =>
          do! inv := lift (build_inventory vms nics mde_windows_keys) in
          do! _ := do_save_cache inv in
          emit (json_dumps_indent2 inv)
      end
  end.

(** * Vocabulary of the statements *)

(** ** Placement of a host *)

(** Where the loop body puts a host. *)
Inductive placement : Type :=
| in_linux
| in_network_appliances
| in_windows (onboarded : bool)
| in_windows_fallback.

(** The groups a placement appends the host name to. *)
Definition member (g : group) (p : placement) : bool :=
  match g, p with
  | g_all, _ => true
  | g_linux, in_linux => true
  | g_network_appliances, in_network_appliances => true
  | g_windows, in_windows _ => true
  | g_windows, in_windows_fallback => true
  | g_windows_mde_onboarded, in_windows true => true
  | g_windows_mde_not_onboarded, in_windows false => true
  | _, _ => false
  end.

(** The [mde_onboarded] key a placement leaves in the host's metadata. *)
Definition onboarding (p : placement) : option bool :=
  match p with
  | in_windows b => Some b
  | _ => None
  end.

(** The branch taken by the loop body, read off the record alone:
    [None] for a record that is skipped. *)
Definition classify (mde_windows_keys : gset string) (vm : pyval)
  : result (option (string * placement)) :=
  let! name := vm_name vm in
  if String.eqb name "" then Ok None
  else
    let! publisher := vm_publisher vm in
    let! os := get vm "osType" in
    if eq_str os "Linux" && negb (is_appliance publisher)
    then Ok (Some (name, in_linux))
    else if eq_str os "Linux" && is_appliance publisher
    then Ok (Some (name, in_network_appliances))
    else if eq_str os "Windows"
    then
      let! id_key := vm_id_key vm in
      Ok (Some (name, in_windows (is_onboarded mde_windows_keys id_key (lower name))))
    else Ok (Some (name, in_windows_fallback)).

(** What one iteration does to the inventory, in terms of [classify]. *)
Definition step_effect (inv inv' : inventory) (c : option (string * placement)) : Prop :=
  match c with
  | None => inv' = inv
  | Some (n, p) =>
      n ≠ "" ∧
      (∀ g, hosts g inv' = hosts g inv ++ (if member g p then [n] else [])) ∧
      ∃ hv, hostvars inv' = <[n := hv]> (hostvars inv) ∧ mde_onboarded hv = onboarding p
  end.

(** The name under which a record enters the inventory, if it does. *)
Definition record_name (vm : pyval) : option string :=
  match vm_name vm with
  | Ok n => if String.eqb n "" then None else Some n
  | Raise _ => None
  end.

Definition record_names (vms : list pyval) : list string := omap record_name vms.

(** What a record adds to group [g]. *)
Definition contribution (keys : gset string) (g : group) (vm : pyval) : list string :=
  match classify keys vm with
  | Ok (Some (n, p)) => if member g p then [n] else []
  | _ => []
  end.

Definition contributions (keys : gset string) (g : group) (vms : list pyval)
  : list string :=
  flat_map (contribution keys g) vms.

(** Number of times [n] occurs in [l]. *)
Definition occurrences (n : string) (l : list string) : nat :=
  count_occ String.string_dec l n.

(** The entry [hv] is what the loop body writes under [n] for the record
    [vm]: the record's own fields, the address the NIC map holds for its
    [nicId], and the onboarding flag of the Windows branch. *)
Definition entry_mirrors (keys : gset string) (nic_ip_map : list (pyval * option string))
    (vm : pyval) (n : string) (hv : hostvar) : Prop :=
  vm_name vm = Ok n
  ∧ get vm "nicId" = Ok (nic_id hv)
  ∧ nic_get nic_ip_map (nic_id hv) = Ok (ansible_host hv)
  ∧ private_ip hv = ansible_host hv
  ∧ get vm "resourceGroup" = Ok (resource_group hv)
  ∧ get vm "location" = Ok (location hv)
  ∧ get vm "osType" = Ok (os_type hv)
  ∧ match mde_onboarded hv with
    | Some b => os_type hv = PStr "Windows"
                ∧ ∃ id_key, vm_id_key vm = Ok id_key
                            ∧ b = is_onboarded keys id_key (lower n)
    | None => os_type hv ≠ PStr "Windows"
    end.

(** The run ends in the exception [e], having printed nothing and left
    the cache file as it was. *)
Definition aborts (w : world) (e : exn) : Prop :=
  ∃ w', main w = Some (Raise e, w') ∧ printed w' = printed w ∧ cache w' = cache w.

(** ** Well-formed rows *)

(** The field is absent, [null] or a string. *)
Definition field_ok (d : list (string * pyval)) (k : string) : bool :=
  match assoc k d with
  | None | Some PNone | Some (PStr _) => true
  | Some _ => false
  end.

(** A row of the VM query: an object that has a [publisher] and whose
    [name], [nicId], [id] and [publisher] are strings or [null]. *)
Definition vm_record_ok (vm : pyval) : bool :=
  match vm with
  | PDict d =>
      field_ok d "name" && field_ok d "nicId" && field_ok d "id"
      && field_ok d "publisher"
      && match assoc "publisher" d with Some _ => true | None => false end
  | _ => false
  end.

(** A row of the NIC query: an object whose [id] and [privateIp] are strings
    or [null]. *)
Definition nic_record_ok (nic : pyval) : bool :=
  match nic with
  | PDict d => field_ok d "id" && field_ok d "privateIp"
  | _ => false
  end.

(** The denylist as the specification words it: the lower-cased publisher
    has one of the eight vendor names as a substring. *)
Definition denylisted (publisher : string) : Prop :=
  ∃ p, p ∈ ["citrix"; "barracudanetworks"; "f5-networks"; "paloaltonetworks";
            "fortinet"; "sophos"; "checkpoint"; "cisco"]
       ∧ ∃ a b, publisher = (a ++ p ++ b)%string.

(** The record without its key [k]. *)
Fixpoint remove_key (k : string) (d : list (string * pyval)) : list (string * pyval) :=
  match d with
  | [] => []
  | (k', v) :: d' =>
      if String.eqb k k' then remove_key k d' else (k', v) :: remove_key k d'
  end.

(** ** Answers of the CLI *)

(** The page fetch failed in one of the ways the callers handle: timeout,
    non-zero exit status, blank output, or output the decoder rejects with
    a [JSONDecodeError]. *)
Definition fetch_failed (o : az_outcome) : bool :=
  match o with
  | TimedOut => true
  | NotStarted | Undecodable => false
  | Exited returncode stdout =>
      negb (returncode =? 0)
      || match stdout with Blank | NotJson => true | _ => false end
  end.

(** The page fetch ends in an exception no caller handles: the process
    cannot be started, the output is not text in the locale's encoding, or
    the process succeeded and the decoder meets nesting beyond the
    recursion limit or an integer beyond the digit limit. *)
Definition fetch_raises (o : az_outcome) : option exn :=
  match o with
  | NotStarted => Some OSError
  | Undecodable => Some UnicodeDecodeError
  | Exited returncode TooDeep => if returncode =? 0 then Some RecursionError else None
  | Exited returncode HugeInt => if returncode =? 0 then Some ValueError else None
  | _ => None
  end.

(** The answer of a successful fetch with this decoded payload. *)
Definition fetched (payload : pyval) : az_outcome := Exited 0 (Json payload).

(** The command line of a page request with continuation token [token]
    (none for the empty string). *)
Definition page_command (query : string) (page_size : Z) (token : string) : list string :=
  ["az"; "graph"; "query"; "-q"; query; "--first"; str_of_int page_size; "-o"; "json"]
  ++ (if String.eqb token "" then [] else ["--skip-token"; token]).

(** No token, or a string without NUL: what the command line can carry. *)
Definition token_text (token : pyval) : option string :=
  match token with
  | PStr s => if has_nul s then None else Some s
  | _ => if truthy token then None else Some ""
  end.

(** A page that carries a continuation token: its records and its token. *)
Definition page_with_token (payload : pyval) (page : list pyval * string) : Prop :=
  page_records payload = Ok (fst page)
  ∧ page_token payload = Ok (PStr (snd page))
  ∧ snd page ≠ ""
  ∧ has_nul (snd page) = false.

(** The object has nothing under [k] that counts: the key is absent or its
    value is falsy. *)
Definition absent_or_falsy (d : list (string * pyval)) (k : string) : Prop :=
  ∀ v, assoc k d = Some v → truthy v = false.

(** The response carries the continuation token [t]: a non-empty string
    under [skipToken], or, with nothing there, under [skip_token]. *)
Definition carries_token (d : list (string * pyval)) (t : string) : Prop :=
  t ≠ ""
  ∧ (assoc "skipToken" d = Some (PStr t)
     ∨ (absent_or_falsy d "skipToken" ∧ assoc "skip_token" d = Some (PStr t))).

(** The response carries no continuation token under either key. *)
Definition carries_no_token (d : list (string * pyval)) : Prop :=
  absent_or_falsy d "skipToken" ∧ absent_or_falsy d "skip_token".

(** The records of the response: the list under [data], none when there is
    nothing there. *)
Definition carries_records (d : list (string * pyval)) (records : list pyval) : Prop :=
  assoc "data" d = Some (PList records)
  ∨ (records = [] ∧ absent_or_falsy d "data").

(** A decoded page with its records and its continuation token, which the
    command line can carry. *)
Definition token_page (payload : pyval) (page : list pyval * string) : Prop :=
  ∃ d, payload = PDict d
       ∧ carries_records d (fst page)
       ∧ carries_token d (snd page)
       ∧ has_nul (snd page) = false.

(** A decoded response with its records and no continuation token. *)
Definition last_page (payload : pyval) (records : list pyval) : Prop :=
  ∃ d, payload = PDict d ∧ carries_records d records ∧ carries_no_token d.



(** The requests made for a run over these pages: the first without a
    token, then one per token. *)
Definition page_commands (query : string) (page_size : Z) (first : string)
    (pages : list (list pyval * string)) : list (list string) :=
  map (page_command query page_size) (first :: map snd pages).

(** An answer of the expected shape: a failed fetch, or an object whose
    [data] is iterable and whose token is a string or falsy. *)
Definition response_ok (o : az_outcome) : Prop :=
  fetch_failed o = true
  ∨ ∃ payload data token t,
      o = fetched payload ∧ page_records payload = Ok data
      ∧ page_token payload = Ok token ∧ token_text token = Some t.

Definition rest_command (url : string) : list string :=
  ["az"; "rest"; "--method"; "GET"; "--url"; url;
   "--headers"; "ConsistencyLevel=eventual"].

(** The keys one page adds. *)
Definition page_keys (payload : pyval) : result (gset string) := scan_page ∅ payload.

(** A page the loop goes on from: a truthy payload whose
    [@odata.nextLink] is a non-empty string. *)
Definition page_with_next_link (payload : pyval) (page : gset string * string) : Prop :=
  truthy payload = true
  ∧ page_keys payload = Ok (fst page)
  ∧ get payload "@odata.nextLink" = Ok (PStr (snd page))
  ∧ snd page ≠ ""
  ∧ has_nul (snd page) = false.

(** ** The columns of a query *)

(** The text after the first occurrence of [marker]. *)
Fixpoint text_after (marker s : string) : option string :=
  if String.prefix marker s
  then Some (String.substring (String.length marker)
               (String.length s - String.length marker) s)
  else match s with
       | EmptyString => None
       | String _ s' => text_after marker s'
       end.

Fixpoint split_on (sep : ascii) (s : string) : list string :=
  match s with
  | EmptyString => [EmptyString]
  | String c s' =>
      if Ascii.eqb c sep then EmptyString :: split_on sep s'
      else match split_on sep s' with
           | [] => [String c EmptyString]
           | h :: t => String c h :: t
           end
  end.

(** The leading word of an item of a [project] clause: the column name
    of [name] and of [name = expression]. *)
Fixpoint leading_word (s : string) : string :=
  match s with
  | EmptyString => EmptyString
  | String c s' =>
      if isspace c || Ascii.eqb c "="%char then EmptyString
      else String c (leading_word s')
  end.

(** The columns a query's [project] clause names. *)
Definition projected_columns (query : string) : list string :=
  match text_after "| project" query with
  | Some clause => map (fun item => leading_word (lstrip item)) (split_on ","%char clause)
  | None => []
  end.

(** The row returned for a resource: its values for the projected columns
    and nothing else. *)
Definition project (columns : list string) (resource : list (string * pyval))
  : list (string * pyval) :=
  List.filter (fun kv => bool_decide (fst kv ∈ columns)) resource.

(** ** Sample data *)

(** A machine Defender reports as onboarded, and the page that lists it. *)
Definition onboarded_machine : pyval :=
  PDict [("osPlatform", PStr "Windows");
         ("azureVmId", PStr "9F3C-A1");
         ("computerDnsName", PStr "Host-7.corp.local")].

Definition first_mde_page : pyval :=
  PDict [("value", PList [onboarded_machine]);
         ("@odata.nextLink", PStr "https://graph.microsoft.com/v1.0/security/machines?$skip=1000")].

(** A record of the resource graph with nothing but a name. *)
Definition row (name : string) : pyval := PDict [("name", PStr name)].

(** A page of the resource graph: its records and, when there is one, its
    continuation token. *)
Definition page_of (records : list pyval) (token : option string) : pyval :=
  PDict (("data", PList records)
         :: match token with
            | Some t => [("skipToken", PStr t)]
            | None => []
            end).

Definition four_responses : list az_outcome :=
  [fetched (page_of [row "vm1"] (Some "t1"));
   fetched (page_of [row "vm2"] (Some "t2"));
   fetched (page_of [row "vm3"] (Some "t3"));
   fetched (page_of [row "vm4"] None)].

(** The resource identifier of a VM. *)
Definition vm1_id : string := "/subscriptions/5f1c/VM1".

(** The VM as the resource graph holds it. *)
Definition vm1_resource : list (string * pyval) :=
  [("id", PStr vm1_id);
   ("name", PStr "vm1");
   ("resourceGroup", PStr "rg-app");
   ("location", PStr "westeurope");
   ("osType", PStr "Windows");
   ("publisher", PStr "MicrosoftWindowsServer");
   ("offer", PStr "WindowsServer");
   ("sku", PStr "2022-datacenter");
   ("nicId", PStr "/subscriptions/5f1c/nic/vm1-nic")].

(** The row the VM query returns for it. *)
Definition vm1_row : pyval := PDict (project (projected_columns vm_query) vm1_resource).

Definition vm1_nic : pyval :=
  PDict [("id", PStr "/subscriptions/5f1c/nic/vm1-nic"); ("privateIp", PStr "10.0.0.4")].

(** Defender's record of the same machine: same identifier, another host
    name. *)
Definition vm1_machine : pyval :=
  PDict [("osPlatform", PStr "Windows");
         ("azureVmId", PStr vm1_id);
         ("computerDnsName", PStr "WIN-7F3K2.corp.local")].

Definition vm1_keys : gset string := {[ lower vm1_id; "win-7f3k2" ]}.

Definition vm1_world : world :=
  {| now := 0;
     cache := Missing;
     stat_fault := false;
     read_fault := false;
     write_fault := None;
     cli := Backend [fetched (PDict [("data", PList [vm1_row])]);
                     fetched (PDict [("data", PList [vm1_nic])]);
                     fetched (PDict [("value", PList [vm1_machine])])] [];
     printed := [] |}.

Definition vm1_hostvar (onboarded : bool) : hostvar :=
  {| ansible_host := Some "10.0.0.4";
     private_ip := Some "10.0.0.4";
     resource_group := PStr "rg-app";
     location := PStr "westeurope";
     os_type := PStr "Windows";
     nic_id := PStr "/subscriptions/5f1c/nic/vm1-nic";
     mde_onboarded := Some onboarded |}.

(** The inventory with [vm1] as its only host. *)
Definition vm1_inventory (onboarded : bool) : inventory :=
  {| hostvars := {[ "vm1" := vm1_hostvar onboarded ]};
     all_hosts := ["vm1"];
     linux_hosts := [];
     windows_hosts := ["vm1"];
     network_appliances_hosts := [];
     windows_mde_onboarded_hosts := if onboarded then ["vm1"] else [];
     windows_mde_not_onboarded_hosts := if onboarded then [] else ["vm1"] |}.

(** A small fleet: a Linux server, a Cisco appliance, a Windows server, a
    row with a blank name and a row without [osType]. *)
Definition web1 : pyval :=
  PDict [("name", PStr " web1 "); ("osType", PStr "Linux");
         ("publisher", PStr "Canonical"); ("nicId", PStr "nic-web1")].

Definition fw1 : pyval :=
  PDict [("name", PStr "fw1"); ("osType", PStr "Linux");
         ("publisher", PStr "Cisco Systems, Inc."); ("nicId", PNone)].

Definition win1 : pyval :=
  PDict [("name", PStr "WIN1"); ("osType", PStr "Windows");
         ("publisher", PStr "MicrosoftWindowsServer"); ("id", PStr "/VM/WIN1")].

Definition unnamed : pyval :=
  PDict [("name", PStr "   "); ("osType", PStr "Linux"); ("publisher", PStr "Canonical")].

Definition misc1 : pyval :=
  PDict [("name", PStr "misc1"); ("publisher", PStr "")].

Definition fleet : list pyval := [web1; fw1; win1; unnamed; misc1].

Definition fleet_nics : list pyval :=
  [PDict [("id", PStr "nic-web1"); ("privateIp", PStr " 10.1.0.5 ")]].

Definition fleet_keys : gset string := {[ "win1" ]}.

Definition first_mde_page_summary : list (gset string * string) :=
  [({[ "9f3c-a1"; "host-7" ]},
    "https://graph.microsoft.com/v1.0/security/machines?$skip=1000")].

(** Three pages with their tokens under [skipToken], under [skip_token],
    and under [skip_token] beside a blank [skipToken]; and a last response
    with a record and a null [skipToken]. *)
Definition mixed_pages : list pyval :=
  [PDict [("data", PList [row "vm1"]); ("skipToken", PStr "t1")];
   PDict [("data", PList [row "vm2"; row "vm3"]); ("skip_token", PStr "t2")];
   PDict [("skipToken", PStr ""); ("data", PList [row "vm4"]); ("skip_token", PStr "t3")]].

Definition last_response : pyval :=
  PDict [("skipToken", PNone); ("data", PList [row "vm5"])].

Definition three_pages_summary : list (list pyval * string) :=
  [([row "vm1"], "t1"); ([row "vm2"; row "vm3"], "t2"); ([row "vm4"], "t3")].

(** A run whose VM query times out while the two other queries answer. *)
Definition vm_outage_world : world :=
  {| now := 0;
     cache := Missing;
     stat_fault := false;
     read_fault := false;
     write_fault := None;
     cli := Backend [TimedOut;
                     fetched (PDict [("data", PList [vm1_nic])]);
                     fetched (PDict [("value", PList [vm1_machine])])] [];
     printed := [] |}.

(** The disk fills while the inventory of [vm1] is being written; the next
    run starts a minute later. *)
Definition full_disk_world : world :=
  {| now := 0;
     cache := File (json_dump empty_inventory) (-400);
     stat_fault := false;
     read_fault := false;
     write_fault := Some DumpFails;
     cli := Backend [] [];
     printed := [] |}.

Definition next_run_world : world :=
  {| now := 60;
     cache := File (truncated (vm1_inventory false)) 0;
     stat_fault := false;
     read_fault := false;
     write_fault := None;
     cli := Backend [] [];
     printed := [] |}.

(** The last page of the security-machines endpoint: a Linux machine, and
    a Windows machine known by its DNS name alone. *)
Definition linux_machine : pyval :=
  PDict [("osPlatform", PStr "Linux");
         ("azureVmId", PStr "77AB-02");
         ("computerDnsName", PStr "db-01.corp.local")].

Definition dns_only_machine : pyval :=
  PDict [("osPlatform", PStr "Windows"); ("computerDnsName", PStr "Win1.corp.local")].

Definition last_mde_page : pyval :=
  PDict [("value", PList [linux_machine; dns_only_machine])].

(** Three NIC rows: the first two bear one id, the third has no address. *)
Definition nic_a_old : pyval :=
  PDict [("id", PStr "nic-a"); ("privateIp", PStr " 10.0.0.1")].

Definition nic_a_new : pyval :=
  PDict [("id", PStr "nic-a"); ("privateIp", PStr "10.0.0.2 ")].

Definition nic_b : pyval := PDict [("id", PStr "nic-b"); ("privateIp", PNone)].

(** A run whose VM query times out and whose NIC query is answered with
    a JSON array. *)
Definition nic_array_world : world :=
  {| now := 0;
     cache := Missing;
     stat_fault := false;
     read_fault := false;
     write_fault := None;
     cli := Backend [TimedOut; fetched (PList [])] [];
     printed := [] |}.

(** Rows that bear one name: two Linux servers, one of them a Cisco
    appliance; a row without [osType] and a Windows server. *)
Definition dup_linux : pyval :=
  PDict [("name", PStr "dup"); ("osType", PStr "Linux"); ("publisher", PStr "Canonical")].

Definition dup_cisco : pyval :=
  PDict [("name", PStr "dup"); ("osType", PStr "Linux"); ("publisher", PStr "cisco")].

Definition dup_fallback : pyval :=
  PDict [("name", PStr "dup"); ("publisher", PStr "")].

Definition dup_windows : pyval :=
  PDict [("name", PStr "dup"); ("osType", PStr "Windows");
         ("publisher", PStr "MicrosoftWindowsServer")].

(** A run that starts a minute after the inventory of [vm1] was cached,
    with a CLI that would answer. *)
Definition warm_world : world :=
  {| now := 60;
     cache := File (json_dump (vm1_inventory false)) 0;
     stat_fault := false;
     read_fault := false;
     write_fault := None;
     cli := cli vm1_world;
     printed := [] |}.

(** The world the run of [vm1_world] ends in. *)
Definition vm1_world_done : world :=
  {| now := 0;
     cache := File (json_dump (vm1_inventory false)) 0;
     stat_fault := false;
     read_fault := false;
     write_fault := None;
     cli := Backend []
              [page_command vm_query GRAPH_PAGE_SIZE "";
               page_command nic_query GRAPH_PAGE_SIZE "";
               rest_command mde_url];
     printed := [json_dumps_indent2 (vm1_inventory false)] |}.

(** * Properties *)

Example lower_mixed : lower "Cisco Systems, Inc." = "cisco systems, inc.".
Proof. reflexivity. Qed.

Example strip_both : strip "  vm 1 	" = "vm 1".
Proof. reflexivity. Qed.

Example first_label_fqdn : first_label "Host-7.corp.local" = "Host-7".
Proof. reflexivity. Qed.

Example contains_mid : contains "cisco" "the cisco box" = true.
Proof. reflexivity. Qed.

Example str_of_page_size : str_of_int 1000 = "1000".
Proof. reflexivity. Qed.

(** ** Exceptions and strings *)

Lemma bind_ok {A B : Type} (r : result A) (k : A → result B) (b : B) :
  bind r k = Ok b → ∃ a, r = Ok a ∧ k a = Ok b.
Proof. destruct r as [a|e]; simpl; [eauto | discriminate]. Qed.

Lemma bind_raise {A B : Type} (r : result A) (k : A → result B) (e : exn) :
  r = Raise e → bind r k = Raise e.
Proof. intros ->. reflexivity. Qed.

(** Take apart a hypothesis [bind r k = Ok b]. *)
Ltac bind_inv H :=
  let a := fresh "a" in
  let Ha := fresh "Ha" in
  apply bind_ok in H; destruct H as (a & Ha & H).

(** Membership in a list that is written out. *)
Ltac in_list :=
  repeat first [apply list_elem_of_here | apply list_elem_of_further].

(** A decidable proposition settled by evaluation. *)
Ltac by_evaluation := apply (bool_decide_unpack _); vm_compute; exact I.

Lemma string_eqb_false (s t : string) : String.eqb s t = false ↔ s ≠ t.
Proof. apply String.eqb_neq. Qed.

Lemma truthy_str (s : string) : truthy (PStr s) = true ↔ s ≠ "".
Proof.
  simpl. rewrite negb_true_iff. apply String.eqb_neq.
Qed.

Lemma eq_str_true (v : pyval) (s : string) : eq_str v s = true ↔ v = PStr s.
Proof.
  destruct v; simpl; try (split; [discriminate | intros; discriminate]).
  rewrite String.eqb_eq. split; [intros -> | intros [= ->]]; reflexivity.
Qed.

Lemma append_cons (c : ascii) (a b : string) :
  (String c a ++ b)%string = String c (a ++ b)%string.
Proof. reflexivity. Qed.

Lemma append_nil (b : string) : ("" ++ b)%string = b.
Proof. reflexivity. Qed.

(** [String.prefix] is the Boolean form of "starts with". *)
Lemma prefix_spec (p s : string) :
  String.prefix p s = true ↔ ∃ b, s = (p ++ b)%string.
Proof.
  revert s. induction p as [|c p IH]; intros s.
  - split; [intros _; exists s; reflexivity | intros _; destruct s; reflexivity].
  - destruct s as [|c' s]; simpl.
    + split; [discriminate | intros [b Hb]; discriminate].
    + destruct (Ascii.ascii_dec c c') as [->|Hne].
      * rewrite IH. split; intros [b Hb]; exists b;
          rewrite append_cons in *; congruence.
      * split; [discriminate | intros [b Hb]; rewrite append_cons in Hb; congruence].
Qed.

(** [contains p s] holds exactly when [s] is [a ++ p ++ b]. *)
Lemma contains_spec (p s : string) :
  contains p s = true ↔ ∃ a b, s = (a ++ p ++ b)%string.
Proof.
  induction s as [|c s IH]; cbn [contains].
  - rewrite orb_false_r, prefix_spec. split.
    + intros [b Hb]. exists "", b. exact Hb.
    + intros (a & b & Hab). destruct a as [|c a]; [|discriminate].
      exists b. exact Hab.
  - rewrite orb_true_iff, prefix_spec, IH. split.
    + intros [[b Hb] | (a & b & Hab)].
      * exists "", b. exact Hb.
      * exists (String c a), b. rewrite append_cons. congruence.
    + intros (a & b & Hab). destruct a as [|c' a].
      * left. exists b. exact Hab.
      * right. exists a, b. rewrite append_cons in Hab. congruence.
Qed.

Lemma rstrip_cons (c : ascii) (s : string) :
  rstrip (String c s)
  = match rstrip s with
    | EmptyString => if isspace c then EmptyString else String c EmptyString
    | r => String c r
    end.
Proof. reflexivity. Qed.

Lemma rstrip_idem (s : string) : rstrip (rstrip s) = rstrip s.
Proof.
  induction s as [|c s IH]; [reflexivity|].
  rewrite rstrip_cons.
  destruct (rstrip s) as [|c' r] eqn:Hr.
  - destruct (isspace c) eqn:Hc; [reflexivity|].
    rewrite rstrip_cons. simpl. rewrite Hc. reflexivity.
  - rewrite rstrip_cons, IH. reflexivity.
Qed.

Lemma lstrip_head (s : string) :
  match lstrip s with
  | EmptyString => True
  | String c _ => isspace c = false
  end.
Proof.
  induction s as [|c s IH]; simpl; [exact I|].
  destruct (isspace c) eqn:Hc; [exact IH | exact Hc].
Qed.

Lemma rstrip_head (c : ascii) (s : string) :
  isspace c = false → ∃ r, rstrip (String c s) = String c r.
Proof.
  intros Hc. rewrite rstrip_cons. destruct (rstrip s); [rewrite Hc|]; eauto.
Qed.

(** A stripped string has no white space left to strip. *)
Lemma strip_idem (s : string) : strip (strip s) = strip s.
Proof.
  unfold strip. pose proof (lstrip_head s) as Hh.
  destruct (lstrip s) as [|c t] eqn:Hl; [reflexivity|].
  destruct (rstrip_head c t Hh) as [r Hr]. rewrite Hr.
  cbn [lstrip]. rewrite Hh. rewrite <- Hr. apply rstrip_idem.
Qed.

(** ** One iteration of the join, summarised *)

Section Join.

Context (keys : gset string) (m : list (pyval * option string)).

Lemma hosts_append_host (g g' : group) (name : string) (inv : inventory) :
  hosts g' (append_host g name inv)
  = hosts g' inv ++ (if bool_decide (g = g') then [name] else []).
Proof.
  destruct g, g'; simpl; rewrite ?app_nil_r; reflexivity.
Qed.

Lemma hosts_set_hostvars (g : group) (hv : gmap string hostvar) (inv : inventory) :
  hosts g (set_hostvars hv inv) = hosts g inv.
Proof. destruct g; reflexivity. Qed.

Lemma hostvars_append_host (g : group) (name : string) (inv : inventory) :
  hostvars (append_host g name inv) = hostvars inv.
Proof. reflexivity. Qed.

Lemma process_vm_classify (inv inv' : inventory) (vm : pyval) :
  process_vm keys m inv vm = Ok inv' →
  ∃ c, classify keys vm = Ok c ∧ step_effect inv inv' c.
Proof.
  unfold process_vm, classify. intros H.
  destruct (vm_name vm) as [name|e] eqn:Hname; [simpl in *|discriminate].
  destruct (String.eqb name "") eqn:Hne.
  { injection H as <-. exists None. split; reflexivity. }
  apply String.eqb_neq in Hne.
  bind_inv H. rename a into nic. clear Ha.
  bind_inv H. rename a into ip. clear Ha.
  bind_inv H. rename a into rg. clear Ha.
  bind_inv H. rename a into loc. clear Ha.
  bind_inv H. rename a into os0. clear Ha.
  bind_inv H. rename a into publisher. rewrite Ha. simpl.
  bind_inv H. rename a into os. rewrite Ha0. simpl.
  set (entry := {| ansible_host := ip; private_ip := ip; resource_group := rg;
                   location := loc; os_type := os0; nic_id := nic;
                   mde_onboarded := None |}) in *.
  destruct (eq_str os "Linux" && negb (is_appliance publisher)) eqn:B1.
  { injection H as <-. eexists; split; [reflexivity|]. split; [exact Hne|]. split.
    - intros g. rewrite hosts_append_host, hosts_set_hostvars, hosts_append_host.
      destruct g; simpl; rewrite ?app_nil_r; reflexivity.
    - exists entry. split; reflexivity. }
  destruct (eq_str os "Linux" && is_appliance publisher) eqn:B2.
  { injection H as <-. eexists; split; [reflexivity|]. split; [exact Hne|]. split.
    - intros g. rewrite hosts_append_host, hosts_set_hostvars, hosts_append_host.
      destruct g; simpl; rewrite ?app_nil_r; reflexivity.
    - exists entry. split; reflexivity. }
  destruct (eq_str os "Windows") eqn:B3.
  - bind_inv H. rename a into id_key. rewrite Ha1. simpl.
    set (b := is_onboarded keys id_key (lower name)) in *.
    bind_inv H. rename a into inv4.
    unfold attach_onboarding in Ha2. simpl in Ha2.
    rewrite lookup_insert_eq in Ha2. injection Ha2 as <-.
    eexists; split; [reflexivity|]. split; [exact Hne|].
    assert (Hinv : inv' = append_host
              (if b then g_windows_mde_onboarded else g_windows_mde_not_onboarded) name
              (set_hostvars (<[name := set_mde_onboarded b entry]> (hostvars inv))
                 (append_host g_windows name (append_host g_all name inv)))).
    { destruct b; injection H as <-; unfold set_hostvars; simpl;
        rewrite insert_insert_eq; reflexivity. }
    rewrite Hinv. split.
    + intros g. rewrite hosts_append_host, hosts_set_hostvars, !hosts_append_host.
      destruct b, g; simpl; rewrite ?app_nil_r, <- ?app_assoc; reflexivity.
    + exists (set_mde_onboarded b entry). split; reflexivity.
  - injection H as <-. eexists; split; [reflexivity|]. split; [exact Hne|]. split.
    + intros g. rewrite hosts_append_host, hosts_set_hostvars, hosts_append_host.
      destruct g; simpl; rewrite ?app_nil_r; reflexivity.
    + exists entry. split; reflexivity.
Qed.

(** ** The whole join, summarised *)

Lemma occurrences_app (n : string) (l1 l2 : list string) :
  occurrences n (l1 ++ l2) = (occurrences n l1 + occurrences n l2)%nat.
Proof. apply count_occ_app. Qed.

Lemma occurrences_pos (n : string) (l : list string) :
  (0 < occurrences n l)%nat ↔ n ∈ l.
Proof.
  unfold occurrences. rewrite list_elem_of_In. symmetry. apply count_occ_In.
Qed.

Lemma occurrences_zero (n : string) (l : list string) :
  occurrences n l = 0%nat ↔ n ∉ l.
Proof.
  unfold occurrences. rewrite list_elem_of_In. symmetry. apply count_occ_not_In.
Qed.

Lemma occurrences_NoDup (n : string) (l : list string) :
  NoDup l → n ∈ l → occurrences n l = 1%nat.
Proof.
  intros Hnd Hin. unfold occurrences.
  apply (proj1 (NoDup_count_occ' String.string_dec l)).
  - apply NoDup_ListNoDup. exact Hnd.
  - apply list_elem_of_In. exact Hin.
Qed.

Lemma classify_record_name (vm : pyval) (c : option (string * placement)) :
  classify keys vm = Ok c →
  record_name vm = match c with Some (n, _) => Some n | None => None end.
Proof.
  unfold classify, record_name. intros H.
  destruct (vm_name vm) as [name|e]; [simpl in H|discriminate].
  destruct (String.eqb name ""); [injection H as <-; reflexivity|].
  bind_inv H. bind_inv H.
  repeat match type of H with
         | (if ?b then _ else _) = _ => destruct b
         end;
    try (injection H as <-; reflexivity).
  bind_inv H. injection H as <-. reflexivity.
Qed.

Lemma process_vms_ok_classify (vms : list pyval) :
  ∀ inv inv', process_vms keys m inv vms = Ok inv' →
  ∀ vm, vm ∈ vms → ∃ c, classify keys vm = Ok c.
Proof.
  induction vms as [|vm0 vms IH]; intros inv inv' H vm Hin.
  - inversion Hin.
  - simpl in H. bind_inv H.
    apply elem_of_cons in Hin as [->|Hin].
    + apply process_vm_classify in Ha as (c & Hc & _). eauto.
    + eapply IH; eauto.
Qed.

(** Each group is the list of what the records add to it, in order. *)
Lemma process_vms_hosts (vms : list pyval) :
  ∀ inv inv', process_vms keys m inv vms = Ok inv' →
  ∀ g, hosts g inv' = hosts g inv ++ contributions keys g vms.
Proof.
  induction vms as [|vm vms IH]; intros inv inv' H g.
  - injection H as <-. simpl. rewrite app_nil_r. reflexivity.
  - simpl in H. bind_inv H.
    rewrite (IH _ _ H g). simpl.
    apply process_vm_classify in Ha as (c & Hc & Heff).
    unfold contribution at 1. rewrite Hc.
    destruct c as [[n p]|]; simpl in Heff.
    + destruct Heff as (_ & Hg & _). rewrite Hg, <- app_assoc. reflexivity.
    + rewrite Heff. reflexivity.
Qed.

(** In a run that completes, the [all] group lists the record names. *)
Lemma contributions_all (vms : list pyval) :
  (∀ vm, vm ∈ vms → ∃ c, classify keys vm = Ok c) →
  contributions keys g_all vms = record_names vms.
Proof.
  induction vms as [|vm vms IH]; intros Hc; [reflexivity|].
  simpl. unfold record_names. simpl. fold (record_names vms).
  destruct (Hc vm) as [c Hvm]; [left|].
  unfold contribution. rewrite Hvm, (classify_record_name _ _ Hvm).
  rewrite IH by (intros; apply Hc; right; assumption).
  destruct c as [[n p]|]; reflexivity.
Qed.

(** A record goes to exactly one of [linux], [network_appliances],
    [windows]: the three counts add up to the count in [all]. *)
Lemma contributions_partition (vms : list pyval) (n : string) :
  (occurrences n (contributions keys g_linux vms)
   + occurrences n (contributions keys g_network_appliances vms)
   + occurrences n (contributions keys g_windows vms))%nat
  = occurrences n (contributions keys g_all vms).
Proof.
  induction vms as [|vm vms IH]; [reflexivity|].
  unfold contributions in *. simpl. rewrite !occurrences_app, <- IH.
  unfold contribution. destruct (classify keys vm) as [[[n' p]|]|e]; simpl; try lia.
  destruct p as [| |b|]; simpl; lia.
Qed.

(** The two onboarding groups split the Windows branch. *)
Lemma contributions_in (g : group) (vms : list pyval) (n : string) :
  n ∈ contributions keys g vms ↔
  ∃ vm p, vm ∈ vms ∧ classify keys vm = Ok (Some (n, p)) ∧ member g p = true.
Proof.
  unfold contributions. rewrite list_elem_of_In, in_flat_map. split.
  - intros (vm & Hin & Hn). unfold contribution in Hn.
    destruct (classify keys vm) as [[[n' p]|]|e] eqn:Hc; try contradiction.
    destruct (member g p) eqn:Hm; [|contradiction].
    destruct Hn as [->|[]]. exists vm, p. rewrite list_elem_of_In. auto.
  - intros (vm & p & Hin & Hc & Hm). exists vm. split.
    + apply list_elem_of_In. exact Hin.
    + unfold contribution. rewrite Hc, Hm. left. reflexivity.
Qed.

Lemma record_names_cons (vm : pyval) (vms : list pyval) :
  record_names (vm :: vms)
  = match record_name vm with
    | Some n => n :: record_names vms
    | None => record_names vms
    end.
Proof. reflexivity. Qed.

Lemma record_names_in (vms : list pyval) (n : string) :
  n ∈ record_names vms ↔ ∃ vm, vm ∈ vms ∧ record_name vm = Some n.
Proof. unfold record_names. rewrite list_elem_of_omap. reflexivity. Qed.

Lemma contribution_name (g : group) (vm : pyval) (n : string) :
  n ∈ contribution keys g vm → record_name vm = Some n.
Proof.
  unfold contribution. destruct (classify keys vm) as [[[n' p]|]|e] eqn:Hc;
    try (intros H; inversion H; fail).
  destruct (member g p); intros H; [|inversion H].
  apply list_elem_of_singleton in H as ->.
  apply (classify_record_name _ _ Hc).
Qed.

Lemma contributions_absent (g : group) (vms : list pyval) (n : string) :
  n ∉ record_names vms → occurrences n (contributions keys g vms) = 0%nat.
Proof.
  intros Hn. apply occurrences_zero. intros Hin. apply Hn.
  apply contributions_in in Hin as (vm & p & Hvm & Hc & _).
  apply record_names_in. exists vm. split; [exact Hvm|].
  apply (classify_record_name _ _ Hc).
Qed.

(** A record whose name no other record bears is counted in a group once
    or not at all, as its placement says. *)
Lemma contributions_unique (g : group) (vms : list pyval)
    (vm : pyval) (n : string) (p : placement) :
  vm ∈ vms →
  classify keys vm = Ok (Some (n, p)) →
  occurrences n (record_names vms) = 1%nat →
  occurrences n (contributions keys g vms) = if member g p then 1%nat else 0%nat.
Proof.
  intros Hin Hc. pose proof (classify_record_name _ _ Hc) as Hname.
  induction vms as [|vm0 vms IH]; intros Hocc; [inversion Hin|].
  rewrite record_names_cons in Hocc.
  unfold contributions. simpl. fold (contributions keys g vms).
  rewrite occurrences_app.
  destruct (decide (record_name vm0 = Some n)) as [H0|H0].
  - rewrite H0 in Hocc. unfold occurrences in Hocc. simpl in Hocc.
    destruct (String.string_dec n n) as [_|Hnn]; [|contradiction].
    injection Hocc as Hocc. fold (occurrences n (record_names vms)) in Hocc.
    apply occurrences_zero in Hocc.
    rewrite (contributions_absent _ _ _ Hocc), Nat.add_0_r.
    assert (vm = vm0) as <-.
    { apply elem_of_cons in Hin as [->|Hin]; [reflexivity|].
      exfalso. apply Hocc. apply record_names_in. eauto. }
    unfold contribution. rewrite Hc. destruct (member g p); simpl;
      unfold occurrences; simpl;
      [destruct (String.string_dec n n); [reflexivity|contradiction] | reflexivity].
  - assert (Hvm : vm ∈ vms).
    { apply elem_of_cons in Hin as [->|Hin]; [contradiction|exact Hin]. }
    assert (Hrest : occurrences n (record_names vms) = 1%nat).
    { destruct (record_name vm0) as [n0|]; [|exact Hocc].
      unfold occurrences in *. simpl in Hocc.
      destruct (String.string_dec n0 n) as [->|_]; [contradiction|exact Hocc]. }
    rewrite (IH Hvm Hrest).
    assert (H00 : occurrences n (contribution keys g vm0) = 0%nat).
    { apply occurrences_zero. intros Hn. apply H0. eapply contribution_name; eauto. }
    rewrite H00. reflexivity.
Qed.

(** *** The metadata mapping *)

Lemma process_vm_hostvars_other (inv inv' : inventory) (vm : pyval) (n : string) :
  process_vm keys m inv vm = Ok inv' →
  record_name vm ≠ Some n →
  hostvars inv' !! n = hostvars inv !! n.
Proof.
  intros H Hn. apply process_vm_classify in H as (c & Hc & Heff).
  rewrite (classify_record_name _ _ Hc) in Hn.
  destruct c as [[n' p]|]; simpl in Heff; [|rewrite Heff; reflexivity].
  destruct Heff as (_ & _ & hv & -> & _).
  apply lookup_insert_ne. congruence.
Qed.

Lemma process_vms_hostvars_absent (vms : list pyval) (n : string) :
  ∀ inv inv', process_vms keys m inv vms = Ok inv' →
  n ∉ record_names vms →
  hostvars inv' !! n = hostvars inv !! n.
Proof.
  induction vms as [|vm vms IH]; intros inv inv' H Hn.
  - injection H as <-. reflexivity.
  - simpl in H. bind_inv H. rewrite record_names_cons in Hn.
    rewrite (IH _ _ H).
    + eapply process_vm_hostvars_other; [exact Ha|].
      intros Heq. rewrite Heq in Hn. apply Hn. left.
    + destruct (record_name vm); [|exact Hn].
      intros Hin. apply Hn. right. exact Hin.
Qed.

(** The keys of the metadata mapping are the record names. *)
Lemma process_vms_hostvars_dom (vms : list pyval) (n : string) :
  ∀ inv inv', process_vms keys m inv vms = Ok inv' →
  is_Some (hostvars inv' !! n) ↔ is_Some (hostvars inv !! n) ∨ n ∈ record_names vms.
Proof.
  induction vms as [|vm vms IH]; intros inv inv' H.
  - injection H as <-. split; [auto|]. intros [H|H]; [exact H|inversion H].
  - simpl in H. bind_inv H. rewrite (IH _ _ H), record_names_cons.
    pose proof Ha as Hstep.
    apply process_vm_classify in Ha as (c & Hc & Heff).
    rewrite (classify_record_name _ _ Hc).
    destruct c as [[n' p]|]; simpl in Heff.
    + destruct Heff as (_ & _ & hv & -> & _).
      rewrite lookup_insert. case_decide as Hd.
      * subst n'. split; [intros _; right; left|intros _; left; eauto].
      * rewrite elem_of_cons. split; [tauto|]. intros [?|[?|?]]; [tauto|congruence|tauto].
    + rewrite Heff. reflexivity.
Qed.

(** The entry of a record whose name no other record bears. *)
Lemma process_vms_hostvars_unique (vms : list pyval) (vm : pyval) (n : string) (p : placement) :
  vm ∈ vms →
  classify keys vm = Ok (Some (n, p)) →
  occurrences n (record_names vms) = 1%nat →
  ∀ inv inv', process_vms keys m inv vms = Ok inv' →
  ∃ hv, hostvars inv' !! n = Some hv ∧ mde_onboarded hv = onboarding p.
Proof.
  intros Hin Hc. pose proof (classify_record_name _ _ Hc) as Hname.
  induction vms as [|vm0 vms IH]; intros Hocc inv inv' H; [inversion Hin|].
  rewrite record_names_cons in Hocc. simpl in H. bind_inv H.
  destruct (decide (record_name vm0 = Some n)) as [H0|H0].
  - rewrite H0 in Hocc. unfold occurrences in Hocc. simpl in Hocc.
    destruct (String.string_dec n n) as [_|Hnn]; [|contradiction].
    injection Hocc as Hocc. fold (occurrences n (record_names vms)) in Hocc.
    apply occurrences_zero in Hocc.
    assert (vm = vm0) as <-.
    { apply elem_of_cons in Hin as [->|Hin]; [reflexivity|].
      exfalso. apply Hocc. apply record_names_in. eauto. }
    rewrite (process_vms_hostvars_absent _ _ _ _ H Hocc).
    apply process_vm_classify in Ha as (c & Hc' & Heff).
    rewrite Hc in Hc'. injection Hc' as <-. simpl in Heff.
    destruct Heff as (_ & _ & hv & -> & Hhv).
    exists hv. rewrite lookup_insert_eq. auto.
  - assert (Hvm : vm ∈ vms).
    { apply elem_of_cons in Hin as [->|Hin]; [contradiction|exact Hin]. }
    assert (Hrest : occurrences n (record_names vms) = 1%nat).
    { destruct (record_name vm0) as [n0|]; [|exact Hocc].
      unfold occurrences in *. simpl in Hocc.
      destruct (String.string_dec n0 n) as [->|_]; [contradiction|exact Hocc]. }
    exact (IH Hvm Hrest _ _ H).
Qed.

End Join.

(** ** Records the join completes on *)

Lemma field_ok_get (d : list (string * pyval)) (k : string) :
  field_ok d k = true →
  ∃ v, get (PDict d) k = Ok v ∧ hashable v = true
       ∧ ∃ s, py_or v (PStr "") = PStr s.
Proof.
  unfold field_ok, get, get_default. intros H.
  destruct (assoc k d) as [v|]; [|exists PNone; simpl; eauto].
  exists v. split; [reflexivity|].
  destruct v; try discriminate; simpl; eauto.
  unfold py_or. simpl. destruct (String.eqb s ""); simpl; eauto.
Qed.

Lemma field_ok_method (d : list (string * pyval)) (k : string) (f : string → string) :
  field_ok d k = true →
  ∃ s, (let! raw := get (PDict d) k in str_method f (py_or raw (PStr ""))) = Ok s.
Proof.
  intros H. destruct (field_ok_get d k H) as (v & -> & _ & s & Hs).
  simpl. rewrite Hs. simpl. eauto.
Qed.

Lemma record_nic_total (m : list (pyval * option string)) (nic : pyval) :
  nic_record_ok nic = true → ∃ m', record_nic m nic = Ok m'.
Proof.
  destruct nic; try discriminate. cbn [nic_record_ok]. intros H.
  apply andb_true_iff in H as [Hid Hip].
  unfold record_nic.
  destruct (field_ok_get d "id" Hid) as (v & -> & Hh & _). cbn [bind].
  destruct (truthy v); [|eauto].
  destruct (field_ok_get d "privateIp" Hip) as (ip & -> & _ & s & Hs). cbn [bind].
  rewrite Hs. cbn [bind str_method]. rewrite Hh. eauto.
Qed.

Lemma build_nic_ip_map_total (nics : list pyval) :
  Forall (fun nic => nic_record_ok nic = true) nics →
  ∀ m, ∃ m', build_nic_ip_map m nics = Ok m'.
Proof.
  induction 1 as [|nic nics Hnic _ IH]; intros m; simpl; [eauto|].
  destruct (record_nic_total m nic Hnic) as [m1 ->]. simpl. apply IH.
Qed.

Lemma process_vm_total (keys : gset string) (m : list (pyval * option string))
    (inv : inventory) (vm : pyval) :
  vm_record_ok vm = true → ∃ inv', process_vm keys m inv vm = Ok inv'.
Proof.
  destruct vm; try discriminate. cbn [vm_record_ok]. intros H.
  repeat (apply andb_true_iff in H as [H ?]).
  rename H into Hname, H0 into Hpresent, H1 into Hpub, H2 into Hid, H3 into Hnic.
  unfold process_vm, vm_name.
  destruct (field_ok_method d "name" strip Hname) as [name ->]. cbn [bind].
  destruct (String.eqb name ""); [eauto|].
  destruct (field_ok_get d "nicId" Hnic) as (nic & -> & Hh & _). cbn [bind].
  unfold nic_get. rewrite Hh. cbn [bind].
  assert (Hp : ∃ p, vm_publisher (PDict d) = Ok p).
  { unfold vm_publisher, getitem.
    destruct (field_ok_get d "publisher" Hpub) as (v & Hv & _ & s & Hs).
    unfold get, get_default in Hv.
    destruct (assoc "publisher" d) as [pv|]; [|discriminate].
    injection Hv as ->. cbn [bind]. rewrite Hs. cbn [bind str_method]. eauto. }
  destruct Hp as [p ->].
  unfold get at 1 2 3 4, get_default. cbn [bind].
  repeat match goal with
         | |- ∃ _, (if ?b then _ else _) = _ => destruct b
         end; eauto.
  unfold vm_id_key.
  destruct (field_ok_method d "id" lower Hid) as [k ->]. cbn [bind].
  unfold attach_onboarding. cbn [hostvars append_host set_hostvars].
  rewrite lookup_insert_eq. cbn [bind].
  destruct (is_onboarded keys k (lower name)); eauto.
Qed.

Lemma process_vms_total (keys : gset string) (m : list (pyval * option string))
    (vms : list pyval) :
  Forall (fun vm => vm_record_ok vm = true) vms →
  ∀ inv, ∃ inv', process_vms keys m inv vms = Ok inv'.
Proof.
  induction 1 as [|vm vms Hvm _ IH]; intros inv; simpl; [eauto|].
  destruct (process_vm_total keys m inv vm Hvm) as [inv1 ->]. simpl. apply IH.
Qed.

(** The join completes on well-formed rows. *)
Lemma build_inventory_total (vms nics : list pyval) (keys : gset string) :
  Forall (fun vm => vm_record_ok vm = true) vms →
  Forall (fun nic => nic_record_ok nic = true) nics →
  ∃ inv, build_inventory vms nics keys = Ok inv.
Proof.
  intros Hvms Hnics. unfold build_inventory.
  destruct (build_nic_ip_map_total nics Hnics []) as [m ->]. simpl.
  apply process_vms_total. exact Hvms.
Qed.

Lemma record_name_some (vm : pyval) (n : string) :
  record_name vm = Some n ↔ vm_name vm = Ok n ∧ n ≠ "".
Proof.
  unfold record_name. destruct (vm_name vm) as [n'|e].
  - destruct (String.eqb n' "") eqn:He.
    + apply String.eqb_eq in He. subst n'. split; [discriminate|].
      intros [[= <-] Hne]. contradiction.
    + apply String.eqb_neq in He. split.
      * intros [= ->]. auto.
      * intros [[= ->] _]. reflexivity.
  - split; [discriminate|]. intros [? _]. discriminate.
Qed.

Lemma vm_name_stripped (vm : pyval) (n : string) :
  vm_name vm = Ok n → strip n = n.
Proof.
  unfold vm_name. intros H. bind_inv H.
  destruct (py_or a (PStr "")); try discriminate.
  injection H as <-. apply strip_idem.
Qed.

Lemma build_inventory_hosts (vms nics : list pyval) (keys : gset string) (inv : inventory) :
  build_inventory vms nics keys = Ok inv →
  (∀ vm, vm ∈ vms → ∃ c, classify keys vm = Ok c)
  ∧ ∀ g, hosts g inv = contributions keys g vms.
Proof.
  unfold build_inventory. intros H. bind_inv H. split.
  - eapply process_vms_ok_classify. exact H.
  - intros g. rewrite (process_vms_hosts _ _ _ _ _ H g). destruct g; reflexivity.
Qed.

Lemma build_inventory_hostvars (vms nics : list pyval) (keys : gset string)
    (inv : inventory) (n : string) :
  build_inventory vms nics keys = Ok inv →
  is_Some (hostvars inv !! n) ↔ n ∈ record_names vms.
Proof.
  unfold build_inventory. intros H. bind_inv H.
  rewrite (process_vms_hostvars_dom _ _ _ n _ _ H). simpl.
  rewrite lookup_empty. split; [|auto].
  intros [[? ?]|?]; [discriminate|assumption].
Qed.

Lemma build_inventory_entry (vms nics : list pyval) (keys : gset string)
    (inv : inventory) (vm : pyval) (n : string) (p : placement) :
  build_inventory vms nics keys = Ok inv →
  vm ∈ vms →
  classify keys vm = Ok (Some (n, p)) →
  occurrences n (record_names vms) = 1%nat →
  (∀ g, occurrences n (hosts g inv) = if member g p then 1%nat else 0%nat)
  ∧ ∃ hv, hostvars inv !! n = Some hv ∧ mde_onboarded hv = onboarding p.
Proof.
  intros H Hin Hc Hocc. split.
  - intros g. destruct (build_inventory_hosts _ _ _ _ H) as [_ Hg].
    rewrite Hg. eapply contributions_unique; eauto.
  - unfold build_inventory in H. bind_inv H.
    eapply process_vms_hostvars_unique; eauto.
Qed.

(** ** The join: where the hosts go *)

(** C3.  For a list of VM records in which every non-empty name (the
    stripped [name] field) occurs at most once, the join completes on
    well-formed rows, and whenever it completes: every record with a
    non-empty name has its name exactly once in [all], exactly once in
    [linux], [network_appliances] and [windows] taken together, and as a key
    of [_meta.hostvars]; every host of a group and every key of the metadata
    is the non-empty name of a record; the blank name of a record is in no
    group and is no key of the metadata. *)
Theorem join_places_each_named_record_once
    (vms nics : list pyval) (keys : gset string) :
  NoDup (record_names vms) →
  (Forall (fun vm => vm_record_ok vm = true) vms →
   Forall (fun nic => nic_record_ok nic = true) nics →
   ∃ inv, build_inventory vms nics keys = Ok inv)
  ∧ ∀ inv, build_inventory vms nics keys = Ok inv →
      (∀ vm n, vm ∈ vms → vm_name vm = Ok n → n ≠ "" →
         occurrences n (hosts g_all inv) = 1%nat
         ∧ (occurrences n (hosts g_linux inv)
            + occurrences n (hosts g_network_appliances inv)
            + occurrences n (hosts g_windows inv))%nat = 1%nat
         ∧ is_Some (hostvars inv !! n))
      ∧ (∀ n, (∃ g, n ∈ hosts g inv) ∨ is_Some (hostvars inv !! n) →
           n ≠ "" ∧ ∃ vm, vm ∈ vms ∧ vm_name vm = Ok n)
      ∧ (∀ vm s, vm ∈ vms → get vm "name" = Ok (PStr s) → strip s = "" →
           (∀ g, s ∉ hosts g inv) ∧ hostvars inv !! s = None).
Proof.
  intros Hnd. split; [apply build_inventory_total|].
  intros inv H.
  destruct (build_inventory_hosts _ _ _ _ H) as [Hcl Hg].
  pose proof (contributions_all keys vms Hcl) as Hall.
  assert (Hsrc : ∀ n, (∃ g, n ∈ hosts g inv) ∨ is_Some (hostvars inv !! n) →
                      n ∈ record_names vms).
  { intros n [[g Hn]|Hn].
    - rewrite Hg in Hn. apply contributions_in in Hn as (vm & p & Hvm & Hc & _).
      apply record_names_in. exists vm. split; [exact Hvm|].
      apply (classify_record_name _ _ _ Hc).
    - apply (build_inventory_hostvars _ _ _ _ n H). exact Hn. }
  assert (Hnamed : ∀ n, n ∈ record_names vms →
                        n ≠ "" ∧ ∃ vm, vm ∈ vms ∧ vm_name vm = Ok n).
  { intros n Hn. apply record_names_in in Hn as (vm & Hvm & Hname).
    apply record_name_some in Hname as [Hname Hne]. eauto. }
  split; [|split].
  - intros vm n Hvm Hname Hne.
    assert (Hin : n ∈ record_names vms).
    { apply record_names_in. exists vm. split; [exact Hvm|].
      apply record_name_some. auto. }
    assert (Hone : occurrences n (hosts g_all inv) = 1%nat).
    { rewrite Hg, Hall. apply occurrences_NoDup; assumption. }
    split; [exact Hone|]. split.
    + rewrite !Hg, contributions_partition, <- Hg. exact Hone.
    + apply (build_inventory_hostvars _ _ _ _ n H). exact Hin.
  - intros n Hn. apply Hnamed, Hsrc, Hn.
  - intros vm s Hvm Hget Hblank.
    assert (Hout : s ∉ record_names vms).
    { intros Hin. destruct (Hnamed s Hin) as (Hne & vm' & _ & Hname').
      apply vm_name_stripped in Hname'. congruence. }
    split.
    + intros g Hin. apply Hout, Hsrc. eauto.
    + destruct (hostvars inv !! s) eqn:Hl; [|reflexivity].
      exfalso. apply Hout, Hsrc. right. eauto.
Qed.

Lemma is_appliance_spec (publisher : string) :
  is_appliance publisher = true ↔ denylisted publisher.
Proof.
  unfold is_appliance, denylisted, APPLIANCE_PUBLISHERS.
  rewrite existsb_exists. split.
  - intros (p & Hin & Hc). exists p. split; [apply list_elem_of_In; exact Hin|].
    apply contains_spec. exact Hc.
  - intros (p & Hin & Hab). exists p. split; [apply list_elem_of_In; exact Hin|].
    apply contains_spec. exact Hab.
Qed.

Lemma vm_publisher_str (vm : pyval) (pub : string) :
  getitem vm "publisher" = Ok (PStr pub) → vm_publisher vm = Ok (lower pub).
Proof.
  unfold vm_publisher. intros ->. cbn [bind]. unfold py_or. simpl.
  destruct (String.eqb pub "") eqn:He; [|reflexivity].
  apply String.eqb_eq in He. subst pub. reflexivity.
Qed.

Lemma classify_linux (keys : gset string) (vm : pyval) (n publisher : string) :
  vm_name vm = Ok n → n ≠ "" →
  vm_publisher vm = Ok publisher →
  get vm "osType" = Ok (PStr "Linux") →
  classify keys vm
  = Ok (Some (n, if is_appliance publisher then in_network_appliances else in_linux)).
Proof.
  intros Hn Hne Hp Hos. unfold classify. rewrite Hn. cbn [bind].
  apply String.eqb_neq in Hne. rewrite Hne, Hp. cbn [bind]. rewrite Hos. cbn [bind].
  simpl. destruct (is_appliance publisher); reflexivity.
Qed.

(** C7.  A record with [osType = "Linux"], a non-empty name and publisher
    string [pub] is placed by the loop body in [network_appliances], and
    not in [linux], when the lower-cased [pub] contains one of the eight
    denylisted vendor names, and in [linux], and not in
    [network_appliances], when it does not; it is placed in [all] and not
    in [windows].  So in the inventory of a run its name is listed in
    [network_appliances] in the first case and in [linux] in the second,
    and, when no other record bears the name, in that group alone.  The
    publisher ["Cisco Systems, Inc."] is denylisted. *)
Theorem linux_vm_is_appliance_iff_denylisted
    (keys : gset string) (vm : pyval) (n pub : string) :
  vm_name vm = Ok n → n ≠ "" →
  get vm "osType" = Ok (PStr "Linux") →
  getitem vm "publisher" = Ok (PStr pub) →
  (∀ m inv inv', process_vm keys m inv vm = Ok inv' →
     (denylisted (lower pub) →
      hosts g_network_appliances inv' = hosts g_network_appliances inv ++ [n]
      ∧ hosts g_linux inv' = hosts g_linux inv)
     ∧ (¬ denylisted (lower pub) →
        hosts g_linux inv' = hosts g_linux inv ++ [n]
        ∧ hosts g_network_appliances inv' = hosts g_network_appliances inv)
     ∧ hosts g_all inv' = hosts g_all inv ++ [n]
     ∧ hosts g_windows inv' = hosts g_windows inv)
  ∧ (vm_record_ok vm = true → ∀ m inv, ∃ inv', process_vm keys m inv vm = Ok inv')
  ∧ (∀ vms nics inv, build_inventory vms nics keys = Ok inv → vm ∈ vms →
       (denylisted (lower pub) → n ∈ hosts g_network_appliances inv)
       ∧ (¬ denylisted (lower pub) → n ∈ hosts g_linux inv)
       ∧ (occurrences n (record_names vms) = 1%nat →
          (n ∈ hosts g_network_appliances inv ↔ denylisted (lower pub))
          ∧ (n ∈ hosts g_linux inv ↔ (¬ denylisted (lower pub)))
          ∧ (n ∉ hosts g_windows inv)))
  ∧ (pub = "Cisco Systems, Inc." → denylisted (lower pub)).
Proof.
  intros Hn Hne Hos Hpub.
  pose proof (classify_linux keys vm n (lower pub) Hn Hne
                (vm_publisher_str vm pub Hpub) Hos) as Hc.
  split; [|split; [|split]].
  - intros m inv inv' H.
    apply process_vm_classify in H as (c & Hc' & Heff).
    rewrite Hc in Hc'. injection Hc' as <-. cbn [step_effect] in Heff.
    destruct Heff as (_ & Hg & _). rewrite <- is_appliance_spec. rewrite !Hg.
    destruct (is_appliance (lower pub)); cbn [member]; rewrite ?app_nil_r;
      repeat split; try reflexivity; congruence.
  - intros Hok m inv. exact (process_vm_total keys m inv vm Hok).
  - intros vms nics inv H Hvm.
    destruct (build_inventory_hosts _ _ _ _ H) as [_ Hg].
    rewrite <- is_appliance_spec.
    split; [|split].
    + intros Hden. rewrite Hg. apply contributions_in.
      exists vm, in_network_appliances. rewrite Hc, Hden. auto.
    + intros Hden. rewrite Hg. apply contributions_in.
      exists vm, in_linux. rewrite Hc.
      destruct (is_appliance (lower pub)); [contradiction Hden; reflexivity|auto].
    + intros Hocc.
      destruct (build_inventory_entry _ _ _ _ _ _ _ H Hvm Hc Hocc) as [Hone _].
      split; [|split].
      * rewrite <- occurrences_pos, Hone.
        destruct (is_appliance (lower pub)); simpl; split; intros; try lia;
          congruence.
      * rewrite <- occurrences_pos, Hone.
        destruct (is_appliance (lower pub)); simpl; split; intros; try lia;
          congruence.
      * apply occurrences_zero. rewrite Hone.
        destruct (is_appliance (lower pub)); reflexivity.
  - intros ->. apply is_appliance_spec. reflexivity.
Qed.

Lemma classify_fallback (keys : gset string) (vm : pyval) (n : string) (os : pyval)
    (c : option (string * placement)) :
  classify keys vm = Ok c →
  vm_name vm = Ok n → n ≠ "" →
  get vm "osType" = Ok os →
  os ≠ PStr "Linux" → os ≠ PStr "Windows" →
  c = Some (n, in_windows_fallback).
Proof.
  unfold classify. intros H Hn Hne Hos Hl Hw.
  rewrite Hn in H. cbn [bind] in H.
  apply String.eqb_neq in Hne. rewrite Hne in H.
  bind_inv H. rewrite Hos in H. cbn [bind] in H.
  assert (eq_str os "Linux" = false) as El.
  { destruct (eq_str os "Linux") eqn:E; [|reflexivity].
    apply eq_str_true in E. contradiction. }
  assert (eq_str os "Windows" = false) as Ew.
  { destruct (eq_str os "Windows") eqn:E; [|reflexivity].
    apply eq_str_true in E. contradiction. }
  rewrite El, Ew in H. simpl in H. congruence.
Qed.

Lemma classify_windows (keys : gset string) (vm : pyval) (n : string)
    (c : option (string * placement)) :
  classify keys vm = Ok c →
  vm_name vm = Ok n → n ≠ "" →
  get vm "osType" = Ok (PStr "Windows") →
  ∃ id_key, vm_id_key vm = Ok id_key
            ∧ c = Some (n, in_windows (is_onboarded keys id_key (lower n))).
Proof.
  unfold classify. intros H Hn Hne Hos.
  rewrite Hn in H. cbn [bind] in H.
  apply String.eqb_neq in Hne. rewrite Hne in H.
  bind_inv H. rewrite Hos in H. cbn [bind] in H. simpl in H.
  bind_inv H. exists a0. split; [exact Ha0|]. congruence.
Qed.

(** C10.  A record with a non-empty name and an [osType] that is neither
    ["Linux"] nor ["Windows"] (a missing [osType] reads as [None]) is
    appended by the loop body to [windows] (and [all]) and to no other
    group, neither [windows_mde_onboarded] nor
    [windows_mde_not_onboarded], and the metadata entry the body writes
    for it has no [mde_onboarded] key.  So in the inventory of a run its
    name is listed in [windows]; and when no other record bears the name
    it is in neither onboarding group and its entry has no
    [mde_onboarded] key. *)
Theorem fallback_windows_host_has_no_onboarding
    (keys : gset string) (vm : pyval) (n : string) (os : pyval) :
  vm_name vm = Ok n → n ≠ "" →
  get vm "osType" = Ok os →
  os ≠ PStr "Linux" → os ≠ PStr "Windows" →
  (∀ m inv inv', process_vm keys m inv vm = Ok inv' →
     hosts g_windows inv' = hosts g_windows inv ++ [n]
     ∧ hosts g_all inv' = hosts g_all inv ++ [n]
     ∧ hosts g_windows_mde_onboarded inv' = hosts g_windows_mde_onboarded inv
     ∧ hosts g_windows_mde_not_onboarded inv' = hosts g_windows_mde_not_onboarded inv
     ∧ hosts g_linux inv' = hosts g_linux inv
     ∧ hosts g_network_appliances inv' = hosts g_network_appliances inv
     ∧ ∃ hv, hostvars inv' !! n = Some hv ∧ mde_onboarded hv = None)
  ∧ (vm_record_ok vm = true → ∀ m inv, ∃ inv', process_vm keys m inv vm = Ok inv')
  ∧ (∀ vms nics inv, build_inventory vms nics keys = Ok inv → vm ∈ vms →
       n ∈ hosts g_windows inv
       ∧ (occurrences n (record_names vms) = 1%nat →
          (n ∉ hosts g_windows_mde_onboarded inv)
          ∧ (n ∉ hosts g_windows_mde_not_onboarded inv)
          ∧ ∃ hv, hostvars inv !! n = Some hv ∧ mde_onboarded hv = None)).
Proof.
  intros Hn Hne Hos Hl Hw.
  split; [|split].
  - intros m inv inv' H.
    apply process_vm_classify in H as (c & Hc & Heff).
    pose proof (classify_fallback keys vm n os c Hc Hn Hne Hos Hl Hw) as ->.
    cbn [step_effect] in Heff. destruct Heff as (_ & Hg & hv & Hhv & Hflag).
    rewrite !Hg. cbn [member]. rewrite ?app_nil_r.
    repeat split; try reflexivity.
    exists hv. rewrite Hhv, lookup_insert_eq. split; [reflexivity|exact Hflag].
  - intros Hok m inv. exact (process_vm_total keys m inv vm Hok).
  - intros vms nics inv H Hvm.
    destruct (build_inventory_hosts _ _ _ _ H) as [Hcl Hg].
    destruct (Hcl vm Hvm) as [c Hc].
    pose proof (classify_fallback keys vm n os c Hc Hn Hne Hos Hl Hw) as ->.
    split.
    + rewrite Hg. apply contributions_in. exists vm, in_windows_fallback. auto.
    + intros Hocc.
      destruct (build_inventory_entry _ _ _ _ _ _ _ H Hvm Hc Hocc) as [Hone Hhv].
      split; [|split].
      * apply occurrences_zero. rewrite Hone. reflexivity.
      * apply occurrences_zero. rewrite Hone. reflexivity.
      * exact Hhv.
Qed.

(** The OR test of the Windows branch, on the record the join is given:
    a Windows record with a non-empty name that no other record bears is
    listed in [windows], its metadata carries [mde_onboarded], and the flag
    is true exactly when the lower-cased [id] of the record (the empty string
    when the record has none) or its lower-cased name is a key. *)
Lemma windows_record_onboarding_or_test
    (vms nics : list pyval) (keys : gset string) (inv : inventory)
    (vm : pyval) (n : string) :
  build_inventory vms nics keys = Ok inv →
  vm ∈ vms →
  vm_name vm = Ok n → n ≠ "" →
  occurrences n (record_names vms) = 1%nat →
  get vm "osType" = Ok (PStr "Windows") →
  ∃ id_key b,
    vm_id_key vm = Ok id_key
    ∧ (b = true ↔ id_key ∈ keys ∨ lower n ∈ keys)
    ∧ n ∈ hosts g_windows inv
    ∧ (∃ hv, hostvars inv !! n = Some hv ∧ mde_onboarded hv = Some b)
    ∧ (n ∈ hosts g_windows_mde_onboarded inv ↔ b = true)
    ∧ (n ∈ hosts g_windows_mde_not_onboarded inv ↔ b = false).
Proof.
  intros H Hvm Hn Hne Hocc Hos.
  destruct (build_inventory_hosts _ _ _ _ H) as [Hcl _].
  destruct (Hcl vm Hvm) as [c Hc].
  destruct (classify_windows keys vm n c Hc Hn Hne Hos) as (id_key & Hid & ->).
  destruct (build_inventory_entry _ _ _ _ _ _ _ H Hvm Hc Hocc) as [Hg Hhv].
  exists id_key, (is_onboarded keys id_key (lower n)).
  split; [exact Hid|]. split.
  { unfold is_onboarded. rewrite orb_true_iff, !bool_decide_eq_true. reflexivity. }
  split; [apply occurrences_pos; rewrite Hg; simpl; lia|].
  split; [exact Hhv|].
  rewrite <- !occurrences_pos, !Hg.
  destruct (is_onboarded keys id_key (lower n)); simpl; split; split; intros;
    try lia; congruence.
Qed.

(** ** Main, once the three queries have answered *)

Lemma main_after_queries (w : world) (b1 b2 b3 : backend)
    (vms nics : list pyval) (keys : gset string) :
  load_cache_if_fresh w = Ok None →
  graph_query_all vm_query GRAPH_PAGE_SIZE (cli w) = Some (Ok vms, b1) →
  graph_query_all nic_query GRAPH_PAGE_SIZE b1 = Some (Ok nics, b2) →
  get_mde_windows_machine_keys b2 = Some (Ok keys, b3) →
  main w
  = match vms with
    | [] =>
        Some (Ok tt, print (json_dumps_indent2 empty_inventory)
                       (snd (save_cache empty_inventory (set_cli b3 w))))
    | _ :: _ =>
        match build_inventory vms nics keys with
        | Ok inv =>
            Some (Ok tt, print (json_dumps_indent2 inv)
                           (snd (save_cache inv (set_cli b3 w))))
        | Raise e => Some (Raise e, set_cli b3 w)
        end
    end.
Proof.
  intros Hload Hvm Hnic Hkeys.
  unfold main, step_bind, on_cli. rewrite Hload. cbn [cli set_cli].
  rewrite Hvm. cbn [cli set_cli]. rewrite Hnic. cbn [cli set_cli]. rewrite Hkeys.
  assert (Hsave : ∀ inv v, save_cache inv v = (Ok tt, snd (save_cache inv v))).
  { intros inv v. unfold save_cache, save_cache_try.
    destruct (write_fault v) as [[]|]; reflexivity. }
  assert (Hw : ∀ b, set_cli b (set_cli b2 (set_cli b1 w)) = set_cli b w) by reflexivity.
  destruct vms as [|vm vms].
  - unfold do_save_cache, emit. rewrite Hsave, Hw. reflexivity.
  - unfold lift, do_save_cache, emit. rewrite Hw.
    destruct (build_inventory (vm :: vms) nics keys) as [inv|e]; [|reflexivity].
    rewrite Hsave. reflexivity.
Qed.

(** ** Missing fields *)

Lemma assoc_remove_key_eq (k : string) (d : list (string * pyval)) :
  assoc k (remove_key k d) = None.
Proof.
  induction d as [|[k' v] d IH]; simpl; [reflexivity|].
  destruct (String.eqb k k') eqn:E; [exact IH|]. simpl. rewrite E. exact IH.
Qed.

Lemma assoc_remove_key_ne (k k' : string) (d : list (string * pyval)) :
  k ≠ k' → assoc k' (remove_key k d) = assoc k' d.
Proof.
  intros Hne. induction d as [|[k0 v] d IH]; simpl; [reflexivity|].
  destruct (String.eqb k k0) eqn:E.
  - apply String.eqb_eq in E. subst k0.
    destruct (String.eqb k' k) eqn:E'; [|exact IH].
    apply String.eqb_eq in E'. congruence.
  - simpl. rewrite IH. reflexivity.
Qed.

Lemma field_ok_remove_key (k k' : string) (d : list (string * pyval)) :
  field_ok d k' = true → field_ok (remove_key k d) k' = true.
Proof.
  unfold field_ok. destruct (decide (k = k')) as [->|Hne].
  - rewrite assoc_remove_key_eq. reflexivity.
  - rewrite assoc_remove_key_ne by exact Hne. auto.
Qed.

Lemma vm_record_ok_remove_key (k : string) (d : list (string * pyval)) :
  k ≠ "publisher" →
  vm_record_ok (PDict d) = true → vm_record_ok (PDict (remove_key k d)) = true.
Proof.
  intros Hk. cbn [vm_record_ok]. rewrite !andb_true_iff.
  intros ((((H1 & H2) & H3) & H4) & H5).
  rewrite (assoc_remove_key_ne k "publisher") by exact Hk.
  repeat split; auto using field_ok_remove_key.
Qed.

Lemma process_vm_missing_publisher (keys : gset string) (m : list (pyval * option string))
    (inv : inventory) (d : list (string * pyval)) (n : string) :
  vm_record_ok (PDict d) = true →
  vm_name (PDict d) = Ok n → n ≠ "" →
  process_vm keys m inv (PDict (remove_key "publisher" d)) = Raise KeyError.
Proof.
  cbn [vm_record_ok]. rewrite !andb_true_iff.
  intros ((((H1 & H2) & H3) & H4) & H5) Hn Hne.
  unfold process_vm.
  assert (Hn' : vm_name (PDict (remove_key "publisher" d)) = Ok n).
  { unfold vm_name, get, get_default in *.
    rewrite assoc_remove_key_ne by discriminate. exact Hn. }
  rewrite Hn'. cbn [bind]. apply String.eqb_neq in Hne. rewrite Hne.
  destruct (field_ok_get _ "nicId" (field_ok_remove_key "publisher" _ _ H2))
    as (nic & -> & Hh & _).
  cbn [bind]. unfold nic_get. rewrite Hh. cbn [bind].
  unfold get at 1 2 3, get_default. cbn [bind].
  unfold vm_publisher, getitem. rewrite assoc_remove_key_eq. reflexivity.
Qed.

Lemma process_vms_raise_at (keys : gset string) (m : list (pyval * option string))
    (pre post : list pyval) (vm : pyval) (e : exn) :
  Forall (fun vm => vm_record_ok vm = true) pre →
  (∀ inv, process_vm keys m inv vm = Raise e) →
  ∀ inv, process_vms keys m inv (pre ++ vm :: post) = Raise e.
Proof.
  intros Hpre Hvm. induction Hpre as [|vm0 pre H0 _ IH]; intros inv; simpl.
  - rewrite Hvm. reflexivity.
  - destruct (process_vm_total keys m inv vm0 H0) as [inv1 ->]. cbn [bind]. apply IH.
Qed.

(** C9.  Take a well-formed row with a non-empty name.  Without any one of
    [name], [nicId], [id], [osType], [resourceGroup], [location] the loop
    body still completes; without [publisher] it raises [KeyError], the join
    over any list of otherwise well-formed rows that contains the record
    raises [KeyError], and [main] ends with [KeyError] having printed
    nothing and left the cache file alone. *)
Theorem missing_publisher_raises_key_error
    (keys : gset string) (d : list (string * pyval)) (n : string) :
  vm_record_ok (PDict d) = true →
  vm_name (PDict d) = Ok n → n ≠ "" →
  let vm := PDict (remove_key "publisher" d) in
  (∀ m inv k,
     k ∈ ["name"; "nicId"; "id"; "osType"; "resourceGroup"; "location"] →
     ∃ inv', process_vm keys m inv (PDict (remove_key k d)) = Ok inv')
  ∧ (∀ m inv, process_vm keys m inv vm = Raise KeyError)
  ∧ (∀ pre post nics,
       Forall (fun vm => vm_record_ok vm = true) pre →
       Forall (fun nic => nic_record_ok nic = true) nics →
       build_inventory (pre ++ vm :: post) nics keys = Raise KeyError)
  ∧ (∀ w b1 b2 b3 pre post nics,
       Forall (fun vm => vm_record_ok vm = true) pre →
       Forall (fun nic => nic_record_ok nic = true) nics →
       load_cache_if_fresh w = Ok None →
       graph_query_all vm_query GRAPH_PAGE_SIZE (cli w)
         = Some (Ok (pre ++ vm :: post), b1) →
       graph_query_all nic_query GRAPH_PAGE_SIZE b1 = Some (Ok nics, b2) →
       get_mde_windows_machine_keys b2 = Some (Ok keys, b3) →
       ∃ w', main w = Some (Raise KeyError, w')
             ∧ printed w' = printed w ∧ cache w' = cache w).
Proof.
  intros Hok Hn Hne vm.
  assert (Hraise : ∀ m inv, process_vm keys m inv vm = Raise KeyError).
  { intros m inv. eapply process_vm_missing_publisher; eauto. }
  assert (Hbuild : ∀ pre post nics,
             Forall (fun vm => vm_record_ok vm = true) pre →
             Forall (fun nic => nic_record_ok nic = true) nics →
             build_inventory (pre ++ vm :: post) nics keys = Raise KeyError).
  { intros pre post nics Hpre Hnics. unfold build_inventory.
    destruct (build_nic_ip_map_total nics Hnics []) as [m ->]. cbn [bind].
    apply process_vms_raise_at; auto. }
  split; [|split; [exact Hraise|split; [exact Hbuild|]]].
  - intros m inv k Hk. apply process_vm_total, vm_record_ok_remove_key; [|exact Hok].
    intros ->. repeat (apply elem_of_cons in Hk as [Hk|Hk]; [discriminate|]).
    inversion Hk.
  - intros w b1 b2 b3 pre post nics Hpre Hnics Hload Hq1 Hq2 Hq3.
    rewrite (main_after_queries w b1 b2 b3 _ nics keys Hload Hq1 Hq2 Hq3).
    rewrite (Hbuild pre post nics Hpre Hnics).
    exists (set_cli b3 w). destruct pre; simpl; auto.
Qed.

(** ** The paginated query client *)

(** The exceptions of the argument check. *)
Lemma argv_raise (cmd : list pyval) (e : exn) :
  argv cmd = Raise e → e = TypeError ∨ e = ValueError.
Proof.
  induction cmd as [|v cmd IH]; [discriminate|].
  destruct v; cbn [argv]; try (intros [= <-]; auto; fail).
  destruct (has_nul s); [intros [= <-]; auto|].
  destruct (argv cmd); [discriminate|]. cbn [bind]. intros [= <-]. auto.
Qed.

(** The loop is the source's: call [az], run the body, go round again
    against what is left of the script. *)
Lemma graph_query_loop_az (query : string) (page_size : Z)
    (results : list pyval) (skip_token : pyval)
    (script : list az_outcome) (log : list (list string)) :
  graph_query_loop query page_size results skip_token script log
  = match az (graph_cmd query page_size skip_token) (Backend script log) with
    | None => None
    | Some (r, b) =>
        match graph_query_iteration results r with
        | Raise e => Some (Raise e, b)
        | Ok (Return results') => Some (Ok results', b)
        | Ok (Continue results' skip_token') =>
            graph_query_loop query page_size results' skip_token' (pending b) (issued b)
        end
    end.
Proof.
  unfold az. destruct script as [|o rest]; cbn [graph_query_loop pending issued];
    destruct (argv (graph_cmd query page_size skip_token)) as [args|e] eqn:Ha;
    try reflexivity;
    destruct (argv_raise _ _ Ha) as [->| ->]; reflexivity.
Qed.

Lemma has_nul_uint (d : Decimal.uint) : has_nul (NilEmpty.string_of_uint d) = false.
Proof. induction d; simpl; auto. Qed.

(** A printed integer holds no NUL. *)
Lemma has_nul_str_of_int (n : Z) : has_nul (str_of_int n) = false.
Proof.
  unfold str_of_int, NilZero.string_of_int, NilZero.string_of_uint.
  destruct (Z.to_int n) as [d|d]; destruct d; simpl; auto using has_nul_uint.
Qed.

Lemma argv_cons_str (s : string) (cmd : list pyval) :
  has_nul s = false →
  argv (PStr s :: cmd) = let! args := argv cmd in Ok (s :: args).
Proof. intros H. cbn [argv]. rewrite H. reflexivity. Qed.

Lemma argv_graph_cmd (query : string) (page_size : Z) (token : pyval) (t : string) :
  has_nul query = false →
  token_text token = Some t →
  ∃ args, argv (graph_cmd query page_size token) = Ok args
          ∧ "az" :: args = page_command query page_size t.
Proof.
  unfold token_text, graph_cmd, page_command. intros Hq H.
  assert (Htail : ∃ extra,
            argv (if truthy token then [PStr "--skip-token"; token] else []) = Ok extra
            ∧ extra = (if String.eqb t "" then [] else ["--skip-token"; t])).
  { destruct token as [|b|n|s|l|d]; simpl in *.
    - injection H as <-. eauto.
    - destruct b; [discriminate|]. injection H as <-. eauto.
    - destruct (n =? 0); simpl in *; [|discriminate]. injection H as <-. eauto.
    - destruct (has_nul s) eqn:Hs; [discriminate|]. injection H as <-.
      destruct (String.eqb s ""); simpl; [eauto|]. rewrite Hs. eauto.
    - destruct l; [|discriminate]. injection H as <-. eauto.
    - destruct d; [|discriminate]. injection H as <-. eauto. }
  destruct Htail as (extra & Hextra & ->).
  cbn [app].
  rewrite !argv_cons_str by (first [exact Hq | apply has_nul_str_of_int | reflexivity]).
  rewrite Hextra. cbn [bind]. eauto.
Qed.

Lemma graph_query_loop_failed (query : string) (page_size : Z)
    (results : list pyval) (token : pyval) (t : string)
    (o : az_outcome) (rest : list az_outcome) (log : list (list string)) :
  has_nul query = false →
  token_text token = Some t →
  fetch_failed o = true →
  graph_query_loop query page_size results token (o :: rest) log
  = Some (Ok [], Backend rest (log ++ [page_command query page_size t])).
Proof.
  intros Hq Ht Hf.
  destruct (argv_graph_cmd query page_size token t Hq Ht) as (args & Ha & Hc).
  cbn [graph_query_loop]. rewrite Ha, <- Hc.
  destruct o as [| | |rc out]; [discriminate|reflexivity|discriminate|].
  cbn [subprocess_run graph_query_iteration]. cbn [fetch_failed] in Hf.
  destruct out; cbn [is_blank json_loads]; destruct (negb (rc =? 0));
    cbn [orb] in *; try reflexivity; discriminate.
Qed.

(** An exception the loop does not handle leaves it at once. *)
Lemma graph_query_loop_raises (query : string) (page_size : Z)
    (results : list pyval) (token : pyval) (t : string)
    (o : az_outcome) (e : exn) (rest : list az_outcome) (log : list (list string)) :
  has_nul query = false →
  token_text token = Some t →
  fetch_raises o = Some e →
  graph_query_loop query page_size results token (o :: rest) log
  = Some (Raise e, Backend rest (log ++ [page_command query page_size t])).
Proof.
  intros Hq Ht He.
  destruct (argv_graph_cmd query page_size token t Hq Ht) as (args & Ha & Hc).
  cbn [graph_query_loop]. rewrite Ha, <- Hc.
  destruct o as [| | |rc out];
    [injection He as <-; reflexivity|discriminate|injection He as <-; reflexivity|].
  cbn [subprocess_run graph_query_iteration]. cbn [fetch_raises] in He.
  destruct out; try discriminate; destruct (rc =? 0); try discriminate;
    injection He as <-; reflexivity.
Qed.

Lemma graph_query_loop_fetched (query : string) (page_size : Z)
    (results : list pyval) (token : pyval) (t : string)
    (payload : pyval) (data : list pyval) (next : pyval)
    (rest : list az_outcome) (log : list (list string)) :
  has_nul query = false →
  token_text token = Some t →
  page_records payload = Ok data →
  page_token payload = Ok next →
  graph_query_loop query page_size results token (fetched payload :: rest) log
  = if truthy next
    then graph_query_loop query page_size (results ++ data) next rest
           (log ++ [page_command query page_size t])
    else Some (Ok (results ++ data),
               Backend rest (log ++ [page_command query page_size t])).
Proof.
  intros Hq Ht Hd Hn.
  destruct (argv_graph_cmd query page_size token t Hq Ht) as (args & Ha & Hc).
  cbn [graph_query_loop]. rewrite Ha, <- Hc. unfold fetched.
  cbn [subprocess_run graph_query_iteration Z.eqb negb orb is_blank json_loads].
  rewrite Hd. cbn [bind]. rewrite Hn. cbn [bind].
  destruct (truthy next); reflexivity.
Qed.

(** The loop over pages that carry a token, ended by a response without
    one: every page is requested once, the records are concatenated in
    order, and the last response's records come last. *)
Lemma graph_query_loop_run (query : string) (page_size : Z)
    (payloads : list pyval) (pages : list (list pyval * string))
    (final : pyval) (final_data : list pyval) (final_token : pyval)
    (rest : list az_outcome) :
  has_nul query = false →
  Forall2 page_with_token payloads pages →
  page_records final = Ok final_data →
  page_token final = Ok final_token →
  truthy final_token = false →
  ∀ results token t log,
  token_text token = Some t →
  graph_query_loop query page_size results token
    (map fetched payloads ++ fetched final :: rest) log
  = Some (Ok (results ++ concat (map fst pages) ++ final_data),
          Backend rest (log ++ page_commands query page_size t pages)).
Proof.
  intros Hq Hpages Hfd Hft Hfalsy.
  induction Hpages as [|payload [data next] payloads pages (Hd & Hn & Hne & Hnul) _ IH];
    intros results token t log Ht.
  - cbn [map app].
    rewrite (graph_query_loop_fetched _ _ _ _ t _ _ _ _ _ Hq Ht Hfd Hft), Hfalsy.
    reflexivity.
  - cbn [map app]. simpl in Hd, Hn, Hne, Hnul.
    rewrite (graph_query_loop_fetched _ _ _ _ t _ data (PStr next) _ _ Hq Ht Hd Hn).
    apply truthy_str in Hne. rewrite Hne.
    rewrite (IH _ (PStr next) next _) by (cbn [token_text]; rewrite Hnul; reflexivity).
    unfold page_commands. cbn [map fst snd concat].
    rewrite <- !app_assoc. reflexivity.
Qed.

(** The same loop ended by a failed fetch: the records gathered so far are
    dropped. *)
Lemma graph_query_loop_run_failed (query : string) (page_size : Z)
    (payloads : list pyval) (pages : list (list pyval * string))
    (o : az_outcome) (rest : list az_outcome) :
  has_nul query = false →
  Forall2 page_with_token payloads pages →
  fetch_failed o = true →
  ∀ results token t log,
  token_text token = Some t →
  graph_query_loop query page_size results token
    (map fetched payloads ++ o :: rest) log
  = Some (Ok [], Backend rest (log ++ page_commands query page_size t pages)).
Proof.
  intros Hq Hpages Hfail.
  induction Hpages as [|payload [data next] payloads pages (Hd & Hn & Hne & Hnul) _ IH];
    intros results token t log Ht.
  - cbn [map app].
    rewrite (graph_query_loop_failed _ _ _ _ t _ _ _ Hq Ht Hfail). reflexivity.
  - cbn [map app]. simpl in Hd, Hn, Hne, Hnul.
    rewrite (graph_query_loop_fetched _ _ _ _ t _ data (PStr next) _ _ Hq Ht Hd Hn).
    apply truthy_str in Hne. rewrite Hne.
    rewrite (IH _ (PStr next) next _) by (cbn [token_text]; rewrite Hnul; reflexivity).
    unfold page_commands. cbn [map fst snd].
    rewrite <- !app_assoc. reflexivity.
Qed.

(** The same loop ended by an exception it does not handle. *)
Lemma graph_query_loop_run_raises (query : string) (page_size : Z)
    (payloads : list pyval) (pages : list (list pyval * string))
    (o : az_outcome) (e : exn) (rest : list az_outcome) :
  has_nul query = false →
  Forall2 page_with_token payloads pages →
  fetch_raises o = Some e →
  ∀ results token t log,
  token_text token = Some t →
  graph_query_loop query page_size results token
    (map fetched payloads ++ o :: rest) log
  = Some (Raise e, Backend rest (log ++ page_commands query page_size t pages)).
Proof.
  intros Hq Hpages Hraise.
  induction Hpages as [|payload [data next] payloads pages (Hd & Hn & Hne & Hnul) _ IH];
    intros results token t log Ht.
  - cbn [map app].
    rewrite (graph_query_loop_raises _ _ _ _ t _ _ _ _ Hq Ht Hraise). reflexivity.
  - cbn [map app]. simpl in Hd, Hn, Hne, Hnul.
    rewrite (graph_query_loop_fetched _ _ _ _ t _ data (PStr next) _ _ Hq Ht Hd Hn).
    apply truthy_str in Hne. rewrite Hne.
    rewrite (IH _ (PStr next) next _) by (cbn [token_text]; rewrite Hnul; reflexivity).
    unfold page_commands. cbn [map fst snd].
    rewrite <- !app_assoc. reflexivity.
Qed.

Lemma truthy_py_or (a b : pyval) : truthy (py_or a b) = truthy a || truthy b.
Proof.
  unfold py_or. destruct (truthy a) eqn:Ha; [rewrite Ha|]; reflexivity.
Qed.

(** A response without a continuation token: neither key holds a truthy
    value. *)
Lemma page_token_falsy (d : list (string * pyval)) (token : pyval) :
  page_token (PDict d) = Ok token →
  (truthy token = false ↔
   (∀ k v, k ∈ ["skipToken"; "skip_token"] → assoc k d = Some v → truthy v = false)).
Proof.
  unfold page_token, get, get_default. cbn [bind].
  intros H. injection H as H. subst token.
  rewrite !truthy_py_or. cbn [truthy]. rewrite orb_false_r, orb_false_iff.
  split.
  - intros [H1 H2] k v Hk Hv.
    apply elem_of_cons in Hk as [->|Hk].
    + rewrite Hv in H1. exact H1.
    + apply list_elem_of_singleton in Hk as ->. rewrite Hv in H2. exact H2.
  - intros H. split.
    + destruct (assoc "skipToken" d) as [v|] eqn:Hv; [|reflexivity].
      apply (H "skipToken"); [set_solver|exact Hv].
    + destruct (assoc "skip_token" d) as [v|] eqn:Hv; [|reflexivity].
      apply (H "skip_token"); [set_solver|exact Hv].
Qed.

Lemma carries_records_page_records (d : list (string * pyval)) (records : list pyval) :
  carries_records d records → page_records (PDict d) = Ok records.
Proof.
  unfold page_records, get, get_default, py_or. cbn [bind].
  intros [H|[-> H]].
  - rewrite H. destruct records; reflexivity.
  - destruct (assoc "data" d) as [v|] eqn:Hv; [|reflexivity].
    rewrite (H v Hv). reflexivity.
Qed.

Lemma carries_token_page_token (d : list (string * pyval)) (t : string) :
  carries_token d t → page_token (PDict d) = Ok (PStr t).
Proof.
  unfold page_token, get, get_default, py_or. cbn [bind].
  intros [Hne [H|[Hnone H]]]; apply truthy_str in Hne.
  - rewrite H, Hne. cbn [truthy]. cbn [truthy] in Hne. rewrite Hne. reflexivity.
  - rewrite H. assert (Hfirst : truthy match assoc "skipToken" d with
                                         | Some v => v
                                         | None => PNone
                                         end = false).
    { destruct (assoc "skipToken" d) as [v|] eqn:Hv; [exact (Hnone v Hv)|reflexivity]. }
    rewrite Hfirst, Hne. reflexivity.
Qed.

Lemma carries_no_token_page_token (d : list (string * pyval)) :
  carries_no_token d → page_token (PDict d) = Ok PNone.
Proof.
  unfold page_token, get, get_default, py_or. cbn [bind].
  intros [H1 H2].
  assert (Hfirst : truthy match assoc "skipToken" d with
                          | Some v => v
                          | None => PNone
                          end = false).
  { destruct (assoc "skipToken" d) as [v|] eqn:Hv; [exact (H1 v Hv)|reflexivity]. }
  assert (Hsecond : truthy match assoc "skip_token" d with
                           | Some v => v
                           | None => PNone
                           end = false).
  { destruct (assoc "skip_token" d) as [v|] eqn:Hv; [exact (H2 v Hv)|reflexivity]. }
  rewrite Hfirst, Hsecond. reflexivity.
Qed.

Lemma token_page_with_token (payload : pyval) (page : list pyval * string) :
  token_page payload page → page_with_token payload page.
Proof.
  intros (d & -> & Hrec & Htok & Hnul).
  split; [exact (carries_records_page_records _ _ Hrec)|].
  split; [exact (carries_token_page_token _ _ Htok)|].
  split; [apply Htok|exact Hnul].
Qed.

Lemma last_page_ends (payload : pyval) (records : list pyval) :
  last_page payload records →
  page_records payload = Ok records ∧ page_token payload = Ok PNone.
Proof.
  intros (d & -> & Hrec & Hnone).
  split; [exact (carries_records_page_records _ _ Hrec)
         |exact (carries_no_token_page_token _ Hnone)].
Qed.

(** C5, as amended.  Against a backend that answers with pages carrying a
    continuation token (a non-empty string under [skipToken], or under
    [skip_token] when [skipToken] is absent or falsy) and then with a
    successful response that has a truthy value under neither key, the
    client makes one call per response (four for three pages), the first
    without a token and each later one with the token of the page before,
    and returns the records of all responses in order: the pages' records
    followed by the records of the last response.  So the loop goes on
    after every response with a token under either key and stops at the
    first response with none under both. *)
Theorem pagination_follows_tokens_to_the_last_response
    (query : string) (page_size : Z)
    (payloads : list pyval) (pages : list (list pyval * string))
    (final : pyval) (final_data : list pyval)
    (rest : list az_outcome) (log : list (list string)) :
  has_nul query = false →
  Forall2 token_page payloads pages →
  last_page final final_data →
  graph_query_all query page_size
    (Backend (map fetched payloads ++ fetched final :: rest) log)
  = Some (Ok (concat (map fst pages) ++ final_data),
          Backend rest (log ++ page_commands query page_size "" pages))
  ∧ length (page_commands query page_size "" pages) = S (length payloads).
Proof.
  intros Hq Hpages Hlast.
  assert (Hpages' : Forall2 page_with_token payloads pages).
  { eapply Forall2_impl; [exact Hpages|]. apply token_page_with_token. }
  destruct (last_page_ends _ _ Hlast) as [Hfd Hft].
  split.
  - unfold graph_query_all. cbn [pending issued].
    rewrite (graph_query_loop_run _ _ _ _ _ _ _ _ Hq Hpages' Hfd Hft eq_refl [] PNone ""
               log eq_refl).
    reflexivity.
  - unfold page_commands. cbn [map length]. rewrite !length_map.
    rewrite (Forall2_length _ _ _ Hpages). reflexivity.
Qed.

(** C4, the payload that is not an object.  A fetch that succeeds with
    JSON output that is not an object (here an array) makes the client
    raise [AttributeError] at [payload.get("data")], for either query of
    [main] and whatever follows in the script. *)
Theorem graph_query_all_raises_on_array_payload
    (l : list pyval) (rest : list az_outcome) (log : list (list string)) :
  graph_query_all vm_query GRAPH_PAGE_SIZE (Backend (fetched (PList l) :: rest) log)
  = Some (Raise AttributeError,
          Backend rest (log ++ [page_command vm_query GRAPH_PAGE_SIZE ""]))
  ∧ graph_query_all nic_query GRAPH_PAGE_SIZE (Backend (fetched (PList l) :: rest) log)
    = Some (Raise AttributeError,
            Backend rest (log ++ [page_command nic_query GRAPH_PAGE_SIZE ""])).
Proof. split; reflexivity. Qed.

Lemma graph_query_loop_never_raises (query : string) (page_size : Z)
    (script : list az_outcome) :
  has_nul query = false →
  Forall response_ok script →
  ∀ results token t log,
  token_text token = Some t →
  ∀ e b, graph_query_loop query page_size results token script log ≠ Some (Raise e, b).
Proof.
  intros Hq.
  induction 1 as [|o script Ho _ IH]; intros results token t log Ht e b.
  - destruct (argv_graph_cmd query page_size token t Hq Ht) as (args & Ha & _).
    cbn [graph_query_loop]. rewrite Ha. discriminate.
  - destruct Ho as [Hf|(payload & data & next & t' & -> & Hd & Hn & Ht')].
    + rewrite (graph_query_loop_failed _ _ _ _ t _ _ _ Hq Ht Hf). discriminate.
    + rewrite (graph_query_loop_fetched _ _ _ _ t _ data next _ _ Hq Ht Hd Hn).
      destruct (truthy next); [|discriminate].
      apply (IH _ _ t' _ Ht').
Qed.

(** ** The onboarding-key resolver *)

(** The loop is the source's: while [url] is truthy call [graph_api_get],
    leave on a falsy payload, else scan the page and follow the link. *)
Lemma mde_loop_graph_api_get (url : pyval) (keys : gset string)
    (script : list az_outcome) (log : list (list string)) :
  mde_loop url keys script log
  = if negb (truthy url) then Some (Ok keys, Backend script log)
    else
      match graph_api_get url (Backend script log) with
      | None => None
      | Some (Raise e, b) => Some (Raise e, b)
      | Some (Ok payload, b) =>
          if negb (truthy payload) then Some (Ok keys, b)
          else
            match scan_page keys payload with
            | Raise e => Some (Raise e, b)
            | Ok keys' =>
                match get payload "@odata.nextLink" with
                | Raise e => Some (Raise e, b)
                | Ok url' => mde_loop url' keys' (pending b) (issued b)
                end
            end
      end.
Proof.
  unfold graph_api_get, az.
  destruct script as [|o rest]; cbn [mde_loop pending issued];
    destruct (negb (truthy url)); try reflexivity;
    destruct (argv (rest_cmd url)) as [args|e] eqn:Ha; try reflexivity;
    try (destruct (argv_raise _ _ Ha) as [->| ->]; reflexivity);
    destruct (graph_api_payload (subprocess_run o)); reflexivity.
Qed.

Lemma scan_machine_union (keys : gset string) (m : pyval) :
  scan_machine keys m = let! added := scan_machine ∅ m in Ok (added ∪ keys).
Proof.
  unfold scan_machine.
  destruct (get m "osPlatform") as [platform|e]; [cbn [bind]|reflexivity].
  destruct (negb (eq_str platform "Windows")).
  { cbn [bind]. f_equal. set_solver. }
  destruct (get m "azureVmId") as [vm_id|e]; [cbn [bind]|reflexivity].
  destruct (truthy vm_id).
  - destruct (getitem m "azureVmId") as [v|e]; [cbn [bind]|reflexivity].
    destruct (str_method lower v) as [k|e]; [cbn [bind]|reflexivity].
    destruct (get m "computerDnsName") as [dns|e]; [cbn [bind]|reflexivity].
    destruct (truthy dns).
    + destruct (getitem m "computerDnsName") as [v'|e]; [cbn [bind]|reflexivity].
      destruct (str_method _ v') as [k'|e]; cbn [bind]; [|reflexivity].
      f_equal. set_solver.
    + cbn [bind]. f_equal. set_solver.
  - cbn [bind].
    destruct (get m "computerDnsName") as [dns|e]; [cbn [bind]|reflexivity].
    destruct (truthy dns).
    + destruct (getitem m "computerDnsName") as [v'|e]; [cbn [bind]|reflexivity].
      destruct (str_method _ v') as [k'|e]; cbn [bind]; [|reflexivity].
      f_equal. set_solver.
    + cbn [bind]. f_equal. set_solver.
Qed.

Lemma scan_machines_union (ms : list pyval) :
  ∀ keys, scan_machines keys ms = let! added := scan_machines ∅ ms in Ok (added ∪ keys).
Proof.
  induction ms as [|m ms IH]; intros keys; cbn [scan_machines].
  - cbn [bind]. f_equal. set_solver.
  - rewrite (scan_machine_union keys m).
    destruct (scan_machine ∅ m) as [a|e]; [cbn [bind]|reflexivity].
    rewrite (IH (a ∪ keys)), (IH a).
    destruct (scan_machines ∅ ms) as [a'|e]; cbn [bind]; [|reflexivity].
    f_equal. set_solver.
Qed.

(** Scanning a page only adds keys: the result is the page's own keys
    joined to those held before. *)
Lemma scan_page_union (keys : gset string) (payload : pyval) :
  scan_page keys payload = let! added := page_keys payload in Ok (added ∪ keys).
Proof.
  unfold page_keys, scan_page.
  destruct (get_default payload "value" (PList [])) as [v|e]; [cbn [bind]|reflexivity].
  destruct (iter v) as [ms|e]; [cbn [bind]|reflexivity].
  apply scan_machines_union.
Qed.

Lemma graph_api_payload_failed (o : az_outcome) :
  fetch_failed o = true → graph_api_payload (subprocess_run o) = Ok PNone.
Proof.
  destruct o as [| | |rc out]; [discriminate|reflexivity|discriminate|].
  unfold fetch_failed, graph_api_payload. cbn [subprocess_run]. intros Hf.
  destruct out; cbn [is_blank json_loads]; destruct (negb (rc =? 0));
    cbn [orb] in *; try reflexivity; discriminate.
Qed.

Lemma graph_api_payload_raises (o : az_outcome) (e : exn) :
  fetch_raises o = Some e → graph_api_payload (subprocess_run o) = Raise e.
Proof.
  destruct o as [| | |rc out];
    [intros [= <-]; reflexivity|discriminate|intros [= <-]; reflexivity|].
  unfold fetch_raises, graph_api_payload. cbn [subprocess_run]. intros He.
  destruct out; try discriminate; destruct (rc =? 0); try discriminate;
    injection He as <-; reflexivity.
Qed.

Lemma argv_rest_cmd (url : string) :
  has_nul url = false →
  argv (rest_cmd (PStr url))
  = Ok ["rest"; "--method"; "GET"; "--url"; url; "--headers"; "ConsistencyLevel=eventual"].
Proof.
  intros H. unfold rest_cmd.
  rewrite !argv_cons_str by (first [exact H | reflexivity]). reflexivity.
Qed.

Lemma mde_loop_failed (url : string) (keys : gset string)
    (o : az_outcome) (rest : list az_outcome) (log : list (list string)) :
  url ≠ "" → has_nul url = false →
  fetch_failed o = true →
  mde_loop (PStr url) keys (o :: rest) log
  = Some (Ok keys, Backend rest (log ++ [rest_command url])).
Proof.
  intros Hu Hnul Hf. apply truthy_str in Hu. cbn [mde_loop]. rewrite Hu.
  cbn [negb]. rewrite (argv_rest_cmd url Hnul).
  rewrite (graph_api_payload_failed o Hf). reflexivity.
Qed.

Lemma mde_loop_fetched (url : string) (keys added : gset string)
    (payload next : pyval) (rest : list az_outcome) (log : list (list string)) :
  url ≠ "" → has_nul url = false →
  truthy payload = true →
  page_keys payload = Ok added →
  get payload "@odata.nextLink" = Ok next →
  mde_loop (PStr url) keys (fetched payload :: rest) log
  = mde_loop next (added ∪ keys) rest (log ++ [rest_command url]).
Proof.
  intros Hu Hnul Ht Hk Hn. apply truthy_str in Hu. cbn [mde_loop]. rewrite Hu.
  cbn [negb]. rewrite (argv_rest_cmd url Hnul).
  cbn [fetched graph_api_payload subprocess_run].
  cbn [Z.eqb negb orb is_blank json_loads]. rewrite Ht. cbn [negb].
  rewrite scan_page_union, Hk. cbn [bind]. rewrite Hn. reflexivity.
Qed.

Lemma mde_loop_raises (url : string) (keys : gset string)
    (o : az_outcome) (e : exn) (rest : list az_outcome) (log : list (list string)) :
  url ≠ "" → has_nul url = false →
  fetch_raises o = Some e →
  mde_loop (PStr url) keys (o :: rest) log
  = Some (Raise e, Backend rest (log ++ [rest_command url])).
Proof.
  intros Hu Hnul He. apply truthy_str in Hu. cbn [mde_loop]. rewrite Hu.
  cbn [negb]. rewrite (argv_rest_cmd url Hnul).
  rewrite (graph_api_payload_raises o e He). reflexivity.
Qed.

Lemma mde_loop_done (url : pyval) (keys : gset string)
    (script : list az_outcome) (log : list (list string)) :
  truthy url = false → mde_loop url keys script log = Some (Ok keys, Backend script log).
Proof. intros H. destruct script; cbn [mde_loop]; rewrite H; reflexivity. Qed.

(** The loop reads pages that carry a next link one after the other and
    goes on from the last link with the union of their keys. *)
Lemma mde_loop_pages (payloads : list pyval) (pages : list (gset string * string))
    (tail : list az_outcome) :
  Forall2 page_with_next_link payloads pages →
  ∀ url keys log, url ≠ "" → has_nul url = false →
  ∃ url' log',
    url' ≠ "" ∧ has_nul url' = false
    ∧ log' ++ [rest_command url'] = log ++ map rest_command (url :: map snd pages)
    ∧ mde_loop (PStr url) keys (map fetched payloads ++ tail) log
      = mde_loop (PStr url') (⋃ (map fst pages) ∪ keys) tail log'.
Proof.
  induction 1 as [|payload [added next] payloads pages (Ht & Hk & Hn & Hne & Hnul) _ IH];
    intros url keys log Hu Hunul.
  - exists url, log. repeat split; try assumption.
    cbn [map app]. f_equal. set_solver.
  - simpl in Hk, Hn, Hne, Hnul.
    destruct (IH next (added ∪ keys) (log ++ [rest_command url]) Hne Hnul)
      as (url' & log' & Hu' & Hnul' & Hlog & Hrun).
    exists url', log'. repeat split; try assumption.
    + rewrite Hlog. cbn [map fst snd]. rewrite <- app_assoc. reflexivity.
    + cbn [map app]. rewrite (mde_loop_fetched _ _ added _ _ _ _ Hu Hunul Ht Hk Hn).
      rewrite Hrun. cbn [map fst snd]. f_equal. set_solver.
Qed.

(** C2, as amended.  When one or more pages succeed, each with a next
    link, and the fetch after them fails in one of the ways
    [graph_api_get] handles (timeout, non-zero exit status, blank output,
    or output the decoder rejects with [JSONDecodeError]), the resolver
    returns the keys of the pages that succeeded, all of them: the union
    of the pages' key sets.  When that fetch ends instead in an exception
    [graph_api_get] does not handle (a process that cannot be started;
    output that is not text in the locale's encoding; with exit status
    0, output nested beyond the recursion limit or holding an integer
    beyond the digit limit), the resolver raises that exception and
    returns no key set.  Either way it
    has made one request per page and one for the last fetch. *)
Theorem resolver_keeps_keys_of_pages_before_a_failure
    (payloads : list pyval) (pages : list (gset string * string))
    (o : az_outcome) (rest : list az_outcome) (log : list (list string)) :
  payloads ≠ [] →
  Forall2 page_with_next_link payloads pages →
  (fetch_failed o = true →
   get_mde_windows_machine_keys (Backend (map fetched payloads ++ o :: rest) log)
   = Some (Ok (⋃ (map fst pages)),
           Backend rest (log ++ map rest_command (mde_url :: map snd pages))))
  ∧ (∀ e, fetch_raises o = Some e →
       get_mde_windows_machine_keys (Backend (map fetched payloads ++ o :: rest) log)
       = Some (Raise e,
               Backend rest (log ++ map rest_command (mde_url :: map snd pages)))).
Proof.
  intros _ Hpages. unfold get_mde_windows_machine_keys. cbn [pending issued].
  destruct (mde_loop_pages payloads pages (o :: rest) Hpages mde_url ∅ log)
    as (url' & log' & Hu' & Hnul' & Hlog & ->); [discriminate|reflexivity|].
  split.
  - intros Hfail. rewrite (mde_loop_failed _ _ _ _ _ Hu' Hnul' Hfail), Hlog.
    f_equal. f_equal. f_equal. set_solver.
  - intros e He. rewrite (mde_loop_raises _ _ _ _ _ _ Hu' Hnul' He), Hlog. reflexivity.
Qed.

(** *** A run that meets a failure on the second page *)

(** C2, as stated, fails: the first page succeeds, the second fetch times
    out, and the resolver returns the two keys of the first page instead
    of the empty set. *)
Lemma resolver_returns_partial_keys_after_timeout :
  get_mde_windows_machine_keys (Backend [fetched first_mde_page; TimedOut] [])
  = Some (Ok {[ "9f3c-a1"; "host-7" ]},
          Backend []
            [rest_command mde_url;
             rest_command "https://graph.microsoft.com/v1.0/security/machines?$skip=1000"])
  ∧ ({[ "9f3c-a1"; "host-7" ]} : gset string) ≠ ∅.
Proof.
  split.
  - vm_compute. reflexivity.
  - intros H. assert (Hin : "host-7" ∈ (∅ : gset string)) by (rewrite <- H; set_solver).
    set_solver.
Qed.

(** *** Three pages and a last response that carries a record *)

(** C5, as stated, fails: three pages with a token are followed by a
    successful response without one; four calls are made, but the result
    is not the three pages' records: the record of the last response is
    in it too. *)
Lemma last_response_records_are_returned_too :
  graph_query_all "q" GRAPH_PAGE_SIZE (Backend four_responses [])
  = Some (Ok [row "vm1"; row "vm2"; row "vm3"; row "vm4"],
          Backend []
            [page_command "q" 1000 ""; page_command "q" 1000 "t1";
             page_command "q" 1000 "t2"; page_command "q" 1000 "t3"])
  ∧ [row "vm1"; row "vm2"; row "vm3"; row "vm4"]
    ≠ [row "vm1"; row "vm2"; row "vm3"].
Proof.
  split; [vm_compute; reflexivity | discriminate].
Qed.

(** ** The run on an empty VM result *)

Lemma save_cache_returns (doc : inventory) (w : world) :
  fst (save_cache doc w) = Ok tt.
Proof.
  unfold save_cache, save_cache_try. destruct (write_fault w) as [[]|]; reflexivity.
Qed.

(** A save touches nothing but the cache file. *)
Lemma save_cache_frame (doc : inventory) (w : world) :
  printed (snd (save_cache doc w)) = printed w
  ∧ cli (snd (save_cache doc w)) = cli w
  ∧ now (snd (save_cache doc w)) = now w.
Proof.
  unfold save_cache, save_cache_try.
  destruct (write_fault w) as [[]|]; repeat split; reflexivity.
Qed.

Lemma save_cache_file (doc : inventory) (w : world) :
  cache (snd (save_cache doc w))
  = match write_fault w with
    | None => File (json_dump doc) (now w)
    | Some OpenFails => cache w
    | Some DumpFails => File (truncated doc) (now w)
    end.
Proof.
  unfold save_cache, save_cache_try. destruct (write_fault w) as [[]|]; reflexivity.
Qed.

(** An exception of a query leaves [main] as it came: [main] handles
    none, and the queries run before anything is saved or printed. *)
Lemma main_vm_query_raises (w : world) (e : exn) (b1 : backend) :
  load_cache_if_fresh w = Ok None →
  graph_query_all vm_query GRAPH_PAGE_SIZE (cli w) = Some (Raise e, b1) →
  main w = Some (Raise e, set_cli b1 w).
Proof.
  intros Hload Hvm. unfold main, step_bind, on_cli. rewrite Hload.
  cbn [cli set_cli]. rewrite Hvm. reflexivity.
Qed.

Lemma main_nic_query_raises (w : world) (vms : list pyval) (e : exn) (b1 b2 : backend) :
  load_cache_if_fresh w = Ok None →
  graph_query_all vm_query GRAPH_PAGE_SIZE (cli w) = Some (Ok vms, b1) →
  graph_query_all nic_query GRAPH_PAGE_SIZE b1 = Some (Raise e, b2) →
  main w = Some (Raise e, set_cli b2 w).
Proof.
  intros Hload Hvm Hnic. unfold main, step_bind, on_cli. rewrite Hload.
  cbn [cli set_cli]. rewrite Hvm. cbn [cli set_cli]. rewrite Hnic. reflexivity.
Qed.

Lemma main_resolver_raises (w : world) (vms nics : list pyval) (e : exn)
    (b1 b2 b3 : backend) :
  load_cache_if_fresh w = Ok None →
  graph_query_all vm_query GRAPH_PAGE_SIZE (cli w) = Some (Ok vms, b1) →
  graph_query_all nic_query GRAPH_PAGE_SIZE b1 = Some (Ok nics, b2) →
  get_mde_windows_machine_keys b2 = Some (Raise e, b3) →
  main w = Some (Raise e, set_cli b3 w).
Proof.
  intros Hload Hvm Hnic Hkeys. unfold main, step_bind, on_cli. rewrite Hload.
  cbn [cli set_cli]. rewrite Hvm. cbn [cli set_cli]. rewrite Hnic.
  cbn [cli set_cli]. rewrite Hkeys. reflexivity.
Qed.


(** *** An empty VM result and a NIC answer that is an array *)


(** ** The rows the VM query returns *)

Example vm_query_columns :
  projected_columns vm_query
  = ["name"; "resourceGroup"; "location"; "osType"; "publisher"; "offer"; "sku"; "nicId"].
Proof. reflexivity. Qed.

Example nic_query_columns : projected_columns nic_query = ["id"; "privateIp"].
Proof. reflexivity. Qed.

Lemma assoc_project_absent (columns : list string) (resource : list (string * pyval))
    (k : string) :
  k ∉ columns → assoc k (project columns resource) = None.
Proof.
  intros Hk. induction resource as [|[k' v] resource IH]; [reflexivity|].
  cbn [project List.filter fst]. fold (project columns resource).
  case_bool_decide as Hin; [|exact IH].
  cbn [assoc]. destruct (String.eqb k k') eqn:E; [|exact IH].
  apply String.eqb_eq in E. subst k'. contradiction.
Qed.

(** No row of the VM query has an [id]: the identifier key of the
    onboarding test is the empty string for every VM. *)
Lemma vm_query_row_has_no_id (resource : list (string * pyval)) :
  vm_id_key (PDict (project (projected_columns vm_query) resource)) = Ok "".
Proof.
  unfold vm_id_key, get, get_default.
  rewrite assoc_project_absent; [reflexivity|].
  rewrite vm_query_columns. set_solver.
Qed.

(** *** A Windows VM that Defender knows by its identifier only *)

(** C1, the column the query leaves out.  The VM query does not project
    [id], so no row of a VM has one and the identifier key of the
    onboarding test is always the empty string.  For a Windows VM whose
    lower-cased identifier is in the key set and whose lower-cased name is
    not, the run prints the inventory in which the VM is not onboarded; the
    join itself, given the record with its [id], lists it as onboarded. *)
Theorem vm_known_by_id_is_listed_not_onboarded :
  projected_columns vm_query
  = ["name"; "resourceGroup"; "location"; "osType"; "publisher"; "offer"; "sku"; "nicId"]
  ∧ (∀ resource,
       vm_id_key (PDict (project (projected_columns vm_query) resource)) = Ok "")
  ∧ get vm1_row "id" = Ok PNone
  ∧ get_mde_windows_machine_keys (Backend [fetched (PDict [("value", PList [vm1_machine])])] [])
    = Some (Ok vm1_keys, Backend [] [rest_command mde_url])
  ∧ lower vm1_id ∈ vm1_keys
  ∧ (lower "vm1" ∉ vm1_keys)
  ∧ option_map (fun rw => (fst rw, printed (snd rw))) (main vm1_world)
    = Some (Ok tt, [json_dumps_indent2 (vm1_inventory false)])
  ∧ build_inventory [PDict vm1_resource] [vm1_nic] vm1_keys = Ok (vm1_inventory true).
Proof.
  split; [reflexivity|].
  split; [exact vm_query_row_has_no_id|].
  split; [reflexivity|].
  split; [vm_compute; reflexivity|].
  split; [by_evaluation|].
  split; [intros Hin; apply (bool_decide_pack _) in Hin; vm_compute in Hin; exact Hin|].
  split; vm_compute; reflexivity.
Qed.

(** ** The freshness cache *)

Lemma Qltb_lt (a b : Q) : Qltb a b = true ↔ (a < b)%Q.
Proof.
  unfold Qltb. rewrite negb_true_iff. split.
  - intros H. apply Qnot_le_lt. intros Hle.
    apply Qle_bool_iff in Hle. congruence.
  - intros H. destruct (Qle_bool b a) eqn:E; [|reflexivity].
    apply Qle_bool_iff in E. exfalso. exact (Qlt_not_le _ _ H E).
Qed.

Lemma Qltb_ge (a b : Q) : Qltb a b = false ↔ (b <= a)%Q.
Proof.
  unfold Qltb. rewrite negb_false_iff. apply Qle_bool_iff.
Qed.

(** [load] never raises. *)
Lemma load_cache_returns (w : world) : ∃ r, load_cache_if_fresh w = Ok r.
Proof.
  unfold load_cache_if_fresh. destruct (load_cache_try w) as [[c|]|e]; eauto.
Qed.

(** A failure while reading is a cache miss. *)
Lemma load_cache_failure_is_miss (w : world) (e : exn) :
  load_cache_try w = Raise e → load_cache_if_fresh w = Ok None.
Proof. unfold load_cache_if_fresh. intros ->. reflexivity. Qed.

(** A fresh, readable file is returned as it is. *)
Lemma load_cache_fresh (w : world) (content : text) (mtime : Q) :
  cache w = File content mtime →
  stat_fault w = false → read_fault w = false →
  (now w - mtime < inject_Z CACHE_TTL_SECONDS)%Q →
  load_cache_if_fresh w = Ok (Some content).
Proof.
  intros Hc Hs Hr Hage. unfold load_cache_if_fresh, load_cache_try.
  rewrite Hc, Hs, Hr. apply Qltb_lt in Hage. rewrite Hage. reflexivity.
Qed.

(** No file, or a file as old as the TTL or older: no cache. *)
Lemma load_cache_expired (w : world) :
  cache w = Missing
  ∨ (∃ content mtime, cache w = File content mtime
                      ∧ (inject_Z CACHE_TTL_SECONDS <= now w - mtime)%Q) →
  load_cache_if_fresh w = Ok None.
Proof.
  unfold load_cache_if_fresh, load_cache_try.
  intros [->|(content & mtime & -> & Hage)]; [reflexivity|].
  apply Qltb_ge in Hage. rewrite Hage. destruct (stat_fault w); reflexivity.
Qed.

(** A save that goes through, then a load within the TTL: the text
    written for [doc] comes back, and it decodes to [doc]. *)
Lemma cache_round_trip (doc : inventory) (w w2 : world) :
  write_fault w = None →
  cache w2 = cache (snd (save_cache doc w)) →
  stat_fault w2 = false → read_fault w2 = false →
  (now w2 - now w < inject_Z CACHE_TTL_SECONDS)%Q →
  load_cache_if_fresh w2 = Ok (Some (json_dump doc))
  ∧ decoded (json_dump doc) = Some doc.
Proof.
  intros Hw Hc Hs Hr Hage. rewrite save_cache_file, Hw in Hc.
  split; [|reflexivity]. eapply load_cache_fresh; eauto.
Qed.

(** A save that cannot open the file changes nothing. *)
Lemma save_cache_open_failure_is_noop (doc : inventory) (w : world) :
  write_fault w = Some OpenFails → save_cache doc w = (Ok tt, w).
Proof.
  intros Hw. unfold save_cache, save_cache_try. rewrite Hw. reflexivity.
Qed.

(** When the cache is fresh, [main] prints it and does nothing else. *)
Lemma main_serves_fresh_cache (w : world) (content : text) :
  load_cache_if_fresh w = Ok (Some content) →
  main w = Some (Ok tt, print content w).
Proof.
  intros H. unfold main, step_bind. rewrite H. reflexivity.
Qed.

(** C8, the write that fails half-way.  A save whose write fails after the
    file has been opened returns normally, but it is not a no-op: the cache
    file is left truncated with a new time stamp.  A load within the TTL
    then returns that text, which does not decode to [doc] (nor to
    anything), and the next run prints it as its inventory. *)
Theorem failed_write_leaves_truncated_cache (doc : inventory) (w w2 : world) :
  write_fault w = Some DumpFails →
  cache w2 = cache (snd (save_cache doc w)) →
  stat_fault w2 = false → read_fault w2 = false →
  (now w2 - now w < inject_Z CACHE_TTL_SECONDS)%Q →
  fst (save_cache doc w) = Ok tt
  ∧ cache (snd (save_cache doc w)) = File (truncated doc) (now w)
  ∧ load_cache_if_fresh w2 = Ok (Some (truncated doc))
  ∧ decoded (truncated doc) = None
  ∧ main w2 = Some (Ok tt, print (truncated doc) w2).
Proof.
  intros Hw Hc Hs Hr Hage. rewrite save_cache_file, Hw in *.
  assert (Hload : load_cache_if_fresh w2 = Ok (Some (truncated doc)))
    by (eapply load_cache_fresh; eauto).
  split; [apply save_cache_returns|]. split; [reflexivity|].
  split; [exact Hload|]. split; [reflexivity|].
  apply main_serves_fresh_cache. exact Hload.
Qed.

(** ** The theorems at concrete inputs *)

Lemma fleet_names : record_names fleet = ["web1"; "fw1"; "WIN1"; "misc1"].
Proof. reflexivity. Qed.

Lemma fleet_names_NoDup : NoDup (record_names fleet).
Proof.
  rewrite fleet_names. by_evaluation.
Qed.

(** The fleet has distinct names; [web1] is placed once, the blank name
    nowhere. *)
Lemma join_places_each_named_record_once_witness :
  NoDup (record_names fleet)
  ∧ ∃ inv, build_inventory fleet fleet_nics fleet_keys = Ok inv
           ∧ occurrences "web1" (hosts g_all inv) = 1%nat
           ∧ (occurrences "web1" (hosts g_linux inv)
              + occurrences "web1" (hosts g_network_appliances inv)
              + occurrences "web1" (hosts g_windows inv))%nat = 1%nat
           ∧ is_Some (hostvars inv !! "web1")
           ∧ (∀ g, "   " ∉ hosts g inv).
Proof.
  split; [exact fleet_names_NoDup|].
  destruct (join_places_each_named_record_once fleet fleet_nics fleet_keys
              fleet_names_NoDup) as [Htotal Hprops].
  destruct Htotal as [inv Hinv].
  { repeat constructor. }
  { repeat constructor. }
  exists inv. split; [exact Hinv|].
  destruct (Hprops inv Hinv) as (Hnamed & _ & Hblank).
  destruct (Hnamed web1 "web1") as (H1 & H2 & H3);
    [unfold fleet; in_list | reflexivity | discriminate |].
  destruct (Hblank unnamed "   ") as [H4 _];
    [unfold fleet; in_list | reflexivity | reflexivity |].
  auto.
Defined.

(** Two Linux rows named [dup], one of Canonical and one of Cisco: the
    name is listed in both groups, once for each row. *)
Lemma linux_vm_is_appliance_iff_denylisted_witness :
  ∃ inv, build_inventory [dup_linux; dup_cisco] [] ∅ = Ok inv
         ∧ "dup" ∈ hosts g_network_appliances inv
         ∧ "dup" ∈ hosts g_linux inv.
Proof.
  destruct (build_inventory [dup_linux; dup_cisco] [] ∅) as [inv|e] eqn:Hinv;
    [|vm_compute in Hinv; discriminate].
  exists inv. split; [reflexivity|].
  assert (Hname : "dup" ≠ "") by discriminate.
  pose proof (linux_vm_is_appliance_iff_denylisted ∅ dup_cisco "dup" "cisco"
                eq_refl Hname eq_refl eq_refl) as (_ & _ & Hcisco & _).
  pose proof (linux_vm_is_appliance_iff_denylisted ∅ dup_linux "dup" "Canonical"
                eq_refl Hname eq_refl eq_refl) as (_ & _ & Hlinux & _).
  assert (Hin1 : dup_cisco ∈ [dup_linux; dup_cisco]) by in_list.
  assert (Hin2 : dup_linux ∈ [dup_linux; dup_cisco]) by in_list.
  destruct (Hcisco [dup_linux; dup_cisco] [] inv Hinv Hin1) as (Hna & _).
  destruct (Hlinux [dup_linux; dup_cisco] [] inv Hinv Hin2) as (_ & Hlin & _).
  split.
  - apply Hna. apply is_appliance_spec. reflexivity.
  - apply Hlin. rewrite <- is_appliance_spec. discriminate.
Defined.

(** A row without [osType] and a Windows row, both named [dup]: the loop
    body puts the first in [windows] alone, and the name is listed in
    [windows] in the inventory of the two. *)
Lemma fallback_windows_host_has_no_onboarding_witness :
  (∃ inv', process_vm ∅ [] empty_inventory dup_fallback = Ok inv'
           ∧ hosts g_windows inv' = hosts g_windows empty_inventory ++ ["dup"]
           ∧ hosts g_windows_mde_onboarded inv'
             = hosts g_windows_mde_onboarded empty_inventory
           ∧ hosts g_windows_mde_not_onboarded inv'
             = hosts g_windows_mde_not_onboarded empty_inventory
           ∧ ∃ hv, hostvars inv' !! "dup" = Some hv ∧ mde_onboarded hv = None)
  ∧ ∃ inv, build_inventory [dup_fallback; dup_windows] [] ∅ = Ok inv
           ∧ "dup" ∈ hosts g_windows inv.
Proof.
  assert (Hname : "dup" ≠ "") by discriminate.
  assert (Hl : PNone ≠ PStr "Linux") by discriminate.
  assert (Hw : PNone ≠ PStr "Windows") by discriminate.
  pose proof (fallback_windows_host_has_no_onboarding ∅ dup_fallback "dup" PNone
                eq_refl Hname eq_refl Hl Hw) as (Hbody & Htotal & Hjoin).
  split.
  - destruct (Htotal eq_refl [] empty_inventory) as [inv' H].
    exists inv'. split; [exact H|].
    destruct (Hbody [] empty_inventory inv' H) as (Hwin & _ & Hon & Hoff & _ & _ & Hhv).
    auto.
  - destruct (build_inventory [dup_fallback; dup_windows] [] ∅) as [inv|e] eqn:Hinv;
      [|vm_compute in Hinv; discriminate].
    exists inv. split; [reflexivity|].
    assert (Hin : dup_fallback ∈ [dup_fallback; dup_windows]) by in_list.
    apply (Hjoin [dup_fallback; dup_windows] [] inv Hinv Hin).
Defined.

(** The sample VM without its [publisher], and without its [osType]. *)
Lemma missing_publisher_raises_key_error_witness :
  process_vm fleet_keys [] empty_inventory (PDict (remove_key "publisher" vm1_resource))
  = Raise KeyError
  ∧ ∃ inv, process_vm fleet_keys [] empty_inventory
             (PDict (remove_key "osType" vm1_resource)) = Ok inv.
Proof.
  destruct (missing_publisher_raises_key_error fleet_keys vm1_resource "vm1")
    as (Hothers & Hraise & _).
  - reflexivity.
  - reflexivity.
  - discriminate.
  - split; [apply Hraise|]. apply Hothers. in_list.
Defined.

(** One page, then a timeout. *)
Lemma resolver_keeps_keys_of_pages_before_a_failure_witness :
  get_mde_windows_machine_keys (Backend (map fetched [first_mde_page] ++ [TimedOut]) [])
  = Some (Ok (⋃ (map fst first_mde_page_summary)),
          Backend []
            ([] ++ map rest_command (mde_url :: map snd first_mde_page_summary)))
  ∧ get_mde_windows_machine_keys
      (Backend (map fetched [first_mde_page] ++ [Exited 0 TooDeep]) [])
    = Some (Raise RecursionError,
            Backend []
              ([] ++ map rest_command (mde_url :: map snd first_mde_page_summary))).
Proof.
  assert (Hpage : Forall2 page_with_next_link [first_mde_page] first_mde_page_summary).
  { constructor; [|constructor].
    split; [reflexivity|]. split; [vm_compute; reflexivity|].
    split; [reflexivity|]. split; [discriminate|reflexivity]. }
  split.
  - apply (resolver_keeps_keys_of_pages_before_a_failure [first_mde_page]
             first_mde_page_summary TimedOut [] []); [discriminate|exact Hpage|reflexivity].
  - apply (resolver_keeps_keys_of_pages_before_a_failure [first_mde_page]
             first_mde_page_summary (Exited 0 TooDeep) [] []);
      [discriminate|exact Hpage|reflexivity].
Defined.

Lemma mixed_pages_shape : Forall2 token_page mixed_pages three_pages_summary.
Proof.
  repeat constructor.
  - eexists. split; [reflexivity|]. split; [left; reflexivity|].
    split; [|reflexivity]. split; [discriminate|left; reflexivity].
  - eexists. split; [reflexivity|]. split; [left; reflexivity|].
    split; [|reflexivity]. split; [discriminate|right].
    split; [intros v Hv; discriminate|reflexivity].
  - eexists. split; [reflexivity|]. split; [left; reflexivity|].
    split; [|reflexivity]. split; [discriminate|right].
    split; [intros v [= <-]; reflexivity|reflexivity].
Qed.

Lemma last_response_shape : last_page last_response [row "vm5"].
Proof.
  eexists. split; [reflexivity|]. split; [left; reflexivity|].
  split; [intros v [= <-]; reflexivity|intros v Hv; discriminate].
Qed.

(** Three pages with their tokens under either key, and a last response
    with a record: four calls, five records. *)
Lemma pagination_follows_tokens_to_the_last_response_witness :
  graph_query_all "q" GRAPH_PAGE_SIZE
    (Backend (map fetched mixed_pages ++ [fetched last_response]) [])
  = Some (Ok (concat (map fst three_pages_summary) ++ [row "vm5"]),
          Backend [] ([] ++ page_commands "q" GRAPH_PAGE_SIZE "" three_pages_summary))
  ∧ length (page_commands "q" GRAPH_PAGE_SIZE "" three_pages_summary)
    = S (length mixed_pages).
Proof.
  apply (pagination_follows_tokens_to_the_last_response "q" GRAPH_PAGE_SIZE mixed_pages
           three_pages_summary last_response [row "vm5"] [] []).
  - reflexivity.
  - exact mixed_pages_shape.
  - exact last_response_shape.
Defined.


(** The write fails at time 0; the run at time 60 prints the leftover. *)
Lemma failed_write_leaves_truncated_cache_witness :
  fst (save_cache (vm1_inventory false) full_disk_world) = Ok tt
  ∧ cache (snd (save_cache (vm1_inventory false) full_disk_world))
    = File (truncated (vm1_inventory false)) (now full_disk_world)
  ∧ load_cache_if_fresh next_run_world = Ok (Some (truncated (vm1_inventory false)))
  ∧ decoded (truncated (vm1_inventory false)) = None
  ∧ main next_run_world
    = Some (Ok tt, print (truncated (vm1_inventory false)) next_run_world).
Proof.
  apply (failed_write_leaves_truncated_cache (vm1_inventory false)
           full_disk_world next_run_world).
  - reflexivity.
  - reflexivity.
  - reflexivity.
  - reflexivity.
  - vm_compute. reflexivity.
Defined.

(** * Further properties *)

(** ** The REST helper *)



(** ** The keys of the resolver *)

Lemma lower_char_idem (c : ascii) : lower_char (lower_char c) = lower_char c.
Proof. destruct c as [[] [] [] [] [] [] [] []]; reflexivity. Qed.

Lemma lower_idem (s : string) : lower (lower s) = lower s.
Proof.
  induction s as [|c s IH]; [reflexivity|].
  cbn [lower]. rewrite lower_char_idem, IH. reflexivity.
Qed.

Lemma str_method_ok (f : string → string) (v : pyval) (k : string) :
  str_method f v = Ok k → ∃ s, v = PStr s ∧ k = f s.
Proof. destruct v; try discriminate. intros [= <-]. eauto. Qed.

(** A property of key sets that scanning a machine keeps is kept by the
    whole resolver. *)
Lemma scan_machines_invariant (P : gset string → Prop) :
  (∀ ks m ks', P ks → scan_machine ks m = Ok ks' → P ks') →
  ∀ ms ks ks', P ks → scan_machines ks ms = Ok ks' → P ks'.
Proof.
  intros Hm. induction ms as [|m ms IH]; intros ks ks' HP H.
  - injection H as <-. exact HP.
  - cbn [scan_machines] in H. bind_inv H. eapply IH; [|exact H]. eapply Hm; eauto.
Qed.

Lemma mde_loop_invariant (P : gset string → Prop) :
  (∀ ks m ks', P ks → scan_machine ks m = Ok ks' → P ks') →
  ∀ script url keys log keys' b,
  P keys → mde_loop url keys script log = Some (Ok keys', b) → P keys'.
Proof.
  intros Hm. induction script as [|o script IH]; intros url keys log keys' b HP H;
    cbn [mde_loop] in H; destruct (negb (truthy url));
    try (injection H as <- _; exact HP);
    destruct (argv (rest_cmd url)); try discriminate.
  destruct (graph_api_payload (subprocess_run o)) as [payload|e]; [|discriminate].
  destruct (negb (truthy payload)); [injection H as <- _; exact HP|].
  destruct (scan_page keys payload) as [keys1|e] eqn:Hscan; [|discriminate].
  destruct (get payload "@odata.nextLink") as [url'|e]; [|discriminate].
  eapply IH; [|exact H].
  unfold scan_page in Hscan. bind_inv Hscan. bind_inv Hscan.
  eapply scan_machines_invariant; eauto.
Qed.

Lemma scan_machine_lower (ks : gset string) (m : pyval) (ks' : gset string) :
  (∀ k, k ∈ ks → lower k = k) →
  scan_machine ks m = Ok ks' →
  ∀ k, k ∈ ks' → lower k = k.
Proof.
  unfold scan_machine. intros HP H.
  destruct (get m "osPlatform") as [platform|e]; [|discriminate]. cbn [bind] in H.
  destruct (negb (eq_str platform "Windows")); [injection H as <-; exact HP|].
  destruct (get m "azureVmId") as [vm_id|e]; [|discriminate]. cbn [bind] in H.
  apply bind_ok in H as (keys1 & H1 & H).
  assert (HP1 : ∀ k, k ∈ keys1 → lower k = k).
  { destruct (truthy vm_id).
    - apply bind_ok in H1 as (v & _ & H1). apply bind_ok in H1 as (k1 & Hk1 & H1).
      injection H1 as <-. apply str_method_ok in Hk1 as (s & _ & ->).
      intros k Hk. apply elem_of_union in Hk as [Hk|Hk]; [|auto].
      apply elem_of_singleton in Hk as ->. apply lower_idem.
    - injection H1 as <-. exact HP. }
  destruct (get m "computerDnsName") as [dns|e]; [|discriminate]. cbn [bind] in H.
  destruct (truthy dns).
  - apply bind_ok in H as (v & _ & H). apply bind_ok in H as (k2 & Hk2 & H).
    injection H as <-. apply str_method_ok in Hk2 as (s & _ & ->).
    intros k Hk. apply elem_of_union in Hk as [Hk|Hk]; [|auto].
    apply elem_of_singleton in Hk as ->. apply lower_idem.
  - injection H as <-. exact HP1.
Qed.

(** X2.  Every key the resolver returns is in lower case, whatever the
    endpoint answered and wherever the loop stopped; so the join's
    lower-cased lookups compare without regard to case. *)
Theorem resolver_keys_are_lower_case (b b' : backend) (keys : gset string) :
  get_mde_windows_machine_keys b = Some (Ok keys, b') →
  ∀ k, k ∈ keys → lower k = k.
Proof.
  unfold get_mde_windows_machine_keys. intros H.
  refine (mde_loop_invariant (fun ks => ∀ k, k ∈ ks → lower k = k)
            scan_machine_lower _ _ _ _ _ _ _ H).
  intros k Hk. apply not_elem_of_empty in Hk. contradiction.
Qed.

Lemma resolver_keys_are_lower_case_witness :
  "host-7" ∈ ({[ "9f3c-a1"; "host-7" ]} : gset string) ∧ lower "host-7" = "host-7".
Proof.
  assert (Hin : "host-7" ∈ ({[ "9f3c-a1"; "host-7" ]} : gset string)).
  { apply elem_of_union. right. apply elem_of_singleton. reflexivity. }
  split; [exact Hin|].
  apply (resolver_keys_are_lower_case (Backend [fetched first_mde_page; TimedOut] [])
           (Backend []
              [rest_command mde_url;
               rest_command "https://graph.microsoft.com/v1.0/security/machines?$skip=1000"])
           {[ "9f3c-a1"; "host-7" ]}).
  - vm_compute. reflexivity.
  - exact Hin.
Defined.

(** ** Runs of the resolver *)

(** X3.  A complete run of the resolver: while the pages carry a next
    link it requests the link, and at the first page without one it
    stops and returns the keys of every page read, the last one
    included; it has made one request per page and leaves the answers
    that follow unread. *)
Theorem resolver_follows_next_links_to_the_last_page
    (payloads : list pyval) (pages : list (gset string * string))
    (final : pyval) (added : gset string) (next : pyval)
    (rest : list az_outcome) (log : list (list string)) :
  Forall2 page_with_next_link payloads pages →
  truthy final = true →
  page_keys final = Ok added →
  get final "@odata.nextLink" = Ok next →
  truthy next = false →
  get_mde_windows_machine_keys (Backend (map fetched payloads ++ fetched final :: rest) log)
  = Some (Ok (added ∪ ⋃ (map fst pages)),
          Backend rest (log ++ map rest_command (mde_url :: map snd pages))).
Proof.
  intros Hpages Ht Hk Hn Hnext. unfold get_mde_windows_machine_keys. cbn [pending issued].
  destruct (mde_loop_pages payloads pages (fetched final :: rest) Hpages mde_url ∅ log)
    as (url' & log' & Hu' & Hnul' & Hlog & ->); [discriminate|reflexivity|].
  rewrite (mde_loop_fetched _ _ added _ _ _ _ Hu' Hnul' Ht Hk Hn).
  rewrite (mde_loop_done _ _ _ _ Hnext), Hlog.
  f_equal. f_equal. f_equal. set_solver.
Qed.

Lemma resolver_follows_next_links_to_the_last_page_witness :
  get_mde_windows_machine_keys
    (Backend (map fetched [first_mde_page] ++ [fetched last_mde_page; TimedOut]) [])
  = Some (Ok (fleet_keys ∪ ⋃ (map fst first_mde_page_summary)),
          Backend [TimedOut]
            ([] ++ map rest_command (mde_url :: map snd first_mde_page_summary))).
Proof.
  apply (resolver_follows_next_links_to_the_last_page [first_mde_page]
           first_mde_page_summary last_mde_page fleet_keys PNone [TimedOut] []).
  - constructor; [|constructor].
    split; [reflexivity|]. split; [vm_compute; reflexivity|].
    split; [reflexivity|]. split; [discriminate|reflexivity].
  - reflexivity.
  - vm_compute. reflexivity.
  - reflexivity.
  - reflexivity.
Defined.

Lemma scan_machine_grows (ks : gset string) (m : pyval) (ks' : gset string) :
  scan_machine ks m = Ok ks' → ks ⊆ ks'.
Proof.
  rewrite scan_machine_union. intros H. apply bind_ok in H as (added & _ & H).
  injection H as <-. set_solver.
Qed.

Lemma scan_machines_grows (ms : list pyval) (ks ks' : gset string) :
  scan_machines ks ms = Ok ks' → ks ⊆ ks'.
Proof.
  rewrite scan_machines_union. intros H. apply bind_ok in H as (added & _ & H).
  injection H as <-. set_solver.
Qed.

(** X4.  The resolver never drops a key: whatever follows the pages read
    so far (a failure, an empty payload, further pages), the key set it
    returns holds the keys of every page it has read. *)
Theorem resolver_never_drops_a_key
    (payloads : list pyval) (pages : list (gset string * string))
    (tail : list az_outcome) (log : list (list string))
    (keys : gset string) (b' : backend) :
  Forall2 page_with_next_link payloads pages →
  get_mde_windows_machine_keys (Backend (map fetched payloads ++ tail) log)
  = Some (Ok keys, b') →
  ⋃ (map fst pages) ⊆ keys.
Proof.
  intros Hpages. unfold get_mde_windows_machine_keys. cbn [pending issued].
  destruct (mde_loop_pages payloads pages tail Hpages mde_url ∅ log)
    as (url' & log' & _ & _ & _ & ->); [discriminate|reflexivity|].
  intros H.
  refine (mde_loop_invariant (fun ks => ⋃ (map fst pages) ⊆ ks) _ _ _ _ _ _ _ _ H).
  - intros ks m ks' Hks Hm. apply scan_machine_grows in Hm. set_solver.
  - set_solver.
Qed.

Lemma resolver_never_drops_a_key_witness :
  ⋃ (map fst first_mde_page_summary)
  ⊆ ({[ "win1" ]} ∪ ({[ "9f3c-a1"; "host-7" ]} ∪ ∅) : gset string).
Proof.
  apply (resolver_never_drops_a_key [first_mde_page] first_mde_page_summary
           [fetched last_mde_page] []
           _ (Backend [] [rest_command mde_url;
                rest_command "https://graph.microsoft.com/v1.0/security/machines?$skip=1000"])).
  - constructor; [|constructor].
    split; [reflexivity|]. split; [vm_compute; reflexivity|].
    split; [reflexivity|]. split; [discriminate|reflexivity].
  - vm_compute. reflexivity.
Defined.

(** ** From a Defender machine to the onboarded group *)

Lemma get_getitem (d : pyval) (k : string) (v v' : pyval) :
  get d k = Ok v → getitem d k = Ok v' → v' = v.
Proof.
  destruct d as [| | | | |items]; try discriminate.
  unfold get, get_default, getitem. destruct (assoc k items); [|discriminate].
  intros [= <-] [= <-]. reflexivity.
Qed.

Lemma scan_machine_dns (ks ks' : gset string) (m : pyval) (d : string) :
  scan_machine ks m = Ok ks' →
  get m "osPlatform" = Ok (PStr "Windows") →
  get m "computerDnsName" = Ok (PStr d) → d ≠ "" →
  lower (first_label d) ∈ ks'.
Proof.
  unfold scan_machine. intros H Hp Hd Hne. rewrite Hp in H. cbn [bind eq_str] in H.
  rewrite String.eqb_refl in H. cbn [negb] in H.
  destruct (get m "azureVmId") as [vm_id|e]; [|discriminate]. cbn [bind] in H.
  apply bind_ok in H as (keys1 & _ & H). rewrite Hd in H. cbn [bind] in H.
  apply truthy_str in Hne. rewrite Hne in H.
  apply bind_ok in H as (v & Hv & H). apply (get_getitem _ _ _ _ Hd) in Hv as ->.
  cbn [str_method bind] in H. injection H as <-. set_solver.
Qed.

Lemma scan_machines_dns (ms : list pyval) (m : pyval) (d : string) :
  m ∈ ms →
  get m "osPlatform" = Ok (PStr "Windows") →
  get m "computerDnsName" = Ok (PStr d) → d ≠ "" →
  ∀ ks ks', scan_machines ks ms = Ok ks' → lower (first_label d) ∈ ks'.
Proof.
  intros Hin Hp Hd Hne. induction ms as [|m0 ms IH]; intros ks ks' H.
  - apply elem_of_nil in Hin. contradiction.
  - cbn [scan_machines] in H. apply bind_ok in H as (ks1 & H1 & H).
    apply elem_of_cons in Hin as [<-|Hin].
    + apply scan_machines_grows in H. apply H. eapply scan_machine_dns; eauto.
    + eapply IH; eauto.
Qed.

(** X5.  Matching by host name: when a page of the endpoint lists a
    Windows machine with a DNS name, the lower-cased first label of that
    name is among the page's keys; and a Windows VM whose trimmed name
    equals that label up to case is put in [windows_mde_onboarded], not
    in [windows_mde_not_onboarded], with [mde_onboarded] true, whenever
    the key set used by the join holds the page's keys. *)
Theorem windows_vm_is_matched_by_dns_short_name
    (payload : pyval) (machines : list pyval) (machine : pyval) (d : string)
    (added keys : gset string)
    (vms nics : list pyval) (inv : inventory) (vm : pyval) (n : string) :
  get payload "value" = Ok (PList machines) →
  page_keys payload = Ok added →
  machine ∈ machines →
  get machine "osPlatform" = Ok (PStr "Windows") →
  get machine "computerDnsName" = Ok (PStr d) → d ≠ "" →
  added ⊆ keys →
  build_inventory vms nics keys = Ok inv →
  vm ∈ vms →
  vm_name vm = Ok n → n ≠ "" →
  occurrences n (record_names vms) = 1%nat →
  get vm "osType" = Ok (PStr "Windows") →
  lower n = lower (first_label d) →
  lower (first_label d) ∈ added
  ∧ n ∈ hosts g_windows_mde_onboarded inv
  ∧ (n ∉ hosts g_windows_mde_not_onboarded inv)
  ∧ ∃ hv, hostvars inv !! n = Some hv ∧ mde_onboarded hv = Some true.
Proof.
  intros Hvalue Hpage Hin Hp Hd Hne Hsub Hinv Hvm Hn Hn0 Huniq Hos Hmatch.
  assert (Hkey : lower (first_label d) ∈ added).
  { unfold page_keys, scan_page in Hpage.
    destruct payload as [| | | | |items]; try discriminate.
    unfold get, get_default in Hvalue. unfold get_default in Hpage.
    destruct (assoc "value" items) as [v|]; [|discriminate].
    injection Hvalue as ->. cbn [bind iter] in Hpage.
    exact (scan_machines_dns machines machine d Hin Hp Hd Hne _ _ Hpage). }
  split; [exact Hkey|].
  destruct (windows_record_onboarding_or_test vms nics keys inv vm n
              Hinv Hvm Hn Hn0 Huniq Hos)
    as (id_key & b & _ & Hb & _ & Hhv & Hon & Hoff).
  assert (b = true) as -> by (apply Hb; right; rewrite Hmatch; auto).
  split; [apply Hon; reflexivity|].
  split; [intros Hbad; apply Hoff in Hbad; discriminate|exact Hhv].
Qed.

Lemma windows_vm_is_matched_by_dns_short_name_witness :
  lower (first_label "Win1.corp.local") ∈ fleet_keys
  ∧ ∃ inv, build_inventory fleet fleet_nics fleet_keys = Ok inv
           ∧ "WIN1" ∈ hosts g_windows_mde_onboarded inv
           ∧ ("WIN1" ∉ hosts g_windows_mde_not_onboarded inv)
           ∧ ∃ hv, hostvars inv !! "WIN1" = Some hv ∧ mde_onboarded hv = Some true.
Proof.
  destruct (build_inventory fleet fleet_nics fleet_keys) as [inv|e] eqn:Hinv;
    [|vm_compute in Hinv; discriminate].
  destruct (windows_vm_is_matched_by_dns_short_name last_mde_page
              [linux_machine; dns_only_machine] dns_only_machine "Win1.corp.local"
              fleet_keys fleet_keys fleet fleet_nics inv win1 "WIN1")
    as (Hkey & Hrest).
  - reflexivity.
  - vm_compute. reflexivity.
  - in_list.
  - reflexivity.
  - reflexivity.
  - discriminate.
  - reflexivity.
  - exact Hinv.
  - unfold fleet. in_list.
  - reflexivity.
  - discriminate.
  - reflexivity.
  - reflexivity.
  - reflexivity.
  - split; [exact Hkey|]. exists inv. split; [reflexivity|exact Hrest].
Defined.

(** ** The metadata of a host *)

Lemma process_vm_entry (keys : gset string) (m : list (pyval * option string))
    (inv inv' : inventory) (vm : pyval) (n : string) :
  process_vm keys m inv vm = Ok inv' →
  vm_name vm = Ok n → n ≠ "" →
  ∃ hv, hostvars inv' = <[n := hv]> (hostvars inv) ∧ entry_mirrors keys m vm n hv.
Proof.
  unfold process_vm. intros H Hname Hne. rewrite Hname in H. cbn [bind] in H.
  apply String.eqb_neq in Hne. rewrite Hne in H.
  destruct (get vm "nicId") as [nic|e] eqn:Hnic; [|discriminate]. cbn [bind] in H.
  destruct (nic_get m nic) as [ip|e] eqn:Hip; [|discriminate]. cbn [bind] in H.
  destruct (get vm "resourceGroup") as [rg|e] eqn:Hrg; [|discriminate]. cbn [bind] in H.
  destruct (get vm "location") as [loc|e] eqn:Hloc; [|discriminate]. cbn [bind] in H.
  destruct (get vm "osType") as [os|e] eqn:Hos; [|discriminate]. cbn [bind] in H.
  destruct (vm_publisher vm) as [publisher|e]; [|discriminate]. cbn [bind] in H.
  set (entry := {| ansible_host := ip; private_ip := ip; resource_group := rg;
                   location := loc; os_type := os; nic_id := nic;
                   mde_onboarded := None |}) in *.
  assert (Hplain : os ≠ PStr "Windows" → entry_mirrors keys m vm n entry).
  { intros Hw. repeat split; assumption. }
  destruct (eq_str os "Linux" && negb (is_appliance publisher)) eqn:B1.
  { injection H as <-. exists entry. split; [reflexivity|]. apply Hplain.
    apply andb_true_iff in B1 as [B1 _]. apply eq_str_true in B1 as ->. discriminate. }
  destruct (eq_str os "Linux" && is_appliance publisher) eqn:B2.
  { injection H as <-. exists entry. split; [reflexivity|]. apply Hplain.
    apply andb_true_iff in B2 as [B2 _]. apply eq_str_true in B2 as ->. discriminate. }
  destruct (eq_str os "Windows") eqn:B3.
  - destruct (vm_id_key vm) as [id_key|e] eqn:Hid; [|discriminate]. cbn [bind] in H.
    set (b := is_onboarded keys id_key (lower n)) in *.
    apply bind_ok in H as (inv4 & H4 & H).
    unfold attach_onboarding in H4. simpl in H4.
    rewrite lookup_insert_eq in H4. injection H4 as <-.
    apply eq_str_true in B3.
    exists (set_mde_onboarded b entry). split.
    + destruct b; injection H as <-; simpl; rewrite insert_insert_eq; reflexivity.
    + repeat split; try assumption. exists id_key. split; [exact Hid|reflexivity].
  - injection H as <-. exists entry. split; [reflexivity|]. apply Hplain.
    intros ->. discriminate.
Qed.

Lemma process_vms_entries (keys : gset string) (m : list (pyval * option string))
    (vms : list pyval) :
  ∀ inv inv', process_vms keys m inv vms = Ok inv' →
  ∀ n hv, hostvars inv' !! n = Some hv →
  hostvars inv !! n = Some hv ∨ ∃ vm, vm ∈ vms ∧ entry_mirrors keys m vm n hv.
Proof.
  induction vms as [|vm vms IH]; intros inv inv' H n hv Hhv.
  - injection H as <-. left. exact Hhv.
  - cbn [process_vms] in H. apply bind_ok in H as (inv1 & H1 & H).
    destruct (IH _ _ H n hv Hhv) as [Hin1|(vm' & Hin & Hm)].
    + destruct (decide (record_name vm = Some n)) as [Hn|Hn].
      * apply record_name_some in Hn as [Hname Hne].
        destruct (process_vm_entry _ _ _ _ _ _ H1 Hname Hne) as (hv' & Heq & Hm).
        rewrite Heq, lookup_insert_eq in Hin1. injection Hin1 as <-.
        right. exists vm. split; [left|exact Hm].
      * rewrite (process_vm_hostvars_other keys m _ _ _ _ H1 Hn) in Hin1.
        left. exact Hin1.
    + right. exists vm'. split; [right; exact Hin|exact Hm].
Qed.

(** X6.  Every entry of [_meta.hostvars] mirrors a record of that name:
    [resource_group], [location], [os_type] and [nic_id] are the record's
    fields as fetched, [ansible_host] and [private_ip] are one value,
    the one the NIC map holds for the record's [nicId], and the entry
    has an [mde_onboarded] key exactly when the record's [osType] is
    ["Windows"], its value being the outcome of the onboarding test. *)
Theorem hostvars_entry_mirrors_a_record
    (vms nics : list pyval) (keys : gset string) (inv : inventory) :
  build_inventory vms nics keys = Ok inv →
  ∃ nic_ip_map,
    build_nic_ip_map [] nics = Ok nic_ip_map
    ∧ ∀ n hv, hostvars inv !! n = Some hv →
        ∃ vm, vm ∈ vms
              ∧ vm_name vm = Ok n
              ∧ get vm "nicId" = Ok (nic_id hv)
              ∧ nic_get nic_ip_map (nic_id hv) = Ok (ansible_host hv)
              ∧ private_ip hv = ansible_host hv
              ∧ get vm "resourceGroup" = Ok (resource_group hv)
              ∧ get vm "location" = Ok (location hv)
              ∧ get vm "osType" = Ok (os_type hv)
              ∧ match mde_onboarded hv with
                | Some b => os_type hv = PStr "Windows"
                            ∧ ∃ id_key, vm_id_key vm = Ok id_key
                                        ∧ b = is_onboarded keys id_key (lower n)
                | None => os_type hv ≠ PStr "Windows"
                end.
Proof.
  unfold build_inventory. intros H. apply bind_ok in H as (m & Hm & H).
  exists m. split; [exact Hm|]. intros n hv Hhv.
  destruct (process_vms_entries _ _ _ _ _ H n hv Hhv) as [Hempty|(vm & Hin & Hmir)].
  - cbn in Hempty. rewrite lookup_empty in Hempty. discriminate.
  - exists vm. split; [exact Hin|exact Hmir].
Qed.

Lemma hostvars_entry_mirrors_a_record_witness :
  ∃ nic_ip_map,
    build_nic_ip_map [] [vm1_nic] = Ok nic_ip_map
    ∧ ∀ n hv, hostvars (vm1_inventory true) !! n = Some hv →
        ∃ vm, vm ∈ [PDict vm1_resource]
              ∧ vm_name vm = Ok n
              ∧ get vm "nicId" = Ok (nic_id hv)
              ∧ nic_get nic_ip_map (nic_id hv) = Ok (ansible_host hv)
              ∧ private_ip hv = ansible_host hv
              ∧ get vm "resourceGroup" = Ok (resource_group hv)
              ∧ get vm "location" = Ok (location hv)
              ∧ get vm "osType" = Ok (os_type hv)
              ∧ match mde_onboarded hv with
                | Some b => os_type hv = PStr "Windows"
                            ∧ ∃ id_key, vm_id_key vm = Ok id_key
                                        ∧ b = is_onboarded vm1_keys id_key (lower n)
                | None => os_type hv ≠ PStr "Windows"
                end.
Proof.
  apply (hostvars_entry_mirrors_a_record [PDict vm1_resource] [vm1_nic] vm1_keys
           (vm1_inventory true)).
  vm_compute. reflexivity.
Defined.

(** ** The NIC map *)

Lemma record_nic_cases (m m' : list (pyval * option string)) (nic : pyval) :
  record_nic m nic = Ok m' →
  (∃ id, get nic "id" = Ok id ∧ truthy id = false ∧ m' = m)
  ∨ ∃ id raw s,
      get nic "id" = Ok id ∧ truthy id = true ∧ hashable id = true
      ∧ get nic "privateIp" = Ok raw
      ∧ str_method strip (py_or raw (PStr "")) = Ok s
      ∧ m' = (id, if String.eqb s "" then None else Some s) :: m.
Proof.
  unfold record_nic. intros H.
  destruct (get nic "id") as [id|e] eqn:Hid; [|discriminate]. cbn [bind] in H.
  destruct (truthy id) eqn:Ht.
  - destruct (get nic "privateIp") as [raw|e] eqn:Hraw; [|discriminate]. cbn [bind] in H.
    destruct (str_method strip (py_or raw (PStr ""))) as [s|e] eqn:Hs; [|discriminate].
    cbn [bind] in H. destruct (hashable id) eqn:Hh; [|discriminate].
    injection H as <-. right. exists id, raw, s. repeat split; assumption || reflexivity.
  - injection H as <-. left. exists id. repeat split; assumption || reflexivity.
Qed.

Lemma stripped_address (raw : pyval) (s : string) :
  str_method strip (py_or raw (PStr "")) = Ok s → s ≠ "" →
  ∃ text, raw = PStr text ∧ s = strip text.
Proof.
  unfold py_or. intros H Hne. destruct (truthy raw).
  - apply str_method_ok in H as (text & -> & ->). eauto.
  - injection H as <-. contradiction Hne. reflexivity.
Qed.

Lemma build_nic_ip_map_sound (nics : list pyval) :
  ∀ m0 m, build_nic_ip_map m0 nics = Ok m →
  ∀ k ip, nic_lookup m k = Some ip →
  nic_lookup m0 k = Some ip
  ∨ ∃ nic id text,
      nic ∈ nics ∧ get nic "id" = Ok id ∧ key_eqb k id = true
      ∧ get nic "privateIp" = Ok (PStr text) ∧ ip = strip text ∧ ip ≠ "".
Proof.
  induction nics as [|nic nics IH]; intros m0 m H k ip Hk.
  - injection H as <-. left. exact Hk.
  - cbn [build_nic_ip_map] in H. apply bind_ok in H as (m1 & H1 & H).
    destruct (IH _ _ H k ip Hk) as [Hk1|(nic' & id & text & Hin & Hrest)].
    + apply record_nic_cases in H1
        as [(id & _ & _ & ->)|(id & raw & s & Hid & _ & _ & Hraw & Hs & ->)].
      * left. exact Hk1.
      * cbn [nic_lookup] in Hk1. destruct (key_eqb k id) eqn:Heq; [|left; exact Hk1].
        right. destruct (String.eqb s "") eqn:Hempty; [discriminate|].
        injection Hk1 as <-. apply String.eqb_neq in Hempty.
        destruct (stripped_address _ _ Hs Hempty) as (text & -> & ->).
        exists nic, id, text. repeat split; try assumption. left.
    + right. exists nic', id, text. split; [right; exact Hin|exact Hrest].
Qed.

(** X7.  The NIC map holds nothing but addresses of NIC rows: an address
    found under a key is the trimmed [privateIp] of a row whose [id]
    equals the key, and it is never the empty string (a blank or missing
    address is stored as [None]). *)
Theorem nic_map_holds_trimmed_addresses
    (nics : list pyval) (nic_ip_map : list (pyval * option string))
    (k : pyval) (ip : string) :
  build_nic_ip_map [] nics = Ok nic_ip_map →
  nic_get nic_ip_map k = Ok (Some ip) →
  ip ≠ "" ∧ strip ip = ip
  ∧ ∃ nic id text,
      nic ∈ nics ∧ get nic "id" = Ok id ∧ key_eqb k id = true
      ∧ get nic "privateIp" = Ok (PStr text) ∧ ip = strip text.
Proof.
  intros Hm Hget. unfold nic_get in Hget.
  destruct (hashable k); [|discriminate]. injection Hget as Hget.
  destruct (build_nic_ip_map_sound _ _ _ Hm k ip Hget)
    as [Hempty|(nic & id & text & Hin & Hid & Heq & Hraw & -> & Hne)]; [discriminate|].
  split; [exact Hne|]. split; [apply strip_idem|].
  exists nic, id, text. repeat split; assumption.
Qed.

Lemma nic_map_holds_trimmed_addresses_witness :
  "10.1.0.5" ≠ "" ∧ strip "10.1.0.5" = "10.1.0.5"
  ∧ ∃ nic id text,
      nic ∈ fleet_nics ∧ get nic "id" = Ok id ∧ key_eqb (PStr "nic-web1") id = true
      ∧ get nic "privateIp" = Ok (PStr text) ∧ "10.1.0.5" = strip text.
Proof.
  apply (nic_map_holds_trimmed_addresses fleet_nics [(PStr "nic-web1", Some "10.1.0.5")]
           (PStr "nic-web1") "10.1.0.5"); reflexivity.
Defined.

Lemma build_nic_ip_map_app (pre post : list pyval) :
  ∀ m0, build_nic_ip_map m0 (pre ++ post)
        = let! m1 := build_nic_ip_map m0 pre in build_nic_ip_map m1 post.
Proof.
  induction pre as [|nic pre IH]; intros m0; [reflexivity|].
  cbn [app build_nic_ip_map]. destruct (record_nic m0 nic) as [m1|e]; [|reflexivity].
  cbn [bind]. apply IH.
Qed.

Lemma build_nic_ip_map_keeps (post : list pyval) (k : pyval) :
  (∀ nic id, nic ∈ post → get nic "id" = Ok id → truthy id = true → key_eqb k id = false) →
  ∀ m0 m, build_nic_ip_map m0 post = Ok m → nic_lookup m k = nic_lookup m0 k.
Proof.
  induction post as [|nic post IH]; intros Hother m0 m H.
  - injection H as <-. reflexivity.
  - cbn [build_nic_ip_map] in H. apply bind_ok in H as (m1 & H1 & H).
    rewrite (IH (fun nic' id Hin => Hother nic' id (list_elem_of_further _ _ _ Hin)) _ _ H).
    apply record_nic_cases in H1
      as [(id & _ & _ & ->)|(id & raw & s & Hid & Ht & _ & _ & _ & ->)]; [reflexivity|].
    cbn [nic_lookup]. rewrite (Hother nic id (list_elem_of_here _ _) Hid Ht). reflexivity.
Qed.

Lemma key_eqb_refl (k : pyval) : hashable k = true → key_eqb k k = true.
Proof.
  destruct k as [|b|n|s|l|d]; try discriminate; intros _; cbn [key_eqb].
  - reflexivity.
  - destruct b; reflexivity.
  - apply Z.eqb_refl.
  - apply String.eqb_refl.
Qed.

Lemma nic_lookup_last_row (pre post : list pyval) (nic id raw : pyval) (s : string)
    (m : list (pyval * option string)) :
  build_nic_ip_map [] (pre ++ nic :: post) = Ok m →
  get nic "id" = Ok id → truthy id = true →
  get nic "privateIp" = Ok raw →
  str_method strip (py_or raw (PStr "")) = Ok s →
  (∀ nic' id', nic' ∈ post → get nic' "id" = Ok id' → truthy id' = true →
               key_eqb id id' = false) →
  hashable id = true
  ∧ nic_lookup m id = if String.eqb s "" then None else Some s.
Proof.
  intros H Hid Ht Hraw Hs Hother. rewrite build_nic_ip_map_app in H.
  apply bind_ok in H as (m1 & _ & H). cbn [build_nic_ip_map] in H.
  apply bind_ok in H as (m2 & H2 & H).
  apply record_nic_cases in H2
    as [(id' & Hid' & Ht' & _)|(id' & raw' & s' & Hid' & _ & Hh & Hraw' & Hs' & ->)].
  - rewrite Hid in Hid'. injection Hid' as <-. congruence.
  - rewrite Hid in Hid'. injection Hid' as <-.
    rewrite Hraw in Hraw'. injection Hraw' as <-.
    rewrite Hs in Hs'. injection Hs' as <-.
    split; [exact Hh|].
    rewrite (build_nic_ip_map_keeps post id Hother _ _ H).
    cbn [nic_lookup]. rewrite (key_eqb_refl id Hh). reflexivity.
Qed.

(** X8.  The last row wins: when several NIC rows bear one id, the map
    answers with the address of the last of them (trimmed, [None] when
    blank or missing), whatever the earlier ones held. *)
Theorem nic_map_keeps_the_last_row_of_an_id
    (pre post : list pyval) (nic id raw : pyval) (s : string)
    (nic_ip_map : list (pyval * option string)) :
  build_nic_ip_map [] (pre ++ nic :: post) = Ok nic_ip_map →
  get nic "id" = Ok id → truthy id = true →
  get nic "privateIp" = Ok raw →
  str_method strip (py_or raw (PStr "")) = Ok s →
  (∀ nic' id', nic' ∈ post → get nic' "id" = Ok id' → truthy id' = true →
               key_eqb id id' = false) →
  nic_get nic_ip_map id = Ok (if String.eqb s "" then None else Some s).
Proof.
  intros H Hid Ht Hraw Hs Hother.
  destruct (nic_lookup_last_row pre post nic id raw s nic_ip_map H Hid Ht Hraw Hs Hother)
    as [Hh Hlook].
  unfold nic_get. rewrite Hh, Hlook. reflexivity.
Qed.

Lemma nic_map_keeps_the_last_row_of_an_id_witness :
  nic_get [(PStr "nic-b", None); (PStr "nic-a", Some "10.0.0.2");
           (PStr "nic-a", Some "10.0.0.1")] (PStr "nic-a")
  = Ok (if String.eqb "10.0.0.2" "" then None else Some "10.0.0.2").
Proof.
  apply (nic_map_keeps_the_last_row_of_an_id [nic_a_old] [nic_b] nic_a_new
           (PStr "nic-a") (PStr "10.0.0.2 ") "10.0.0.2").
  - reflexivity.
  - reflexivity.
  - reflexivity.
  - reflexivity.
  - reflexivity.
  - intros nic' id' Hin Hid' _. apply list_elem_of_singleton in Hin as ->.
    injection Hid' as <-. reflexivity.
Defined.

(** ** Order and nesting of the groups *)

Lemma contribution_sublist_all (keys : gset string) (g : group) (vm : pyval) :
  contribution keys g vm `sublist_of` contribution keys g_all vm.
Proof.
  unfold contribution. destruct (classify keys vm) as [[[n p]|]|e]; try reflexivity.
  cbn [member]. destruct (member g p); [reflexivity|apply sublist_nil_l].
Qed.

Lemma contributions_sublist_all (keys : gset string) (g : group) (vms : list pyval) :
  contributions keys g vms `sublist_of` contributions keys g_all vms.
Proof.
  unfold contributions. induction vms as [|vm vms IH]; [reflexivity|].
  cbn [flat_map]. apply sublist_app; [apply contribution_sublist_all|exact IH].
Qed.

(** X9.  The join keeps the order of the VM query: [all] lists the
    trimmed names of the named records in the order of the rows,
    duplicates included, every other group lists its hosts in that same
    order, and every host name is non-empty and free of surrounding
    white space. *)
Theorem groups_keep_the_order_of_the_rows
    (vms nics : list pyval) (keys : gset string) (inv : inventory) :
  build_inventory vms nics keys = Ok inv →
  hosts g_all inv = record_names vms
  ∧ (∀ g, hosts g inv `sublist_of` hosts g_all inv)
  ∧ (∀ g n, n ∈ hosts g inv → n ≠ "" ∧ strip n = n).
Proof.
  intros H. apply build_inventory_hosts in H as [Hall Hg].
  assert (Hnames : hosts g_all inv = record_names vms).
  { rewrite Hg. apply contributions_all. exact Hall. }
  assert (Hsub : ∀ g, hosts g inv `sublist_of` hosts g_all inv).
  { intros g. rewrite !Hg. apply contributions_sublist_all. }
  split; [exact Hnames|]. split; [exact Hsub|].
  intros g n Hg_n. pose proof (elem_of_sublist _ _ _ Hg_n (Hsub g)) as Hn.
  rewrite Hnames in Hn. apply record_names_in in Hn as (vm & _ & Hvm).
  apply record_name_some in Hvm as [Hname Hne].
  split; [exact Hne|exact (vm_name_stripped _ _ Hname)].
Qed.

Lemma groups_keep_the_order_of_the_rows_witness :
  ∃ inv,
    build_inventory fleet fleet_nics fleet_keys = Ok inv
    ∧ hosts g_all inv = record_names fleet
    ∧ (∀ g, hosts g inv `sublist_of` hosts g_all inv)
    ∧ (∀ g n, n ∈ hosts g inv → n ≠ "" ∧ strip n = n).
Proof.
  destruct (build_inventory fleet fleet_nics fleet_keys) as [inv|e] eqn:Hinv;
    [|vm_compute in Hinv; discriminate].
  exists inv. split; [reflexivity|].
  exact (groups_keep_the_order_of_the_rows fleet fleet_nics fleet_keys inv Hinv).
Defined.

Lemma occurrences_single (n n' : string) :
  occurrences n [n'] = if String.string_dec n' n then 1%nat else 0%nat.
Proof. unfold occurrences. cbn [count_occ]. destruct (String.string_dec n' n); reflexivity. Qed.

Lemma contributions_onboarding_within_windows (keys : gset string)
    (vms : list pyval) (n : string) :
  (occurrences n (contributions keys g_windows_mde_onboarded vms)
   + occurrences n (contributions keys g_windows_mde_not_onboarded vms)
   <= occurrences n (contributions keys g_windows vms))%nat.
Proof.
  unfold contributions. induction vms as [|vm vms IH]; [reflexivity|].
  cbn [flat_map]. rewrite !occurrences_app.
  assert (occurrences n (contribution keys g_windows_mde_onboarded vm)
          + occurrences n (contribution keys g_windows_mde_not_onboarded vm)
          <= occurrences n (contribution keys g_windows vm))%nat; [|lia].
  unfold contribution. destruct (classify keys vm) as [[[n' p]|]|e]; try reflexivity.
  destruct p as [| |[]|]; cbn [member]; rewrite ?occurrences_single;
    destruct (String.string_dec n' n); cbn; lia.
Qed.

(** X10.  The two onboarding groups lie within [windows]: a name occurs
    in [windows_mde_onboarded] and [windows_mde_not_onboarded] together
    at most as often as in [windows]; and when no two records bear one
    name the two groups are disjoint, and both are disjoint from
    [linux] and [network_appliances]. *)
Theorem onboarding_groups_lie_within_windows
    (vms nics : list pyval) (keys : gset string) (inv : inventory) :
  build_inventory vms nics keys = Ok inv →
  (∀ n, (occurrences n (hosts g_windows_mde_onboarded inv)
         + occurrences n (hosts g_windows_mde_not_onboarded inv)
         <= occurrences n (hosts g_windows inv))%nat)
  ∧ (∀ n, n ∈ hosts g_windows_mde_onboarded inv ∨ n ∈ hosts g_windows_mde_not_onboarded inv →
          n ∈ hosts g_windows inv)
  ∧ (NoDup (record_names vms) →
     ∀ n, n ∈ hosts g_windows_mde_onboarded inv ∨ n ∈ hosts g_windows_mde_not_onboarded inv →
          (n ∉ hosts g_linux inv) ∧ (n ∉ hosts g_network_appliances inv)
          ∧ ¬ (n ∈ hosts g_windows_mde_onboarded inv
               ∧ n ∈ hosts g_windows_mde_not_onboarded inv)).
Proof.
  intros H. apply build_inventory_hosts in H as [_ Hg].
  assert (Hcount : ∀ n, (occurrences n (hosts g_windows_mde_onboarded inv)
                         + occurrences n (hosts g_windows_mde_not_onboarded inv)
                         <= occurrences n (hosts g_windows inv))%nat).
  { intros n. rewrite !Hg. apply contributions_onboarding_within_windows. }
  split; [exact Hcount|]. split.
  - intros n Hn. apply occurrences_pos. specialize (Hcount n).
    destruct Hn as [Hn|Hn]; apply occurrences_pos in Hn; lia.
  - intros Hnodup n Hn.
    assert (Hcase : ∃ vm b, vm ∈ vms ∧ classify keys vm = Ok (Some (n, in_windows b))).
    { destruct Hn as [Hn|Hn]; rewrite Hg in Hn;
        apply contributions_in in Hn as (vm & p & Hin & Hc & Hmem);
        destruct p as [| |b|]; try discriminate; eauto. }
    destruct Hcase as (vm & b & Hin & Hc).
    assert (Hone : occurrences n (record_names vms) = 1%nat).
    { apply occurrences_NoDup; [exact Hnodup|]. apply record_names_in.
      exists vm. split; [exact Hin|]. rewrite (classify_record_name _ _ _ Hc). reflexivity. }
    pose proof (fun g => contributions_unique keys g vms vm n _ Hin Hc Hone) as Huniq.
    split; [|split].
    + rewrite Hg. apply occurrences_zero. exact (Huniq g_linux).
    + rewrite Hg. apply occurrences_zero. exact (Huniq g_network_appliances).
    + rewrite !Hg. intros [Hon Hoff].
      apply occurrences_pos in Hon, Hoff.
      rewrite (Huniq g_windows_mde_onboarded) in Hon.
      rewrite (Huniq g_windows_mde_not_onboarded) in Hoff.
      destruct b; cbn [member] in Hon, Hoff; lia.
Qed.

Lemma onboarding_groups_lie_within_windows_witness :
  ∃ inv,
    build_inventory fleet fleet_nics fleet_keys = Ok inv
    ∧ "WIN1" ∈ hosts g_windows inv
    ∧ ("WIN1" ∉ hosts g_linux inv).
Proof.
  destruct (build_inventory fleet fleet_nics fleet_keys) as [inv|e] eqn:Hinv;
    [|vm_compute in Hinv; discriminate].
  destruct (onboarding_groups_lie_within_windows fleet fleet_nics fleet_keys inv Hinv)
    as (_ & Hin & Hout).
  assert (Hon : "WIN1" ∈ hosts g_windows_mde_onboarded inv).
  { vm_compute in Hinv. injection Hinv as <-. cbn [hosts windows_mde_onboarded_hosts]. in_list. }
  exists inv. split; [reflexivity|]. split.
  - apply Hin. left. exact Hon.
  - apply (Hout fleet_names_NoDup "WIN1"). left. exact Hon.
Defined.

(** ** The paginated client, failing and returning *)

(** X11.  The paginated client drops what it has read: when pages that
    carry a token are followed by a fetch that fails in a way the client
    handles (timeout, non-zero exit status, blank output, output the
    decoder rejects with [JSONDecodeError]), it returns the empty list,
    not the records of the pages it has read; when that fetch ends in
    an exception the client does not handle, it raises the exception.
    Either way it has made one request per page and one for the last
    fetch. *)
Theorem graph_query_all_discards_pages_on_failure
    (query : string) (page_size : Z)
    (payloads : list pyval) (pages : list (list pyval * string))
    (o : az_outcome) (rest : list az_outcome) (log : list (list string)) :
  has_nul query = false →
  Forall2 token_page payloads pages →
  (fetch_failed o = true →
   graph_query_all query page_size (Backend (map fetched payloads ++ o :: rest) log)
   = Some (Ok [], Backend rest (log ++ page_commands query page_size "" pages)))
  ∧ (∀ e, fetch_raises o = Some e →
       graph_query_all query page_size (Backend (map fetched payloads ++ o :: rest) log)
       = Some (Raise e, Backend rest (log ++ page_commands query page_size "" pages)))
  ∧ length (page_commands query page_size "" pages) = S (length payloads).
Proof.
  intros Hq Hpages.
  assert (Hpages' : Forall2 page_with_token payloads pages).
  { eapply Forall2_impl; [exact Hpages|]. apply token_page_with_token. }
  unfold graph_query_all. cbn [pending issued]. split; [|split].
  - intros Hf.
    exact (graph_query_loop_run_failed query page_size payloads pages o rest
             Hq Hpages' Hf [] PNone "" log eq_refl).
  - intros e He.
    exact (graph_query_loop_run_raises query page_size payloads pages o e rest
             Hq Hpages' He [] PNone "" log eq_refl).
  - unfold page_commands. cbn [map length]. rewrite !length_map.
    rewrite (Forall2_length _ _ _ Hpages). reflexivity.
Qed.

Lemma graph_query_all_discards_pages_on_failure_witness :
  graph_query_all "q" GRAPH_PAGE_SIZE (Backend (map fetched mixed_pages ++ [TimedOut]) [])
  = Some (Ok [], Backend [] ([] ++ page_commands "q" GRAPH_PAGE_SIZE "" three_pages_summary))
  ∧ graph_query_all "q" GRAPH_PAGE_SIZE
      (Backend (map fetched mixed_pages ++ [Exited 0 HugeInt]) [])
    = Some (Raise ValueError,
            Backend [] ([] ++ page_commands "q" GRAPH_PAGE_SIZE "" three_pages_summary)).
Proof.
  split.
  - apply (graph_query_all_discards_pages_on_failure "q" GRAPH_PAGE_SIZE mixed_pages
             three_pages_summary TimedOut [] []);
      [reflexivity|exact mixed_pages_shape|reflexivity].
  - apply (graph_query_all_discards_pages_on_failure "q" GRAPH_PAGE_SIZE mixed_pages
             three_pages_summary (Exited 0 HugeInt) [] []);
      [reflexivity|exact mixed_pages_shape|reflexivity].
Defined.





(** ** Runs of [main] *)

(** X13.  A fresh, readable cache short-circuits the run: [main] prints
    the cached text as it is and returns, without calling the CLI and
    without touching the cache file. *)
Theorem main_serves_a_fresh_cache_without_calls
    (w : world) (content : text) (mtime : Q) :
  cache w = File content mtime →
  stat_fault w = false → read_fault w = false →
  (now w - mtime < inject_Z CACHE_TTL_SECONDS)%Q →
  ∃ w', main w = Some (Ok tt, w')
        ∧ printed w' = printed w ++ [content]
        ∧ cli w' = cli w
        ∧ cache w' = cache w.
Proof.
  intros Hc Hs Hr Hage. exists (print content w).
  split; [|repeat split].
  apply main_serves_fresh_cache. exact (load_cache_fresh w content mtime Hc Hs Hr Hage).
Qed.

Lemma main_serves_a_fresh_cache_without_calls_witness :
  ∃ w', main warm_world = Some (Ok tt, w')
        ∧ printed w' = printed warm_world ++ [json_dump (vm1_inventory false)]
        ∧ cli w' = cli warm_world
        ∧ cache w' = cache warm_world.
Proof.
  apply (main_serves_a_fresh_cache_without_calls warm_world
           (json_dump (vm1_inventory false)) 0); reflexivity.
Defined.

Lemma build_inventory_nil (nics : list pyval) (keys : gset string) (inv : inventory) :
  build_inventory [] nics keys = Ok inv → inv = empty_inventory.
Proof.
  unfold build_inventory. intros H. apply bind_ok in H as (m & _ & H).
  injection H as <-. reflexivity.
Qed.

(** X14.  A run over well-formed rows completes: when the three queries
    return and every VM row and NIC row is well formed, [main] does not
    raise; it prints the inventory of the join, indented, and the
    document it hands to the cache is that same inventory. *)
Theorem main_completes_on_well_formed_rows
    (w : world) (b1 b2 b3 : backend)
    (vms nics : list pyval) (keys : gset string) :
  load_cache_if_fresh w = Ok None →
  graph_query_all vm_query GRAPH_PAGE_SIZE (cli w) = Some (Ok vms, b1) →
  graph_query_all nic_query GRAPH_PAGE_SIZE b1 = Some (Ok nics, b2) →
  get_mde_windows_machine_keys b2 = Some (Ok keys, b3) →
  Forall (fun vm => vm_record_ok vm = true) vms →
  Forall (fun nic => nic_record_ok nic = true) nics →
  ∃ inv w',
    build_inventory vms nics keys = Ok inv
    ∧ main w = Some (Ok tt, w')
    ∧ printed w' = printed w ++ [json_dumps_indent2 inv]
    ∧ cli w' = b3
    ∧ (write_fault w = None → cache w' = File (json_dump inv) (now w)).
Proof.
  intros Hload Hvm Hnic Hkeys Hvms Hnics.
  destruct (build_inventory_total vms nics keys Hvms Hnics) as (inv & Hinv).
  exists inv, (print (json_dumps_indent2 inv) (snd (save_cache inv (set_cli b3 w)))).
  split; [exact Hinv|].
  rewrite (main_after_queries w b1 b2 b3 vms nics keys Hload Hvm Hnic Hkeys).
  destruct (save_cache_frame inv (set_cli b3 w)) as (Hp & Hc & _).
  split.
  - destruct vms as [|vm vms].
    + apply build_inventory_nil in Hinv as ->. reflexivity.
    + rewrite Hinv. reflexivity.
  - split; [cbn [printed print]; rewrite Hp; reflexivity|].
    split; [cbn [cli print]; rewrite Hc; reflexivity|].
    intros Hwf. cbn [cache print]. rewrite save_cache_file.
    cbn [write_fault set_cli now]. rewrite Hwf. reflexivity.
Qed.

Lemma main_completes_on_well_formed_rows_witness :
  ∃ inv w',
    build_inventory [vm1_row] [vm1_nic] vm1_keys = Ok inv
    ∧ main vm1_world = Some (Ok tt, w')
    ∧ printed w' = printed vm1_world ++ [json_dumps_indent2 inv]
    ∧ cli w' = Backend []
                 [page_command vm_query GRAPH_PAGE_SIZE "";
                  page_command nic_query GRAPH_PAGE_SIZE "";
                  rest_command mde_url]
    ∧ (write_fault vm1_world = None →
       cache w' = File (json_dump inv) (now vm1_world)).
Proof.
  apply (main_completes_on_well_formed_rows vm1_world
           (Backend [fetched (PDict [("data", PList [vm1_nic])]);
                     fetched (PDict [("value", PList [vm1_machine])])]
              [page_command vm_query GRAPH_PAGE_SIZE ""])
           (Backend [fetched (PDict [("value", PList [vm1_machine])])]
              [page_command vm_query GRAPH_PAGE_SIZE "";
               page_command nic_query GRAPH_PAGE_SIZE ""])
           (Backend []
              [page_command vm_query GRAPH_PAGE_SIZE "";
               page_command nic_query GRAPH_PAGE_SIZE "";
               rest_command mde_url])
           [vm1_row] [vm1_nic] vm1_keys).
  - reflexivity.
  - vm_compute. reflexivity.
  - vm_compute. reflexivity.
  - vm_compute. reflexivity.
  - repeat constructor.
  - repeat constructor.
Defined.

(** The three ways a run ends: it replays the cache; it misses the cache,
    saves and prints an inventory; or it misses the cache and raises. *)
Lemma main_cases (w w' : world) (r : result unit) :
  main w = Some (r, w') →
  (∃ content, load_cache_if_fresh w = Ok (Some content)
              ∧ r = Ok tt ∧ w' = print content w)
  ∨ (load_cache_if_fresh w = Ok None
     ∧ ((∃ inv b, r = Ok tt
                  ∧ w' = print (json_dumps_indent2 inv) (snd (save_cache inv (set_cli b w))))
        ∨ (∃ e b, r = Raise e ∧ w' = set_cli b w))).
Proof.
  intros Hmain. destruct (load_cache_returns w) as [[content|] Hload].
  { left. exists content. rewrite (main_serves_fresh_cache w content Hload) in Hmain.
    injection Hmain as <- <-. auto. }
  right. split; [exact Hload|].
  assert (Hw : ∀ b b', set_cli b (set_cli b' w) = set_cli b w) by reflexivity.
  destruct (graph_query_all vm_query GRAPH_PAGE_SIZE (cli w)) as [[[vms|e] b1]|] eqn:Hvm;
    [|unfold main, step_bind, on_cli in Hmain; rewrite Hload in Hmain;
      cbn [cli set_cli] in Hmain; rewrite Hvm in Hmain..].
  - destruct (graph_query_all nic_query GRAPH_PAGE_SIZE b1) as [[[nics|e] b2]|] eqn:Hnic;
      [|unfold main, step_bind, on_cli in Hmain; rewrite Hload in Hmain;
        cbn [cli set_cli] in Hmain; rewrite Hvm in Hmain; cbn [cli set_cli] in Hmain;
        rewrite Hnic in Hmain..].
    + destruct (get_mde_windows_machine_keys b2) as [[[keys|e] b3]|] eqn:Hkeys;
        [|unfold main, step_bind, on_cli in Hmain; rewrite Hload in Hmain;
          cbn [cli set_cli] in Hmain; rewrite Hvm in Hmain; cbn [cli set_cli] in Hmain;
          rewrite Hnic in Hmain; cbn [cli set_cli] in Hmain; rewrite Hkeys in Hmain..].
      * rewrite (main_after_queries w b1 b2 b3 vms nics keys Hload Hvm Hnic Hkeys) in Hmain.
        destruct vms as [|vm vms].
        -- injection Hmain as <- <-. left. eauto.
        -- destruct (build_inventory (vm :: vms) nics keys) as [inv|e];
             injection Hmain as <- <-; [left|right]; eauto.
      * injection Hmain as <- <-. right. rewrite !Hw. eauto.
      * discriminate.
    + injection Hmain as <- <-. right. rewrite !Hw. eauto.
    + discriminate.
  - injection Hmain as <- <-. right. eauto.
  - discriminate.
Qed.

(** What a run that missed the cache and completed has done. *)
Lemma main_miss_outcome (w w1 : world) :
  load_cache_if_fresh w = Ok None →
  main w = Some (Ok tt, w1) →
  ∃ inv b, w1 = print (json_dumps_indent2 inv) (snd (save_cache inv (set_cli b w))).
Proof.
  intros Hload Hmain.
  destruct (main_cases w w1 (Ok tt) Hmain)
    as [(content & Hhit & _)|(_ & [(inv & b & _ & ->)|(e & b & Hr & _)])].
  - rewrite Hload in Hhit. discriminate.
  - eauto.
  - discriminate.
Qed.

(** X15.  What a run caches the next run replays: a run that missed the
    cache, completed and could write has printed an inventory, indented,
    and cached that inventory; a run started less than
    [CACHE_TTL_SECONDS] later on that cache prints the cached text, which
    decodes to the same inventory, and makes no CLI call. *)
Theorem next_run_replays_what_a_run_cached (w w1 : world) :
  load_cache_if_fresh w = Ok None →
  write_fault w = None →
  main w = Some (Ok tt, w1) →
  ∃ inv,
    printed w1 = printed w ++ [json_dumps_indent2 inv]
    ∧ cache w1 = File (json_dump inv) (now w)
    ∧ decoded (json_dump inv) = decoded (json_dumps_indent2 inv)
    ∧ ∀ w2, cache w2 = cache w1 →
            stat_fault w2 = false → read_fault w2 = false →
            (now w2 - now w < inject_Z CACHE_TTL_SECONDS)%Q →
            main w2 = Some (Ok tt, print (json_dump inv) w2)
            ∧ cli (print (json_dump inv) w2) = cli w2.
Proof.
  intros Hload Hwf Hmain.
  destruct (main_miss_outcome w w1 Hload Hmain) as (inv & b & ->).
  exists inv.
  destruct (save_cache_frame inv (set_cli b w)) as (Hp & _ & _).
  assert (Hcache : cache (print (json_dumps_indent2 inv) (snd (save_cache inv (set_cli b w))))
                   = File (json_dump inv) (now w)).
  { cbn [cache print]. rewrite save_cache_file. cbn [write_fault set_cli now].
    rewrite Hwf. reflexivity. }
  split; [cbn [printed print]; rewrite Hp; reflexivity|].
  split; [exact Hcache|]. split; [reflexivity|].
  intros w2 Hc2 Hs2 Hr2 Hage. rewrite Hcache in Hc2. split; [|reflexivity].
  apply main_serves_fresh_cache.
  exact (load_cache_fresh w2 (json_dump inv) (now w) Hc2 Hs2 Hr2 Hage).
Qed.

Lemma next_run_replays_what_a_run_cached_witness :
  ∃ inv,
    printed vm1_world_done = printed vm1_world ++ [json_dumps_indent2 inv]
    ∧ cache vm1_world_done = File (json_dump inv) (now vm1_world)
    ∧ decoded (json_dump inv) = decoded (json_dumps_indent2 inv)
    ∧ ∀ w2, cache w2 = cache vm1_world_done →
            stat_fault w2 = false → read_fault w2 = false →
            (now w2 - now vm1_world < inject_Z CACHE_TTL_SECONDS)%Q →
            main w2 = Some (Ok tt, print (json_dump inv) w2)
            ∧ cli (print (json_dump inv) w2) = cli w2.
Proof.
  apply (next_run_replays_what_a_run_cached vm1_world vm1_world_done).
  - reflexivity.
  - reflexivity.
  - vm_compute. reflexivity.
Defined.

(** X16.  An outage is cached: when the first answer to the VM query is
    a fetch that fails in a way the client handles (timeout, non-zero
    exit status, blank output, output rejected with [JSONDecodeError]),
    the NIC query and the key resolver that run next both return, and
    the cache can be written, the run prints the empty inventory and
    caches it; a run started less than [CACHE_TTL_SECONDS] later on that
    cache prints that empty inventory again without asking the CLI,
    whatever the CLI would answer by then. *)
Theorem failed_vm_query_is_cached_as_empty_inventory
    (w : world) (o : az_outcome) (rest : list az_outcome) (log : list (list string))
    (b2 b3 : backend) (nics : list pyval) (keys : gset string) :
  load_cache_if_fresh w = Ok None →
  write_fault w = None →
  cli w = Backend (o :: rest) log →
  fetch_failed o = true →
  graph_query_all nic_query GRAPH_PAGE_SIZE
    (Backend rest (log ++ [page_command vm_query GRAPH_PAGE_SIZE ""]))
  = Some (Ok nics, b2) →
  get_mde_windows_machine_keys b2 = Some (Ok keys, b3) →
  ∃ w1,
    main w = Some (Ok tt, w1)
    ∧ printed w1 = printed w ++ [json_dumps_indent2 empty_inventory]
    ∧ cache w1 = File (json_dump empty_inventory) (now w)
    ∧ ∀ w2, cache w2 = cache w1 →
            stat_fault w2 = false → read_fault w2 = false →
            (now w2 - now w < inject_Z CACHE_TTL_SECONDS)%Q →
            main w2 = Some (Ok tt, print (json_dump empty_inventory) w2)
            ∧ cli (print (json_dump empty_inventory) w2) = cli w2.
Proof.
  intros Hload Hwf Hcli Hf Hnic Hkeys.
  assert (Hvm : graph_query_all vm_query GRAPH_PAGE_SIZE (cli w)
                = Some (Ok [], Backend rest (log ++ [page_command vm_query GRAPH_PAGE_SIZE ""]))).
  { rewrite Hcli. unfold graph_query_all. cbn [pending issued].
    apply (graph_query_loop_failed vm_query GRAPH_PAGE_SIZE [] PNone "" o rest log);
      [reflexivity|reflexivity|exact Hf]. }
  pose proof (main_after_queries w _ b2 b3 [] nics keys Hload Hvm Hnic Hkeys) as Hmain.
  cbv iota in Hmain.
  destruct (save_cache_frame empty_inventory (set_cli b3 w)) as (Hp & _ & _).
  assert (Hcache : cache (print (json_dumps_indent2 empty_inventory)
                            (snd (save_cache empty_inventory (set_cli b3 w))))
                   = File (json_dump empty_inventory) (now w)).
  { cbn [cache print]. rewrite save_cache_file. cbn [write_fault set_cli now].
    rewrite Hwf. reflexivity. }
  eexists. split; [exact Hmain|].
  split; [cbn [printed print]; rewrite Hp; reflexivity|].
  split; [exact Hcache|].
  intros w2 Hc2 Hs2 Hr2 Hage. rewrite Hcache in Hc2. split; [|reflexivity].
  apply main_serves_fresh_cache.
  exact (load_cache_fresh w2 (json_dump empty_inventory) (now w) Hc2 Hs2 Hr2 Hage).
Qed.

Lemma failed_vm_query_is_cached_as_empty_inventory_witness :
  ∃ w1,
    main vm_outage_world = Some (Ok tt, w1)
    ∧ printed w1 = printed vm_outage_world ++ [json_dumps_indent2 empty_inventory]
    ∧ cache w1 = File (json_dump empty_inventory) (now vm_outage_world)
    ∧ ∀ w2, cache w2 = cache w1 →
            stat_fault w2 = false → read_fault w2 = false →
            (now w2 - now vm_outage_world < inject_Z CACHE_TTL_SECONDS)%Q →
            main w2 = Some (Ok tt, print (json_dump empty_inventory) w2)
            ∧ cli (print (json_dump empty_inventory) w2) = cli w2.
Proof.
  apply (failed_vm_query_is_cached_as_empty_inventory vm_outage_world TimedOut
           [fetched (PDict [("data", PList [vm1_nic])]);
            fetched (PDict [("value", PList [vm1_machine])])] []
           (Backend [fetched (PDict [("value", PList [vm1_machine])])]
              [page_command vm_query GRAPH_PAGE_SIZE "";
               page_command nic_query GRAPH_PAGE_SIZE ""])
           (Backend []
              [page_command vm_query GRAPH_PAGE_SIZE "";
               page_command nic_query GRAPH_PAGE_SIZE "";
               rest_command mde_url])
           [vm1_nic] vm1_keys).
  - reflexivity.
  - reflexivity.
  - reflexivity.
  - reflexivity.
  - vm_compute. reflexivity.
  - vm_compute. reflexivity.
Defined.

(** ** The cache, read *)

(** X17.  [load_cache_if_fresh] never raises, and it returns a text
    exactly when the file exists, its age is below [CACHE_TTL_SECONDS]
    and neither the modification time nor the content fails to be read;
    the text is then the content of the file.  At the age of
    [CACHE_TTL_SECONDS] sharp the cache is stale. *)
Theorem cache_is_served_exactly_when_fresh_and_readable (w : world) :
  (∃ r, load_cache_if_fresh w = Ok r)
  ∧ (∀ content,
       load_cache_if_fresh w = Ok (Some content)
       ↔ ∃ mtime, cache w = File content mtime
                  ∧ stat_fault w = false ∧ read_fault w = false
                  ∧ (now w - mtime < inject_Z CACHE_TTL_SECONDS)%Q)
  ∧ (∀ content mtime,
       cache w = File content mtime →
       (now w - mtime == inject_Z CACHE_TTL_SECONDS)%Q →
       load_cache_if_fresh w = Ok None).
Proof.
  split; [apply load_cache_returns|]. split.
  - intros content. split.
    + unfold load_cache_if_fresh, load_cache_try.
      destruct (cache w) as [|content' mtime]; [discriminate|].
      destruct (stat_fault w); [discriminate|].
      destruct (Qltb (now w - mtime) (inject_Z CACHE_TTL_SECONDS)) eqn:Hage; [|discriminate].
      destruct (read_fault w); [discriminate|].
      intros [= <-]. exists mtime. apply Qltb_lt in Hage. repeat split; assumption.
    + intros (mtime & Hc & Hs & Hr & Hage). exact (load_cache_fresh w content mtime Hc Hs Hr Hage).
  - intros content mtime Hc Hage. apply load_cache_expired. right.
    exists content, mtime. split; [exact Hc|]. rewrite Hage. apply Qle_refl.
Qed.

(** ** The address of a host *)

Lemma record_unique (n : string) (vms : list pyval) (vm vm' : pyval) :
  occurrences n (record_names vms) = 1%nat →
  vm ∈ vms → vm' ∈ vms →
  record_name vm = Some n → record_name vm' = Some n →
  vm = vm'.
Proof.
  intros Hocc Hin Hin' Hn Hn'. induction vms as [|vm0 vms IH]; [inversion Hin|].
  rewrite record_names_cons in Hocc.
  destruct (decide (record_name vm0 = Some n)) as [H0|H0].
  - rewrite H0 in Hocc. unfold occurrences in Hocc. cbn [count_occ] in Hocc.
    destruct (String.string_dec n n) as [_|Hnn]; [|contradiction].
    injection Hocc as Hocc. fold (occurrences n (record_names vms)) in Hocc.
    apply occurrences_zero in Hocc.
    assert (Hhead : ∀ v, v ∈ vm0 :: vms → record_name v = Some n → v = vm0).
    { intros v Hv Hvn. apply elem_of_cons in Hv as [->|Hv]; [reflexivity|].
      exfalso. apply Hocc. apply record_names_in. eauto. }
    rewrite (Hhead vm Hin Hn), (Hhead vm' Hin' Hn'). reflexivity.
  - assert (Htail : ∀ v, v ∈ vm0 :: vms → record_name v = Some n → v ∈ vms).
    { intros v Hv Hvn. apply elem_of_cons in Hv as [->|Hv]; [contradiction|exact Hv]. }
    apply IH; [|exact (Htail vm Hin Hn)|exact (Htail vm' Hin' Hn')].
    destruct (record_name vm0) as [n0|]; [|exact Hocc].
    unfold occurrences in *. cbn [count_occ] in Hocc.
    destruct (String.string_dec n0 n) as [->|_]; [contradiction|exact Hocc].
Qed.

(** The entry of a record whose name no other record bears mirrors that
    record. *)
Lemma build_inventory_entry_of (vms nics : list pyval) (keys : gset string)
    (inv : inventory) (vm : pyval) (n : string) :
  build_inventory vms nics keys = Ok inv →
  vm ∈ vms →
  vm_name vm = Ok n → n ≠ "" →
  occurrences n (record_names vms) = 1%nat →
  ∃ m hv, build_nic_ip_map [] nics = Ok m
          ∧ hostvars inv !! n = Some hv
          ∧ entry_mirrors keys m vm n hv.
Proof.
  intros Hinv Hin Hname Hne Hocc.
  assert (Hrec : record_name vm = Some n) by (apply record_name_some; auto).
  assert (Hsome : is_Some (hostvars inv !! n)).
  { apply (build_inventory_hostvars _ _ _ _ _ Hinv). apply record_names_in. eauto. }
  destruct Hsome as [hv Hhv].
  unfold build_inventory in Hinv. apply bind_ok in Hinv as (m & Hm & Hinv).
  exists m, hv. split; [exact Hm|]. split; [exact Hhv|].
  destruct (process_vms_entries _ _ _ _ _ Hinv n hv Hhv) as [Hempty|(vm' & Hin' & Hmir)].
  - cbn in Hempty. rewrite lookup_empty in Hempty. discriminate.
  - assert (Hrec' : record_name vm' = Some n).
    { apply record_name_some. split; [apply Hmir|exact Hne]. }
    rewrite (record_unique n vms vm vm' Hocc Hin Hin' Hrec Hrec'). exact Hmir.
Qed.

(** X18.  The address of a host is the address of its NIC row: for a VM
    row whose name no other row bears, [ansible_host] and [private_ip]
    are the trimmed [privateIp] of the last NIC row whose [id] is the
    VM's [nicId] ([None] when that address is blank or missing). *)
Theorem host_address_is_that_of_its_nic_row
    (vms pre post : list pyval) (keys : gset string) (inv : inventory)
    (vm nic id raw : pyval) (n s : string) :
  build_inventory vms (pre ++ nic :: post) keys = Ok inv →
  vm ∈ vms →
  vm_name vm = Ok n → n ≠ "" →
  occurrences n (record_names vms) = 1%nat →
  get vm "nicId" = Ok id →
  get nic "id" = Ok id → truthy id = true →
  get nic "privateIp" = Ok raw →
  str_method strip (py_or raw (PStr "")) = Ok s →
  (∀ nic' id', nic' ∈ post → get nic' "id" = Ok id' → truthy id' = true →
               key_eqb id id' = false) →
  ∃ hv, hostvars inv !! n = Some hv
        ∧ nic_id hv = id
        ∧ ansible_host hv = (if String.eqb s "" then None else Some s)
        ∧ private_ip hv = ansible_host hv.
Proof.
  intros Hinv Hin Hname Hne Hocc Hnic Hid Ht Hraw Hs Hother.
  destruct (build_inventory_entry_of _ _ _ _ _ _ Hinv Hin Hname Hne Hocc)
    as (m & hv & Hm & Hhv & _ & Hnic' & Hget & Hpriv & _).
  rewrite Hnic in Hnic'. injection Hnic' as Hnic'.
  destruct (nic_lookup_last_row pre post nic id raw s m Hm Hid Ht Hraw Hs Hother)
    as [Hh Hlook].
  exists hv. split; [exact Hhv|]. split; [symmetry; exact Hnic'|].
  split; [|exact Hpriv].
  rewrite <- Hnic' in Hget. unfold nic_get in Hget. rewrite Hh in Hget.
  injection Hget as <-. exact Hlook.
Qed.

Lemma host_address_is_that_of_its_nic_row_witness :
  ∃ hv, hostvars (vm1_inventory true) !! "vm1" = Some hv
        ∧ nic_id hv = PStr "/subscriptions/5f1c/nic/vm1-nic"
        ∧ ansible_host hv = (if String.eqb "10.0.0.4" "" then None else Some "10.0.0.4")
        ∧ private_ip hv = ansible_host hv.
Proof.
  apply (host_address_is_that_of_its_nic_row [PDict vm1_resource] [nic_b] []
           vm1_keys (vm1_inventory true) (PDict vm1_resource) vm1_nic
           (PStr "/subscriptions/5f1c/nic/vm1-nic") (PStr "10.0.0.4") "vm1" "10.0.0.4").
  - vm_compute. reflexivity.
  - in_list.
  - reflexivity.
  - discriminate.
  - reflexivity.
  - reflexivity.
  - reflexivity.
  - reflexivity.
  - reflexivity.
  - reflexivity.
  - intros nic' id' Hin. inversion Hin.
Defined.

(** X19.  A host without a NIC row is still listed: for a VM row whose
    name no other row bears and whose [nicId] is the [id] of no NIC row,
    the host is in [all] and has its entry, with [ansible_host] and
    [private_ip] both [None]. *)
Theorem host_without_nic_row_has_no_address
    (vms nics : list pyval) (keys : gset string) (inv : inventory)
    (vm id : pyval) (n : string) :
  build_inventory vms nics keys = Ok inv →
  vm ∈ vms →
  vm_name vm = Ok n → n ≠ "" →
  occurrences n (record_names vms) = 1%nat →
  get vm "nicId" = Ok id →
  (∀ nic' id', nic' ∈ nics → get nic' "id" = Ok id' → truthy id' = true →
               key_eqb id id' = false) →
  n ∈ hosts g_all inv
  ∧ ∃ hv, hostvars inv !! n = Some hv
          ∧ nic_id hv = id
          ∧ ansible_host hv = None
          ∧ private_ip hv = None.
Proof.
  intros Hinv Hin Hname Hne Hocc Hnic Hother.
  destruct (build_inventory_entry_of _ _ _ _ _ _ Hinv Hin Hname Hne Hocc)
    as (m & hv & Hm & Hhv & _ & Hnic' & Hget & Hpriv & _).
  rewrite Hnic in Hnic'. injection Hnic' as Hnic'.
  split.
  - apply build_inventory_hosts in Hinv as [Hall Hg]. rewrite Hg.
    rewrite (contributions_all keys vms Hall). apply record_names_in.
    exists vm. split; [exact Hin|]. apply record_name_some. auto.
  - exists hv. split; [exact Hhv|]. split; [symmetry; exact Hnic'|].
    assert (Hnone : ansible_host hv = None).
    { rewrite <- Hnic' in Hget. unfold nic_get in Hget.
      destruct (hashable id); [|discriminate]. injection Hget as <-.
      rewrite (build_nic_ip_map_keeps nics id Hother _ _ Hm). reflexivity. }
    split; [exact Hnone|]. rewrite Hpriv. exact Hnone.
Qed.

Lemma host_without_nic_row_has_no_address_witness :
  ∃ inv, build_inventory fleet fleet_nics fleet_keys = Ok inv
         ∧ "fw1" ∈ hosts g_all inv
         ∧ ∃ hv, hostvars inv !! "fw1" = Some hv
                 ∧ nic_id hv = PNone
                 ∧ ansible_host hv = None
                 ∧ private_ip hv = None.
Proof.
  destruct (build_inventory fleet fleet_nics fleet_keys) as [inv|e] eqn:Hinv;
    [|vm_compute in Hinv; discriminate].
  exists inv. split; [reflexivity|].
  apply (host_without_nic_row_has_no_address fleet fleet_nics fleet_keys inv fw1 PNone "fw1").
  - exact Hinv.
  - unfold fleet. in_list.
  - reflexivity.
  - discriminate.
  - reflexivity.
  - reflexivity.
  - intros nic' id' Hin Hid' Ht. destruct id'; try reflexivity. discriminate.
Defined.

(** ** What a run leaves behind *)

(** X20.  [main] handles no exception of its steps, and every step
    comes before [save_cache] and [print]: when the cache is not fresh
    and the VM query, the NIC query, the key resolver or the join
    raises, [main] ends in that exception, having printed nothing and
    left the cache file as it was.  And a run of [main] that completes
    has printed exactly one text. *)
Theorem main_aborts_before_it_saves_or_prints (w : world) :
  (load_cache_if_fresh w = Ok None →
   (∀ e b1,
      graph_query_all vm_query GRAPH_PAGE_SIZE (cli w) = Some (Raise e, b1) →
      aborts w e)
   ∧ (∀ vms e b1 b2,
        graph_query_all vm_query GRAPH_PAGE_SIZE (cli w) = Some (Ok vms, b1) →
        graph_query_all nic_query GRAPH_PAGE_SIZE b1 = Some (Raise e, b2) →
        aborts w e)
   ∧ (∀ vms nics e b1 b2 b3,
        graph_query_all vm_query GRAPH_PAGE_SIZE (cli w) = Some (Ok vms, b1) →
        graph_query_all nic_query GRAPH_PAGE_SIZE b1 = Some (Ok nics, b2) →
        get_mde_windows_machine_keys b2 = Some (Raise e, b3) →
        aborts w e)
   ∧ (∀ vms nics keys e b1 b2 b3,
        graph_query_all vm_query GRAPH_PAGE_SIZE (cli w) = Some (Ok vms, b1) →
        graph_query_all nic_query GRAPH_PAGE_SIZE b1 = Some (Ok nics, b2) →
        get_mde_windows_machine_keys b2 = Some (Ok keys, b3) →
        vms ≠ [] →
        build_inventory vms nics keys = Raise e →
        aborts w e))
  ∧ (∀ w', main w = Some (Ok tt, w') → ∃ t, printed w' = printed w ++ [t]).
Proof.
  split.
  - intros Hload. split; [|split; [|split]].
    + intros e b1 Hvm. exists (set_cli b1 w).
      split; [exact (main_vm_query_raises w e b1 Hload Hvm)|split; reflexivity].
    + intros vms e b1 b2 Hvm Hnic. exists (set_cli b2 w).
      split; [exact (main_nic_query_raises w vms e b1 b2 Hload Hvm Hnic)
             |split; reflexivity].
    + intros vms nics e b1 b2 b3 Hvm Hnic Hkeys. exists (set_cli b3 w).
      split; [exact (main_resolver_raises w vms nics e b1 b2 b3 Hload Hvm Hnic Hkeys)
             |split; reflexivity].
    + intros vms nics keys e b1 b2 b3 Hvm Hnic Hkeys Hne Hjoin. exists (set_cli b3 w).
      split; [|split; reflexivity].
      rewrite (main_after_queries w b1 b2 b3 vms nics keys Hload Hvm Hnic Hkeys).
      destruct vms as [|vm vms]; [contradiction Hne; reflexivity|].
      rewrite Hjoin. reflexivity.
  - intros w' Hmain.
    destruct (main_cases w w' (Ok tt) Hmain)
      as [(content & _ & _ & ->)|(_ & [(inv & b & _ & ->)|(e & b & Hr & _)])].
    + exists content. reflexivity.
    + exists (json_dumps_indent2 inv). cbn [printed print].
      destruct (save_cache_frame inv (set_cli b w)) as (-> & _). reflexivity.
    + discriminate.
Qed.

Lemma main_aborts_before_it_saves_or_prints_witness :
  aborts nic_array_world AttributeError
  ∧ ∃ t, printed vm1_world_done = printed vm1_world ++ [t].
Proof.
  destruct (main_aborts_before_it_saves_or_prints nic_array_world)
    as ((_ & Hnic & _) & _); [reflexivity|].
  destruct (main_aborts_before_it_saves_or_prints vm1_world) as (_ & Hdone).
  split.
  - apply (Hnic [] AttributeError
             (Backend [fetched (PList [])] [page_command vm_query GRAPH_PAGE_SIZE ""])
             (Backend [] [page_command vm_query GRAPH_PAGE_SIZE "";
                          page_command nic_query GRAPH_PAGE_SIZE ""]));
      vm_compute; reflexivity.
  - apply (Hdone vm1_world_done). vm_compute. reflexivity.
Defined.

(** ** Where the keys come from *)

Lemma scan_machine_sound (ks ks' : gset string) (m : pyval) (k : string) :
  scan_machine ks m = Ok ks' → k ∈ ks' →
  k ∈ ks
  ∨ (get m "osPlatform" = Ok (PStr "Windows")
     ∧ ∃ s, s ≠ ""
            ∧ ((get m "azureVmId" = Ok (PStr s) ∧ k = lower s)
               ∨ (get m "computerDnsName" = Ok (PStr s) ∧ k = lower (first_label s)))).
Proof.
  unfold scan_machine. intros H Hk.
  apply bind_ok in H as (platform & Hp & H).
  destruct (eq_str platform "Windows") eqn:Hw; cbn [negb] in H;
    [|injection H as <-; left; exact Hk].
  apply eq_str_true in Hw as ->.
  apply bind_ok in H as (vm_id & Hid & H).
  apply bind_ok in H as (keys1 & H1 & H).
  assert (Hk1 : ∀ k, k ∈ keys1 →
            k ∈ ks ∨ ∃ s, s ≠ "" ∧ get m "azureVmId" = Ok (PStr s) ∧ k = lower s).
  { intros k0 Hk0. destruct (truthy vm_id) eqn:Ht.
    - apply bind_ok in H1 as (v & Hv & H1). apply bind_ok in H1 as (k1 & Hk1 & H1).
      injection H1 as <-. apply (get_getitem _ _ _ _ Hid) in Hv as ->.
      apply str_method_ok in Hk1 as (s & -> & ->).
      apply elem_of_union in Hk0 as [Hk0|Hk0]; [|left; exact Hk0].
      apply elem_of_singleton in Hk0 as ->. right. exists s.
      apply truthy_str in Ht. auto.
    - injection H1 as <-. left. exact Hk0. }
  assert (Hfrom1 : k ∈ keys1 →
            k ∈ ks
            ∨ (get m "osPlatform" = Ok (PStr "Windows")
               ∧ ∃ s, s ≠ ""
                      ∧ ((get m "azureVmId" = Ok (PStr s) ∧ k = lower s)
                         ∨ (get m "computerDnsName" = Ok (PStr s)
                            ∧ k = lower (first_label s))))).
  { intros Hin. destruct (Hk1 k Hin) as [?|(s & Hs & Heq & ->)]; [left; assumption|].
    right. split; [exact Hp|]. exists s. auto. }
  apply bind_ok in H as (dns & Hd & H).
  destruct (truthy dns) eqn:Ht.
  - apply bind_ok in H as (v & Hv & H). apply bind_ok in H as (k2 & Hk2 & H).
    injection H as <-. apply (get_getitem _ _ _ _ Hd) in Hv as ->.
    apply str_method_ok in Hk2 as (s & -> & ->).
    apply elem_of_union in Hk as [Hk|Hk]; [|exact (Hfrom1 Hk)].
    apply elem_of_singleton in Hk as ->. right. split; [exact Hp|].
    exists s. apply truthy_str in Ht. auto.
  - injection H as <-. exact (Hfrom1 Hk).
Qed.

Lemma scan_machines_sound (ms : list pyval) (k : string) :
  ∀ ks ks', scan_machines ks ms = Ok ks' → k ∈ ks' →
  k ∈ ks
  ∨ ∃ m s, m ∈ ms
           ∧ get m "osPlatform" = Ok (PStr "Windows")
           ∧ s ≠ ""
           ∧ ((get m "azureVmId" = Ok (PStr s) ∧ k = lower s)
              ∨ (get m "computerDnsName" = Ok (PStr s) ∧ k = lower (first_label s))).
Proof.
  induction ms as [|m ms IH]; intros ks ks' H Hk.
  - injection H as <-. left. exact Hk.
  - cbn [scan_machines] in H. apply bind_ok in H as (ks1 & H1 & H).
    destruct (IH _ _ H Hk) as [Hk1|(m' & s & Hin & Hrest)].
    + destruct (scan_machine_sound _ _ _ _ H1 Hk1) as [?|(Hp & s & Hs & Hor)];
        [left; assumption|].
      right. exists m, s. split; [left|]. auto.
    + right. exists m', s. split; [right; exact Hin|exact Hrest].
Qed.

(** X21.  Keys come from Windows machines alone: every key a page adds
    is the lower-cased [azureVmId], or the lower-cased first label of
    the [computerDnsName], of a machine of the page whose [osPlatform]
    is ["Windows"]; machines of other platforms add nothing. *)
Theorem page_keys_come_from_windows_machines
    (payload : pyval) (machines : list pyval) (added : gset string) (k : string) :
  get payload "value" = Ok (PList machines) →
  page_keys payload = Ok added →
  k ∈ added →
  ∃ m s, m ∈ machines
         ∧ get m "osPlatform" = Ok (PStr "Windows")
         ∧ s ≠ ""
         ∧ ((get m "azureVmId" = Ok (PStr s) ∧ k = lower s)
            ∨ (get m "computerDnsName" = Ok (PStr s) ∧ k = lower (first_label s))).
Proof.
  intros Hvalue Hpage Hk. unfold page_keys, scan_page in Hpage.
  destruct payload as [| | | | |items]; try discriminate.
  unfold get, get_default in Hvalue. unfold get_default in Hpage.
  destruct (assoc "value" items) as [v|]; [|discriminate].
  injection Hvalue as ->. cbn [bind iter] in Hpage.
  destruct (scan_machines_sound machines k _ _ Hpage Hk) as [Hempty|Hfrom]; [|exact Hfrom].
  apply not_elem_of_empty in Hempty. contradiction.
Qed.

Lemma page_keys_come_from_windows_machines_witness :
  ∃ m s, m ∈ [linux_machine; dns_only_machine]
         ∧ get m "osPlatform" = Ok (PStr "Windows")
         ∧ s ≠ ""
         ∧ ((get m "azureVmId" = Ok (PStr s) ∧ "win1" = lower s)
            ∨ (get m "computerDnsName" = Ok (PStr s) ∧ "win1" = lower (first_label s))).
Proof.
  apply (page_keys_come_from_windows_machines last_mde_page
           [linux_machine; dns_only_machine] fleet_keys "win1").
  - reflexivity.
  - vm_compute. reflexivity.
  - unfold fleet_keys. apply elem_of_singleton. reflexivity.
Defined.
